(** * ClawAPI: key vault, model selection and OpenClaw synchronisation

    A shallow embedding of the three front ends of the repository:

    - [Cli]    for [clawapi.py]        (cross-platform command line),
    - [Linux]  for [clawapi-linux.py]  (Linux command line),
    - [WebUI]  for [webui.py]          (local web console).

    The front ends share one directory of files.  Python functions become
    functions in a state-and-exception monad over a model of that
    directory; Python dictionaries become insertion-ordered association
    lists; JSON documents become values of the inductive type [json]. *)

From Stdlib Require Import List String Ascii NArith ZArith Bool Lia.
From Stdlib Require Strings.Byte.
Import ListNotations.
Local Open Scope string_scope.

Set Warnings "-register-all".

(** ** Python strings

    A Python [str] is modelled by a Rocq [string], one [ascii] per
    character (the characters U+0000 to U+00FF). *)

Definition str := string.

(** [s[:n]] for a non-negative [n]. *)
Fixpoint take (n : nat) (s : str) : str :=
  match n, s with
  | S n', String c s' => String c (take n' s')
  | _, _ => EmptyString
  end.

(** [s[n:]] for a non-negative [n]. *)
Fixpoint drop (n : nat) (s : str) : str :=
  match n, s with
  | S n', String _ s' => drop n' s'
  | _, _ => s
  end.

(** [s[-n:]] for a positive [n]: the last [n] characters, or all of [s]
    when it is shorter. *)
Definition last_chars (n : nat) (s : str) : str :=
  drop (String.length s - n) s.

(** [s.startswith(p)]. *)
Fixpoint startswith (p s : str) : bool :=
  match p, s with
  | EmptyString, _ => true
  | String a p', String b s' => Ascii.eqb a b && startswith p' s'
  | String _ _, EmptyString => false
  end.

(** [p in s] for two strings: [p] occurs in [s]. *)
Fixpoint str_contains (p s : str) : bool :=
  startswith p s ||
  match s with
  | EmptyString => false
  | String _ s' => str_contains p s'
  end.

(** [c in s] for a single character. *)
Fixpoint has_char (c : ascii) (s : str) : bool :=
  match s with
  | EmptyString => false
  | String a s' => Ascii.eqb a c || has_char c s'
  end.

(** [s.replace(c, '')] for a single character [c]. *)
Fixpoint remove_char (c : ascii) (s : str) : str :=
  match s with
  | EmptyString => EmptyString
  | String a s' =>
      if Ascii.eqb a c then remove_char c s' else String a (remove_char c s')
  end.

(** [s.split(c, 1)]: at most one split, at the first [c].  The result has
    two parts when [c] occurs in [s] and one part otherwise. *)
Fixpoint split_once (c : ascii) (s : str) : str * option str :=
  match s with
  | EmptyString => (EmptyString, None)
  | String a s' =>
      if Ascii.eqb a c then (EmptyString, Some s')
      else let (l, r) := split_once c s' in (String a l, r)
  end.

(** The characters [str.strip()] removes. *)
Definition is_space (c : ascii) : bool :=
  let n := N_of_ascii c in
  ((9 <=? n) && (n <=? 13) || (28 <=? n) && (n <=? 32)
   || (n =? 133) || (n =? 160))%N.

Fixpoint lstrip (s : str) : str :=
  match s with
  | EmptyString => EmptyString
  | String a s' => if is_space a then lstrip s' else s
  end.

Fixpoint rstrip (s : str) : str :=
  match s with
  | EmptyString => EmptyString
  | String a s' =>
      match rstrip s' with
      | EmptyString => if is_space a then EmptyString else String a EmptyString
      | r => String a r
      end
  end.

Definition strip (s : str) : str := rstrip (lstrip s).

(** [str.lower()] on the characters U+0000 to U+00FF: the letters A-Z
    and the capitals U+00C0 to U+00DE (the sign U+00D7 apart) move 32
    places up; every other character stays. *)
Definition lower_char (c : ascii) : ascii :=
  let n := N_of_ascii c in
  if ((65 <=? n) && (n <=? 90)
      || (192 <=? n) && (n <=? 222) && negb (n =? 215))%N
  then ascii_of_N (n + 32) else c.

Fixpoint map_str (f : ascii -> ascii) (s : str) : str :=
  match s with
  | EmptyString => EmptyString
  | String a s' => String (f a) (map_str f s')
  end.

Definition lower : str -> str := map_str lower_char.

(** [str.upper()] on the characters U+0000 to U+00FF: the letters a-z and
    the small letters U+00E0 to U+00FE (the sign U+00F7 apart) move 32
    places down, and U+00DF becomes the two letters [SS].  The capitals of
    U+00B5 and U+00FF lie above U+00FF, where [str] has no character:
    [upper] leaves these two as they are, and is [str.upper()] on the
    strings without them ([upper_in_range]). *)
Definition upper_char (c : ascii) : str :=
  let n := N_of_ascii c in
  if ((97 <=? n) && (n <=? 122)
      || (224 <=? n) && (n <=? 254) && negb (n =? 247))%N
  then String (ascii_of_N (n - 32)) EmptyString
  else if (n =? 223)%N then "SS"
  else String c EmptyString.

Fixpoint upper (s : str) : str :=
  match s with
  | EmptyString => EmptyString
  | String a s' => upper_char a ++ upper s'
  end.

Fixpoint upper_in_range (s : str) : bool :=
  match s with
  | EmptyString => true
  | String a s' =>
      negb ((N_of_ascii a =? 181) || (N_of_ascii a =? 255))%N
      && upper_in_range s'
  end.

(** [l[start:]] for a list and any integer [start] (negative values
    count from the end, out-of-range values are clamped). *)
Definition slice_from {A} (start : Z) (l : list A) : list A :=
  let n := Z.of_nat (List.length l) in
  let s := if (start <? 0)%Z then Z.max 0 (start + n) else Z.min start n in
  skipn (Z.to_nat s) l.

(** ** Exceptions *)

Inductive exn : Type :=
| TypeError | KeyError | AttributeError | ValueError
| UnicodeError | BinasciiError | InvalidToken | JSONDecodeError | OSError
| SystemExit (code : Z).

Inductive result (A : Type) : Type :=
| Ok (a : A)
| Raise (e : exn).
Arguments Ok {A} a.
Arguments Raise {A} e.

Definition rbind {A B} (r : result A) (k : A -> result B) : result B :=
  match r with
  | Ok a => k a
  | Raise e => Raise e
  end.

(** ** Dictionaries

    A Python [dict] with string keys keeps its keys in insertion order:
    assigning to an existing key keeps its position, assigning to a new
    key appends it. *)

Section Dict.
Context {V : Type}.

Definition dict := list (str * V).

Fixpoint dict_get (k : str) (d : dict) : option V :=
  match d with
  | [] => None
  | (k', v) :: d' => if String.eqb k' k then Some v else dict_get k d'
  end.

Definition dict_mem (k : str) (d : dict) : bool :=
  match dict_get k d with Some _ => true | None => false end.

Fixpoint dict_set (k : str) (v : V) (d : dict) : dict :=
  match d with
  | [] => [(k, v)]
  | (k', v') :: d' =>
      if String.eqb k' k then (k, v) :: d' else (k', v') :: dict_set k v d'
  end.

Definition dict_del (k : str) (d : dict) : dict :=
  filter (fun kv => negb (String.eqb (fst kv) k)) d.

End Dict.
Arguments dict V : clear implicits.

(** ** JSON documents *)

Inductive json : Type :=
| JNull
| JBool (b : bool)
| JNum (n : Z)
| JStr (s : str)
| JArr (l : list json)
| JObj (d : list (str * json)).

(** Python's [k in x], [x[k]], [x[k] = v] and [del x[k]] for a string [k]
    and a value [x] that came out of [json.load]. *)
Definition py_in (k : str) (x : json) : result bool :=
  match x with
  | JObj d => Ok (dict_mem k d)
  | JArr l =>
      Ok (existsb (fun e => match e with JStr s => String.eqb s k | _ => false end) l)
  | JStr s => Ok (str_contains k s)
  | JNull | JBool _ | JNum _ => Raise TypeError
  end.

Definition py_getitem (x : json) (k : str) : result json :=
  match x with
  | JObj d => match dict_get k d with Some v => Ok v | None => Raise KeyError end
  | _ => Raise TypeError
  end.

Definition py_setitem (x : json) (k : str) (v : json) : result json :=
  match x with
  | JObj d => Ok (JObj (dict_set k v d))
  | _ => Raise TypeError
  end.

Definition py_delitem (x : json) (k : str) : result json :=
  match x with
  | JObj d => if dict_mem k d then Ok (JObj (dict_del k d)) else Raise KeyError
  | _ => Raise TypeError
  end.

(** The value found by following a path of member names. *)
Fixpoint json_at (p : list str) (x : json) : option json :=
  match p with
  | [] => Some x
  | k :: p' =>
      match x with
      | JObj d => match dict_get k d with Some v => json_at p' v | None => None end
      | _ => None
      end
  end.

(** Equality of two documents as JSON values: the members of an object
    are compared by name, whatever their order. *)
Fixpoint json_equal (a b : json) : bool :=
  match a, b with
  | JNull, JNull => true
  | JBool x, JBool y => Bool.eqb x y
  | JNum x, JNum y => Z.eqb x y
  | JStr x, JStr y => String.eqb x y
  | JArr l, JArr m =>
      (fix go (l m : list json) : bool :=
         match l, m with
         | [], [] => true
         | x :: l', y :: m' => json_equal x y && go l' m'
         | _, _ => false
         end) l m
  | JObj d, JObj e =>
      Nat.eqb (List.length d) (List.length e) &&
      (fix all (d : list (str * json)) : bool :=
         match d with
         | [] => true
         | (k, v) :: d' =>
             match dict_get k e with
             | Some w => json_equal v w
             | None => false
             end && all d'
         end) d
  | _, _ => false
  end.

(** ** Bytes, UTF-8 and Base64 *)

Definition bytes := list Byte.byte.

Definition byte_of_N (n : N) : Byte.byte :=
  match Byte.of_N n with
  | Some b => b
  | None => Byte.x00
  end.

(** [str.encode()]: UTF-8, one byte below U+0080 and two bytes from
    U+0080 to U+00FF. *)
Definition utf8_char (c : ascii) : bytes :=
  let n := N_of_ascii c in
  if (n <? 128)%N then [byte_of_N n]
  else [byte_of_N (192 + n / 64); byte_of_N (128 + n mod 64)].

Fixpoint utf8_encode (s : str) : bytes :=
  match s with
  | EmptyString => []
  | String c s' => (utf8_char c ++ utf8_encode s')%list
  end.

(** [bytes.decode()] on the byte sequences whose text [str] can hold.
    Byte sequences that are not UTF-8 raise, as in Python.  UTF-8 with a
    character above U+00FF decodes in Python to text that [str] has no
    value for: [utf8_decode] has no right answer there, and
    [utf8_in_range] below names the byte sequences without this case. *)
Fixpoint utf8_decode (bs : bytes) : result str :=
  match bs with
  | [] => Ok EmptyString
  | b :: rest =>
      let n := Byte.to_N b in
      if (n <? 128)%N then
        rbind (utf8_decode rest) (fun s => Ok (String (ascii_of_N n) s))
      else if ((n =? 194) || (n =? 195))%N then
        match rest with
        | c :: rest' =>
            let m := Byte.to_N c in
            if ((128 <=? m) && (m <? 192))%N then
              rbind (utf8_decode rest')
                (fun s => Ok (String (ascii_of_N ((n - 192) * 64 + (m - 128))) s))
            else Raise UnicodeError
        | [] => Raise UnicodeError
        end
      else Raise UnicodeError
  end.

(** The byte sequences that [bytes.decode()] accepts: well-formed UTF-8,
    without overlong forms, surrogates or code points above U+10FFFF. *)
Definition is_cont (b : Byte.byte) : bool :=
  let m := Byte.to_N b in ((128 <=? m) && (m <? 192))%N.

Definition in_bounds (lo hi : N) (b : Byte.byte) : bool :=
  let m := Byte.to_N b in ((lo <=? m) && (m <=? hi))%N.

Fixpoint utf8_valid (bs : bytes) : bool :=
  match bs with
  | [] => true
  | b :: rest =>
      let n := Byte.to_N b in
      if (n <? 128)%N then utf8_valid rest
      else if ((194 <=? n) && (n <=? 223))%N then
        match rest with
        | c1 :: rest' => is_cont c1 && utf8_valid rest'
        | _ => false
        end
      else if ((224 <=? n) && (n <=? 239))%N then
        match rest with
        | c1 :: c2 :: rest' =>
            (if (n =? 224)%N then in_bounds 160 191 c1
             else if (n =? 237)%N then in_bounds 128 159 c1
             else is_cont c1)
            && is_cont c2 && utf8_valid rest'
        | _ => false
        end
      else if ((240 <=? n) && (n <=? 244))%N then
        match rest with
        | c1 :: c2 :: c3 :: rest' =>
            (if (n =? 240)%N then in_bounds 144 191 c1
             else if (n =? 244)%N then in_bounds 128 143 c1
             else is_cont c1)
            && is_cont c2 && is_cont c3 && utf8_valid rest'
        | _ => false
        end
      else false
  end.

(** The byte sequences on which [utf8_decode] is [bytes.decode()]: those
    Python rejects, and those whose text has no character above U+00FF. *)
Definition utf8_in_range (bs : bytes) : bool :=
  negb (utf8_valid bs)
  || match utf8_decode bs with Ok _ => true | Raise _ => false end.

(** The Base64 alphabet: the character of a 6-bit value and the value of
    a character. *)
Definition b64_char (v : N) : Byte.byte :=
  byte_of_N (if v <? 26 then v + 65
             else if v <? 52 then v + 71
             else if v <? 62 then v - 4
             else if v =? 62 then 43 else 47)%N.

Definition b64_value (b : Byte.byte) : option N :=
  let n := Byte.to_N b in
  if ((65 <=? n) && (n <=? 90))%N then Some (n - 65)%N
  else if ((97 <=? n) && (n <=? 122))%N then Some (n - 71)%N
  else if ((48 <=? n) && (n <=? 57))%N then Some (n + 4)%N
  else if (n =? 43)%N then Some 62%N
  else if (n =? 47)%N then Some 63%N
  else None.

Definition b64_pad : Byte.byte := byte_of_N 61.

(** [base64.b64encode]: three bytes give four characters, a last group of
    one or two bytes is padded with [=]. *)
Fixpoint b64encode (bs : bytes) : bytes :=
  match bs with
  | [] => []
  | [a] =>
      let a := Byte.to_N a in
      [b64_char (a / 4); b64_char ((a mod 4) * 16); b64_pad; b64_pad]%N
  | [a; b] =>
      let a := Byte.to_N a in
      let b := Byte.to_N b in
      [b64_char (a / 4); b64_char ((a mod 4) * 16 + b / 16);
       b64_char ((b mod 16) * 4); b64_pad]%N
  | a :: b :: c :: rest =>
      let a := Byte.to_N a in
      let b := Byte.to_N b in
      let c := Byte.to_N c in
      ([b64_char (a / 4); b64_char ((a mod 4) * 16 + b / 16);
        b64_char ((b mod 16) * 4 + c / 64); b64_char (c mod 64)]%N
       ++ b64encode rest)%list
  end.

(** [base64.b64decode] in its default, non-validating mode, as the loop of
    [binascii.a2b_base64]: characters outside the alphabet are skipped,
    [quad_pos] is the position in the current group of four, [leftchar]
    holds the bits not yet written, [pads] counts the [=] seen in a row, and
    [acc] is the output so far, last byte first.  A group left incomplete
    at the end of the input is an error. *)
Fixpoint a2b_base64 (bs : bytes) (quad_pos leftchar pads : N) (acc : bytes)
  : result bytes :=
  match bs with
  | [] => if (quad_pos =? 0)%N then Ok (rev acc) else Raise BinasciiError
  | c :: rest =>
      if Byte.eqb c b64_pad then
        if ((2 <=? quad_pos) && (4 <=? quad_pos + (pads + 1)))%N
        then Ok (rev acc)
        else a2b_base64 rest quad_pos leftchar
               (if (2 <=? quad_pos)%N then pads + 1 else pads)%N acc
      else
        match b64_value c with
        | None => a2b_base64 rest quad_pos leftchar pads acc
        | Some v =>
            if (quad_pos =? 0)%N then a2b_base64 rest 1 v 0 acc
            else if (quad_pos =? 1)%N then
              a2b_base64 rest 2 (v mod 16) 0
                (byte_of_N (leftchar * 4 + v / 16) :: acc)
            else if (quad_pos =? 2)%N then
              a2b_base64 rest 3 (v mod 4) 0
                (byte_of_N (leftchar * 16 + v / 4) :: acc)
            else
              a2b_base64 rest 0 0 0 (byte_of_N (leftchar * 64 + v) :: acc)
        end
  end.

Definition b64decode (bs : bytes) : result bytes := a2b_base64 bs 0 0 0 [].

(** ** The Fernet primitive

    [cryptography.fernet.Fernet] is a library of its own; the embedding
    takes it as an interface.  [generate_key] and [encrypt] draw random
    bytes (and [encrypt] the time): the draw is their argument [r].
    [key_ok k] says that [Fernet(k)] accepts [k]; [decrypt] is [None] where
    the library raises [InvalidToken]. *)
Class Fernet : Type := {
  generate_key : N -> bytes;
  key_ok : bytes -> bool;
  encrypt : bytes -> N -> bytes -> bytes;
  decrypt : bytes -> bytes -> option bytes;
  generate_key_ok : forall r, key_ok (generate_key r) = true;
  decrypt_encrypt :
    forall k r m, key_ok k = true -> decrypt k (encrypt k r m) = Some m
}.

(** ** The files

    Each file is modelled with the content the code reads from it: the
    master key file holds bytes, the activity log holds text, and every
    other path holds either the text of a JSON document, [Text j] (what
    [json.dump(j)] writes and [json.load] reads back as [j]; its layout is
    not modelled), or text that is no JSON document, [Plain s] (a file
    just truncated, a damaged store). *)

Definition path := string.

Definition KEYS_FILE : path := "~/.config/clawapi/keys.enc".
Definition CONFIG_FILE : path := "~/.config/clawapi/config.json".
Definition ACTIVITY_LOG : path := "~/.config/clawapi/activity.log".
Definition OPENCLAW_CONFIG : path := "~/.openclaw/openclaw.json".

Inductive data : Type :=
| Text (j : json)
| Plain (s : str).

Record file : Type := { content : data; mode : option N }.

Record world : Type := {
  master_key : option (bytes * option N);  (** [.master.key] and its mode *)
  log : option str;                        (** [activity.log] *)
  fs : path -> option file;                (** the other files *)
  seed : N;                                (** the next random draw *)
  now : str                                (** the formatted current time *)
}.

Definition with_master_key (k : option (bytes * option N)) (w : world) : world :=
  {| master_key := k; log := log w; fs := fs w; seed := seed w; now := now w |}.

Definition with_log (l : option str) (w : world) : world :=
  {| master_key := master_key w; log := l; fs := fs w; seed := seed w;
     now := now w |}.

Definition with_fs (s : path -> option file) (w : world) : world :=
  {| master_key := master_key w; log := log w; fs := s; seed := seed w;
     now := now w |}.

Definition with_seed (n : N) (w : world) : world :=
  {| master_key := master_key w; log := log w; fs := fs w; seed := n;
     now := now w |}.

Definition upd (p : path) (f : option file) (s : path -> option file)
  : path -> option file :=
  fun q => if String.eqb q p then f else s q.

(** *** The steps of a write

    Writing a file takes several steps, and the process may stop between
    two of them. *)
Inductive fsop : Type :=
| OpOpenW (p : path)             (** [open(p, 'w')]: create or truncate *)
| OpDump (p : path) (j : json)   (** [json.dump(j, f)], [f.write(json.dumps(j))] *)
| OpChmod (p : path) (m : N)     (** [os.chmod(p, m)] *)
| OpOpenLog                      (** [open(log_file, 'a')]: create when missing *)
| OpAppendLog (s : str).         (** [f.write(s)] at the end of the log *)

Definition op_path (o : fsop) : path :=
  match o with
  | OpOpenW p | OpDump p _ | OpChmod p _ => p
  | OpOpenLog | OpAppendLog _ => ACTIVITY_LOG
  end.

Definition apply_op (o : fsop) (w : world) : world :=
  match o with
  | OpOpenW p =>
      with_fs
        (upd p (Some {| content := Plain EmptyString;
                        mode := match fs w p with
                                | Some f => mode f
                                | None => None
                                end |}) (fs w)) w
  | OpDump p j =>
      match fs w p with
      | Some f => with_fs (upd p (Some {| content := Text j; mode := mode f |}) (fs w)) w
      | None => w
      end
  | OpChmod p m =>
      match fs w p with
      | Some f => with_fs (upd p (Some {| content := content f; mode := Some m |}) (fs w)) w
      | None => w
      end
  | OpOpenLog =>
      match log w with
      | Some _ => w
      | None => with_log (Some EmptyString) w
      end
  | OpAppendLog s =>
      match log w with
      | Some old => with_log (Some (old ++ s)) w
      | None => w
      end
  end.

Definition run_ops (ops : list fsop) (w : world) : world :=
  fold_left (fun w o => apply_op o w) ops w.

(** The files when the process stops after [n] steps of [ops]. *)
Definition crash_after (n : nat) (ops : list fsop) (w : world) : world :=
  run_ops (firstn n ops) w.

(** ** The monad of the front ends: state and exceptions *)

Definition M (A : Type) : Type := world -> result A * world.

Definition ret {A} (a : A) : M A := fun w => (Ok a, w).

Definition bind {A B} (m : M A) (k : A -> M B) : M B :=
  fun w =>
    match m w with
    | (Ok a, w') => k a w'
    | (Raise e, w') => (Raise e, w')
    end.

Definition raise {A} (e : exn) : M A := fun w => (Raise e, w).

Definition lift {A} (r : result A) : M A := fun w => (r, w).

(** [try: m  except: h] *)
Definition try_except {A} (m : M A) (h : M A) : M A :=
  fun w =>
    match m w with
    | (Ok a, w') => (Ok a, w')
    | (Raise _, w') => h w'
    end.

Notation "x <- m ;; k" := (bind m (fun x => k))
  (at level 61, m at next level, right associativity).
Notation "m ;;; k" := (bind m (fun _ => k))
  (at level 61, right associativity).

Definition exists_file (p : path) : M bool :=
  fun w => (Ok (match fs w p with Some _ => true | None => false end), w).

(** [json.load(open(p))] and [json.loads(p.read_text())]. *)
Definition json_load (p : path) : M json :=
  fun w =>
    match fs w p with
    | Some f =>
        match content f with
        | Text j => (Ok j, w)
        | Plain _ => (Raise JSONDecodeError, w)
        end
    | None => (Raise OSError, w)
    end.

Definition do_ops (ops : list fsop) : M unit :=
  fun w => (Ok tt, run_ops ops w).

Definition fresh : M N :=
  fun w => (Ok (seed w), with_seed (N.succ (seed w)) w).

(** [key_file.write_bytes(k)] and [os.chmod(key_file, m)]. *)
Definition write_master_key (k : bytes) : M unit :=
  fun w =>
    (Ok tt,
     with_master_key
       (Some (k, match master_key w with Some (_, m) => m | None => None end)) w).

Definition chmod_master_key (m : N) : M unit :=
  fun w =>
    (Ok tt,
     match master_key w with
     | Some (k, _) => with_master_key (Some (k, Some m)) w
     | None => w
     end).

(** Assignment and deletion below a path of keys,
    [x[k1]...[kn][k] = v] and [del x[k1]...[kn][k]]: the inner dictionaries
    are updated in place, so every key keeps its position. *)
Fixpoint py_setitem_at (x : json) (p : list str) (k : str) (v : json)
  : result json :=
  match p with
  | [] => py_setitem x k v
  | k1 :: p' =>
      rbind (py_getitem x k1) (fun inner =>
      rbind (py_setitem_at inner p' k v) (fun inner' =>
      py_setitem x k1 inner'))
  end.

Fixpoint py_delitem_at (x : json) (p : list str) (k : str) : result json :=
  match p with
  | [] => py_delitem x k
  | k1 :: p' =>
      rbind (py_getitem x k1) (fun inner =>
      rbind (py_delitem_at inner p' k) (fun inner' =>
      py_setitem x k1 inner'))
  end.

(** [x.encode()] for a value out of a JSON document: only a string has
    the method. *)
Definition py_encode (x : json) : result bytes :=
  match x with
  | JStr s => Ok (utf8_encode s)
  | _ => Raise AttributeError
  end.

(** ** Encryption helpers

    [get_master_key], [encrypt_key] and [decrypt_key] are the same in the
    three files. *)
Section Crypto.
Context `{Fernet}.

Definition get_master_key : M bytes :=
  fun w =>
    match master_key w with
    | Some (k, _) => (Ok k, w)
    | None =>
        (r <- fresh ;;
         let key := generate_key r in
         write_master_key key ;;;
         chmod_master_key 384 ;;;
         ret key) w
    end.

(** [Fernet(key)] *)
Definition new_fernet (key : bytes) : M bytes :=
  if key_ok key then ret key else raise ValueError.

Definition encrypt_key (key : str) : M str :=
  k <- get_master_key ;;
  f <- new_fernet k ;;
  r <- fresh ;;
  lift (utf8_decode (b64encode (encrypt f r (utf8_encode key)))).

Definition decrypt_key (encrypted : json) : M str :=
  k <- get_master_key ;;
  f <- new_fernet k ;;
  raw <- lift (py_encode encrypted) ;;
  token <- lift (b64decode raw) ;;
  plain <- lift (match decrypt f token with
                 | Some m => Ok m
                 | None => Raise InvalidToken
                 end) ;;
  lift (utf8_decode plain).

End Crypto.

(** ** The provider catalogue *)

Record provider : Type := {
  p_name : str;
  p_default_model : str;
  p_local : bool
}.

Definition mk (n m : str) : provider :=
  {| p_name := n; p_default_model := m; p_local := false |}.

Definition CORE_PROVIDERS : dict provider :=
  [ ("openai", mk "OpenAI" "gpt-4o");
    ("anthropic", mk "Anthropic" "claude-sonnet-4-6");
    ("google", mk "Google" "gemini-2.0-flash");
    ("xai", mk "xAI" "grok-2");
    ("groq", mk "Groq" "llama-3.3-70b-versatile");
    ("mistral", mk "Mistral" "mistral-small-latest");
    ("ollama", {| p_name := "Ollama"; p_default_model := "llama3.3"; p_local := true |});
    ("minimax", mk "MiniMax" "MiniMax-M2.1");
    ("zai", mk "Zhipu AI (GLM)" "glm-4") ].

Definition MORE_PROVIDERS (kimi : str) : dict provider :=
  [ ("openrouter", mk "OpenRouter" "anthropic/claude-3.5-sonnet");
    ("cerebras", mk "Cerebras" "llama-3.3-70b");
    ("huggingface", mk "HuggingFace" "meta-llama/Llama-3.3-70B-Instruct");
    ("kimi-coding", mk kimi "kimi-coder-flash");
    ("opencode", mk "OpenCode" "opencode");
    ("vercel-ai-gateway", mk "Vercel AI Gateway" "gpt-4o") ].

(** [PROVIDERS[pid]['name']] *)
Definition provider_name (catalogue : dict provider) (pid : str) : result str :=
  match dict_get pid catalogue with
  | Some p => Ok (p_name p)
  | None => Raise KeyError
  end.

(** [PROVIDERS.get(pid, {}).get('name', pid)] *)
Definition provider_name_or (catalogue : dict provider) (pid : str) : str :=
  match dict_get pid catalogue with
  | Some p => p_name p
  | None => pid
  end.

Definition nl : str := String (ascii_of_N 10) EmptyString.

(** ** [clawapi.py]

    On Linux [get_config_dir()] is [~/.config/clawapi], the directory of
    the other two front ends.  What the functions print is not modelled,
    except for the line [show_key] prints, which is its result here. *)
Module Cli.

Definition PROVIDERS : dict provider :=
  (CORE_PROVIDERS ++ MORE_PROVIDERS "Kimi Coding")%list.

Definition load_keys : M json :=
  e <- exists_file KEYS_FILE ;;
  if negb e then ret (JObj [])
  else try_except (json_load KEYS_FILE) (ret (JObj [])).

Definition save_keys_ops (keys : json) : list fsop :=
  [OpOpenW KEYS_FILE; OpDump KEYS_FILE keys; OpChmod KEYS_FILE 384].

Definition save_keys (keys : json) : M unit := do_ops (save_keys_ops keys).

Definition load_config : M json :=
  e <- exists_file CONFIG_FILE ;;
  if e then json_load CONFIG_FILE
  else ret (JObj [("selected_models", JObj [])]).

Definition save_config_ops (config : json) : list fsop :=
  [OpOpenW CONFIG_FILE; OpDump CONFIG_FILE config].

Definition save_config (config : json) : M unit :=
  do_ops (save_config_ops config).

Definition add_provider `{Fernet} (pid api_key : str) : M unit :=
  if negb (dict_mem pid PROVIDERS) then ret tt
  else
    keys <- load_keys ;;
    encrypted <- encrypt_key api_key ;;
    keys <- lift (py_setitem keys pid (JStr encrypted)) ;;
    save_keys keys.

Definition openclaw_ops (oc : json) : list fsop :=
  [OpOpenW OPENCLAW_CONFIG; OpDump OPENCLAW_CONFIG oc].

Definition set_model (pid model : str) : M unit :=
  config <- load_config ;;
  has <- lift (py_in "selected_models" config) ;;
  config <- (if negb has
             then lift (py_setitem config "selected_models" (JObj []))
             else ret config) ;;
  config <- lift (py_setitem_at config ["selected_models"] pid (JStr model)) ;;
  save_config config ;;;
  e <- exists_file OPENCLAW_CONFIG ;;
  if e then
    try_except
      (oc <- json_load OPENCLAW_CONFIG ;;
       oc <- lift (py_setitem oc "defaultModel" (JStr model)) ;;
       oc <- lift (py_setitem oc "model" (JStr model)) ;;
       do_ops (openclaw_ops oc))
      (ret tt)
  else ret tt.

(** [x[:10]] on a value out of the vault: a string is sliced, a list is
    sliced too (and then has no [encode]), anything else cannot be
    sliced. *)
Definition py_slice10 (x : json) : result json :=
  match x with
  | JStr s => Ok (JStr (take 10 s))
  | JArr l => Ok (JArr (firstn 10 l))
  | _ => Raise TypeError
  end.

Definition show_key `{Fernet} (pid : str) : M str :=
  keys <- load_keys ;;
  has <- lift (py_in pid keys) ;;
  if negb has then
    name <- lift (provider_name PROVIDERS pid) ;;
    ret (name ++ ": No key stored")
  else
    name <- lift (provider_name PROVIDERS pid) ;;
    entry <- lift (py_getitem keys pid) ;;
    head <- lift (py_slice10 entry) ;;
    shown <- decrypt_key head ;;
    entry <- lift (py_getitem keys pid) ;;
    key <- decrypt_key entry ;;
    ret (name ++ ": " ++ shown ++ "..." ++ last_chars 4 key).

Definition remove_provider (pid : str) : M unit :=
  keys <- load_keys ;;
  has <- lift (py_in pid keys) ;;
  if has then
    keys <- lift (py_delitem keys pid) ;;
    save_keys keys ;;;
    config <- load_config ;;
    c1 <- lift (py_in "selected_models" config) ;;
    c2 <- (if c1
           then sm <- lift (py_getitem config "selected_models") ;;
                lift (py_in pid sm)
           else ret false) ;;
    (if c2
     then config <- lift (py_delitem_at config ["selected_models"] pid) ;;
          save_config config
     else ret tt) ;;;
    name <- lift (provider_name PROVIDERS pid) ;;
    ret tt
  else ret tt.

End Cli.

(** ** [clawapi-linux.py]

    Here [load_keys] returns the decrypted credentials and [save_keys]
    encrypts all of them again. *)
Module Linux.

Definition PROVIDERS : dict provider := CORE_PROVIDERS.

(** [data.items()] *)
Definition py_items (x : json) : result (list (str * json)) :=
  match x with
  | JObj d => Ok d
  | _ => Raise AttributeError
  end.

(** [{provider: decrypt_key(encrypted) for provider, encrypted in items}],
    with the dictionary built so far in [acc]. *)
Fixpoint decrypt_items `{Fernet} (items : list (str * json)) (acc : dict str)
  : M (dict str) :=
  match items with
  | [] => ret acc
  | (provider, encrypted) :: rest =>
      key <- decrypt_key encrypted ;;
      decrypt_items rest (dict_set provider key acc)
  end.

Definition load_keys `{Fernet} : M (dict str) :=
  e <- exists_file KEYS_FILE ;;
  if negb e then ret []
  else
    try_except
      (data <- json_load KEYS_FILE ;;
       items <- lift (py_items data) ;;
       decrypt_items items [])
      (ret []).

(** [{provider: encrypt_key(key) for provider, key in keys.items()}] *)
Fixpoint encrypt_items `{Fernet} (items : dict str) (acc : dict json)
  : M (dict json) :=
  match items with
  | [] => ret acc
  | (provider, key) :: rest =>
      encrypted <- encrypt_key key ;;
      encrypt_items rest (dict_set provider (JStr encrypted) acc)
  end.

Definition save_keys_ops (encrypted : dict json) : list fsop :=
  [OpOpenW KEYS_FILE; OpDump KEYS_FILE (JObj encrypted); OpChmod KEYS_FILE 384].

Definition save_keys `{Fernet} (keys : dict str) : M unit :=
  encrypted <- encrypt_items keys [] ;;
  do_ops (save_keys_ops encrypted).

Definition add_key `{Fernet} (provider api_key : str) : M unit :=
  let provider := lower provider in
  if negb (dict_mem provider PROVIDERS) then raise (SystemExit 1)
  else
    keys <- load_keys ;;
    save_keys (dict_set provider api_key keys).

Definition get_openclaw_config_path : M (option path) :=
  e <- exists_file OPENCLAW_CONFIG ;;
  ret (if e then Some OPENCLAW_CONFIG else None).

Definition provider_entry (provider model api_key : str) : json :=
  JObj [("provider", JStr provider); ("model", JStr model);
        ("apiKey", JStr api_key)].

Definition write_config_ops (config_path : path) (config : json) : list fsop :=
  [OpOpenW config_path; OpDump config_path config].

Definition sync_to_openclaw (provider model api_key : str) : M bool :=
  found <- get_openclaw_config_path ;;
  match found with
  | None => ret false
  | Some config_path =>
      config <- try_except (json_load config_path) (ret (JObj [])) ;;
      has <- lift (py_in "models" config) ;;
      config <- (if negb has
                 then lift (py_setitem config "models" (JObj []))
                 else ret config) ;;
      models <- lift (py_getitem config "models") ;;
      has <- lift (py_in "providers" models) ;;
      config <- (if negb has
                 then lift (py_setitem_at config ["models"] "providers" (JObj []))
                 else ret config) ;;
      let provider_key := provider ++ ":default" in
      config <- lift (py_setitem_at config ["models"; "providers"] provider_key
                        (provider_entry provider model api_key)) ;;
      do_ops (write_config_ops config_path config) ;;;
      ret true
  end.

Definition set_model `{Fernet} (provider : str) (model : option str) : M unit :=
  let provider := lower provider in
  match dict_get provider PROVIDERS with
  | None => raise (SystemExit 1)
  | Some info =>
      keys <- load_keys ;;
      match dict_get provider keys with
      | None => raise (SystemExit 1)
      | Some api_key =>
          let model := match model with
                       | Some m => m
                       | None => p_default_model info
                       end in
          synced <- sync_to_openclaw provider model api_key ;;
          ret tt
      end
  end.

Definition remove_key `{Fernet} (provider : str) : M unit :=
  let provider := lower provider in
  keys <- load_keys ;;
  if dict_mem provider keys then
    save_keys (dict_del provider keys) ;;;
    name <- lift (provider_name PROVIDERS provider) ;;
    ret tt
  else ret tt.

(** [key[:8] + "..." + key[-4:] if len(key) > 12 else "***"] *)
Definition masked (key : str) : str :=
  if Nat.ltb 12 (String.length key)
  then take 8 key ++ "..." ++ last_chars 4 key
  else "***".

Definition show_key `{Fernet} (provider : str) : M str :=
  let provider := lower provider in
  keys <- load_keys ;;
  match dict_get provider keys with
  | None => ret ("No key found for " ++ provider)
  | Some key => ret (provider ++ ": " ++ masked key)
  end.

End Linux.

(** ** [webui.py]

    A form field that the request lacks is [None]; the provider field is
    taken as present. *)
Module WebUI.

Definition PROVIDERS : dict provider :=
  (CORE_PROVIDERS ++ MORE_PROVIDERS "Kimi Coding (Moonshot)")%list.

(** [load_keys], [save_keys], [load_config] and [save_config] are those
    of [clawapi.py], line for line. *)
Definition load_keys : M json := Cli.load_keys.
Definition save_keys : json -> M unit := Cli.save_keys.
Definition load_config : M json := Cli.load_config.
Definition save_config : json -> M unit := Cli.save_config.

Definition py_optstr (x : option str) : json :=
  match x with
  | Some s => JStr s
  | None => JNull
  end.

Definition openclaw_ops (config : json) : list fsop :=
  [OpOpenW OPENCLAW_CONFIG; OpDump OPENCLAW_CONFIG config].

Definition update_openclaw_model (model : json) : M bool :=
  e <- exists_file OPENCLAW_CONFIG ;;
  if e then
    config <- json_load OPENCLAW_CONFIG ;;
    config <- lift (py_setitem config "defaultModel" model) ;;
    config <- lift (py_setitem config "model" model) ;;
    do_ops (openclaw_ops config) ;;;
    ret true
  else ret false.

Definition log_line (timestamp level message : str) : str :=
  timestamp ++ " [" ++ upper level ++ "] " ++ message ++ nl.

Definition log_activity_ops (timestamp message level : str) : list fsop :=
  [OpOpenLog; OpAppendLog (log_line timestamp level message)].

Definition log_activity (message level : str) : M unit :=
  fun w => do_ops (log_activity_ops (now w) message level) w.

(** [f.readlines()] of a file opened in text mode: the line ends [\r\n]
    and [\r] are read as [\n], and every line keeps its line end. *)
Fixpoint readlines (s : str) : list str :=
  match s with
  | EmptyString => []
  | String c s' =>
      if (N_of_ascii c =? 10)%N then nl :: readlines s'
      else if (N_of_ascii c =? 13)%N then
        match s' with
        | String c' s'' =>
            if (N_of_ascii c' =? 10)%N then nl :: readlines s''
            else nl :: readlines s'
        | EmptyString => [nl]
        end
      else
        match readlines s' with
        | [] => [String c EmptyString]
        | l :: ls => String c l :: ls
        end
  end.

Record log_entry : Type := { time : str; message : str; level : str }.

(** The body of the loop of [get_activity_logs]: the entry a line gives,
    or [None] for a line that is skipped. *)
Definition parse_line (line : str) : option log_entry :=
  match split_once "]" (strip line) with
  | (part0, Some part1) =>
      let time_part := remove_char "[" part0 in
      let msg := strip part1 in
      if has_char "[" msg then
        match split_once "]" msg with
        | (m0, Some m1) =>
            Some {| time := time_part; message := strip m1; level := strip m0 |}
        | (_, None) =>
            Some {| time := time_part; message := msg; level := "info" |}
        end
      else Some {| time := time_part; message := msg; level := "info" |}
  | (_, None) => None
  end.

Fixpoint parse_lines (lines : list str) : list log_entry :=
  match lines with
  | [] => []
  | line :: rest =>
      match parse_line line with
      | Some e => e :: parse_lines rest
      | None => parse_lines rest
      end
  end.

Definition get_activity_logs (limit : Z) : M (list log_entry) :=
  fun w =>
    match log w with
    | Some text =>
        let lines := slice_from (- limit) (readlines text) in
        (Ok (rev (parse_lines lines)), w)
    | None => (Ok [], w)
    end.

Definition remove_key (provider : str) : M unit :=
  keys <- load_keys ;;
  config <- load_config ;;
  has <- lift (py_in provider keys) ;;
  keys <- (if has then lift (py_delitem keys provider) else ret keys) ;;
  c1 <- lift (py_in "selected_models" config) ;;
  c2 <- (if c1
         then sm <- lift (py_getitem config "selected_models") ;;
              lift (py_in provider sm)
         else ret false) ;;
  config <- (if c2
             then lift (py_delitem_at config ["selected_models"] provider)
             else ret config) ;;
  save_keys keys ;;;
  save_config config ;;;
  log_activity ("Removed provider: " ++ provider_name_or PROVIDERS provider) "info".

Definition set_model (provider : str) (model : option str) : M unit :=
  config <- load_config ;;
  has <- lift (py_in "selected_models" config) ;;
  config <- (if negb has
             then lift (py_setitem config "selected_models" (JObj []))
             else ret config) ;;
  config <- lift (py_setitem_at config ["selected_models"] provider (py_optstr model)) ;;
  save_config config ;;;
  updated <- update_openclaw_model (py_optstr model) ;;
  if updated then
    log_activity
      ("Set default model to " ++ match model with Some m => m | None => "None" end
       ++ " (" ++ provider_name_or PROVIDERS provider ++ ")") "success"
  else ret tt.

(** [x.get(k, default)] and [list(x.keys())] for a value out of
    [json.load]: only a dictionary has the methods. *)
Definition py_get (x : json) (k : str) (default : json) : result json :=
  match x with
  | JObj d => Ok (match dict_get k d with Some v => v | None => default end)
  | _ => Raise AttributeError
  end.

Definition py_keys (x : json) : result (list str) :=
  match x with
  | JObj d => Ok (map fst d)
  | _ => Raise AttributeError
  end.

Definition get_openclaw_config : M json :=
  e <- exists_file OPENCLAW_CONFIG ;;
  if e then json_load OPENCLAW_CONFIG else ret (JObj []).

(** The loop of [get_configured_providers]: the local providers of the
    catalogue that are not listed yet are added at the end. *)
Fixpoint add_local (catalogue : dict provider) (providers : list str) : list str :=
  match catalogue with
  | [] => providers
  | (p_id, p_data) :: rest =>
      if p_local p_data && negb (existsb (String.eqb p_id) providers)
      then add_local rest (providers ++ [p_id])
      else add_local rest providers
  end.

Definition get_configured_providers : M (list str) :=
  keys <- load_keys ;;
  config <- load_config ;;
  providers <- lift (py_keys keys) ;;
  ret (add_local PROVIDERS providers).

Definition get_selected_models : M json :=
  config <- load_config ;;
  lift (py_get config "selected_models" (JObj [])).

Definition get_openclaw_model : M json :=
  config <- get_openclaw_config ;;
  fallback <- lift (py_get config "model" (JStr "Not set")) ;;
  lift (py_get config "defaultModel" fallback).

(** The route [/add_key]; [default_model] is [''] when the form lacks
    the field. *)
Definition add_key (provider : option str) (default_model : str) : M unit :=
  keys <- load_keys ;;
  config <- load_config ;;
  match provider with
  | None => ret tt
  | Some provider =>
      if dict_mem provider PROVIDERS then
        keys <- lift (py_setitem keys provider (JStr "configured")) ;;
        config <- (if negb (String.eqb default_model "") then
                     has <- lift (py_in "selected_models" config) ;;
                     config <- (if negb has
                                then lift (py_setitem config "selected_models" (JObj []))
                                else ret config) ;;
                     lift (py_setitem_at config ["selected_models"] provider
                             (JStr default_model))
                   else ret config) ;;
        save_keys keys ;;;
        save_config config ;;;
        name <- lift (provider_name PROVIDERS provider) ;;
        log_activity ("Added provider: " ++ name) "success"
      else ret tt
  end.

(** The route [/reset]. *)
Definition reset_all : M unit :=
  save_keys (JObj []) ;;;
  save_config (JObj [("selected_models", JObj [])]) ;;;
  log_activity "Reset all settings" "info".

End WebUI.

(** * Properties *)

(** ** Dictionaries *)

Section DictFacts.
Context {V : Type}.
Implicit Types (d : dict V) (k : str) (v : V).

Lemma dict_get_set_same d k v : dict_get k (dict_set k v d) = Some v.
Proof.
  induction d as [|[k' v'] d IH]; simpl.
  - now rewrite String.eqb_refl.
  - destruct (String.eqb k' k) eqn:E; simpl.
    + now rewrite String.eqb_refl.
    + now rewrite E.
Qed.

Lemma dict_get_set_other d k k' v :
  k' <> k -> dict_get k' (dict_set k v d) = dict_get k' d.
Proof.
  intros Hne. induction d as [|[k0 v0] d IH]; simpl.
  - destruct (String.eqb_spec k k'); congruence.
  - destruct (String.eqb_spec k0 k) as [->|Hk]; simpl.
    + destruct (String.eqb_spec k k'); congruence.
    + destruct (String.eqb_spec k0 k'); auto.
Qed.

Lemma dict_get_del_same d k : dict_get k (dict_del k d) = None.
Proof.
  induction d as [|[k0 v0] d IH]; simpl; auto.
  destruct (String.eqb_spec k0 k) as [->|Hk]; simpl; auto.
  destruct (String.eqb_spec k0 k); congruence.
Qed.

Lemma dict_get_del_other d k k' :
  k' <> k -> dict_get k' (dict_del k d) = dict_get k' d.
Proof.
  intros Hne. induction d as [|[k0 v0] d IH]; simpl; auto.
  destruct (String.eqb_spec k0 k) as [->|Hk]; simpl.
  - destruct (String.eqb_spec k k'); congruence.
  - destruct (String.eqb_spec k0 k'); auto.
Qed.

Lemma dict_mem_false d k : dict_mem k d = false <-> dict_get k d = None.
Proof.
  unfold dict_mem. destruct (dict_get k d); split; congruence.
Qed.

End DictFacts.

(** ** Strings *)

Lemma take_drop (n : nat) (s : str) : take n s ++ drop n s = s.
Proof.
  revert s. induction n as [|n IH]; intros [|c s]; simpl; auto.
  now rewrite IH.
Qed.

Lemma length_take (n : nat) (s : str) :
  String.length (take n s) = Nat.min n (String.length s).
Proof. revert s. induction n; intros [|c s]; simpl; auto. Qed.

Lemma length_drop (n : nat) (s : str) :
  String.length (drop n s) = String.length s - n.
Proof. revert s. induction n; intros [|c s]; simpl; auto. Qed.

Lemma drop_drop (n m : nat) (s : str) : drop n (drop m s) = drop (m + n) s.
Proof.
  revert s. induction m as [|m IH]; intros s; simpl; auto.
  destruct s as [|c s]; simpl.
  - now destruct n.
  - apply IH.
Qed.

Lemma drop_take_split (n m : nat) (s : str) :
  n <= m -> drop n s = take (m - n) (drop n s) ++ drop m s.
Proof.
  intros Hle. rewrite <- (take_drop (m - n) (drop n s)) at 1.
  rewrite drop_drop. now replace (n + (m - n)) with m by lia.
Qed.

(** ** The masked view of a credential *)

(** The format of [masked]: a credential longer than 12 characters is
    shown as its first 8 characters, the marker [...] and its last 4
    characters; any shorter credential is shown as the fixed marker
    [***], whatever it is. *)
Theorem masked_format (key : str) :
  (12 < String.length key ->
   exists first middle last : str,
     key = first ++ middle ++ last /\
     String.length first = 8 /\ String.length last = 4 /\
     Linux.masked key = first ++ "..." ++ last) /\
  (String.length key <= 12 -> Linux.masked key = "***").
Proof.
  unfold Linux.masked. split; intros Hlen.
  - assert (Hlt : Nat.ltb 12 (String.length key) = true)
      by (apply Nat.ltb_lt; exact Hlen).
    rewrite Hlt. unfold last_chars.
    exists (take 8 key),
           (take (String.length key - 4 - 8) (drop 8 key)),
           (drop (String.length key - 4) key).
    repeat split.
    + rewrite <- (drop_take_split 8 (String.length key - 4) key) by lia.
      symmetry. apply take_drop.
    + rewrite length_take. lia.
    + rewrite length_drop. lia.
  - assert (Hge : Nat.ltb 12 (String.length key) = false)
      by (apply Nat.ltb_ge; exact Hlen).
    now rewrite Hge.
Qed.

Lemma masked_format_witness :
  (exists first middle last : str,
     "sk-ABCDEFGHIJKLMNOP" = first ++ middle ++ last /\
     String.length first = 8 /\ String.length last = 4 /\
     Linux.masked "sk-ABCDEFGHIJKLMNOP" = first ++ "..." ++ last) /\
  Linux.masked "abcdef" = "***".
Proof.
  split.
  - apply (proj1 (masked_format "sk-ABCDEFGHIJKLMNOP")). simpl. lia.
  - apply (proj2 (masked_format "abcdef")). simpl. lia.
Defined.

Example masked_example : Linux.masked "sk-ABCDEFGHIJKLMNOP" = "sk-ABCDE...MNOP".
Proof. reflexivity. Qed.

(** ** Bytes, Base64 and UTF-8 *)

Ltac Zify.zify_post_hook ::= Z.to_euclidean_division_equations.

(** Decides the comparisons of [N] that occur in the goal. *)
Ltac split_tests :=
  repeat match goal with
    | |- context [N.ltb ?a ?b] => destruct (N.ltb_spec a b)
    | |- context [N.leb ?a ?b] => destruct (N.leb_spec a b)
    | |- context [N.eqb ?a ?b] => destruct (N.eqb_spec a b)
    end;
  simpl; try reflexivity; try lia.

Lemma to_N_byte_of_N (n : N) : (n < 256)%N -> Byte.to_N (byte_of_N n) = n.
Proof.
  intros Hn. unfold byte_of_N. destruct (Byte.of_N n) as [b|] eqn:E.
  - now apply Byte.to_of_N.
  - apply Byte.of_N_None_iff in E. lia.
Qed.

Lemma byte_of_N_to_N (b : Byte.byte) : byte_of_N (Byte.to_N b) = b.
Proof. unfold byte_of_N. now rewrite Byte.of_to_N. Qed.

Lemma to_N_lt_256 (b : Byte.byte) : (Byte.to_N b < 256)%N.
Proof. pose proof (Byte.to_N_bounded b). lia. Qed.

Lemma to_N_b64_char (v : N) :
  Byte.to_N (b64_char v) =
  (if v <? 26 then v + 65
   else if v <? 52 then v + 71
   else if v <? 62 then v - 4
   else if v =? 62 then 43 else 47)%N.
Proof. unfold b64_char. apply to_N_byte_of_N. split_tests. Qed.

Lemma b64_value_char (v : N) : (v < 64)%N -> b64_value (b64_char v) = Some v.
Proof.
  intros Hv. unfold b64_value. rewrite to_N_b64_char.
  split_tests; f_equal; lia.
Qed.

Lemma b64_char_not_pad (v : N) : Byte.eqb (b64_char v) b64_pad = false.
Proof.
  destruct (Byte.eqb (b64_char v) b64_pad) eqn:E; auto.
  apply Byte.byte_dec_bl in E. apply (f_equal Byte.to_N) in E.
  rewrite to_N_b64_char in E. unfold b64_pad in E.
  rewrite to_N_byte_of_N in E by lia. revert E. split_tests.
Qed.

Lemma b64_char_ascii (v : N) : (Byte.to_N (b64_char v) < 128)%N.
Proof. rewrite to_N_b64_char. split_tests. Qed.

Lemma b64_pad_ascii : (Byte.to_N b64_pad < 128)%N.
Proof. unfold b64_pad. rewrite to_N_byte_of_N; lia. Qed.

(** One turn of the decoding loop on a character of the alphabet. *)
Lemma a2b_base64_char (v : N) (rest : bytes) (q l p : N) (acc : bytes) :
  (v < 64)%N ->
  a2b_base64 (b64_char v :: rest) q l p acc =
  if (q =? 0)%N then a2b_base64 rest 1 v 0 acc
  else if (q =? 1)%N then
    a2b_base64 rest 2 (v mod 16) 0 (byte_of_N (l * 4 + v / 16) :: acc)
  else if (q =? 2)%N then
    a2b_base64 rest 3 (v mod 4) 0 (byte_of_N (l * 16 + v / 4) :: acc)
  else a2b_base64 rest 0 0 0 (byte_of_N (l * 64 + v) :: acc).
Proof.
  intros Hv. simpl. now rewrite b64_char_not_pad, b64_value_char.
Qed.

(** Induction on a list of bytes in groups of three. *)
Lemma bytes_ind3 (P : bytes -> Prop) :
  P [] ->
  (forall a, P [a]) ->
  (forall a b, P [a; b]) ->
  (forall a b c rest, P rest -> P (a :: b :: c :: rest)) ->
  forall bs, P bs.
Proof.
  intros H0 H1 H2 H3.
  fix IH 1. intros [|a [|b [|c rest]]].
  - exact H0.
  - apply H1.
  - apply H2.
  - apply H3, IH.
Qed.

Lemma a2b_base64_encode (bs acc : bytes) :
  a2b_base64 (b64encode bs) 0 0 0 acc = Ok (rev acc ++ bs)%list.
Proof.
  revert acc. induction bs as [|a|a b|a b c rest IH] using bytes_ind3; intros acc.
  - simpl. now rewrite app_nil_r.
  - pose proof (to_N_lt_256 a).
    cbn [b64encode].
    rewrite !a2b_base64_char by lia. cbn [N.eqb Pos.eqb].
    simpl.
    replace (Byte.to_N a / 4 * 4 + Byte.to_N a mod 4 * 16 / 16)%N
      with (Byte.to_N a) by lia.
    now rewrite byte_of_N_to_N.
  - pose proof (to_N_lt_256 a). pose proof (to_N_lt_256 b).
    cbn [b64encode].
    rewrite !a2b_base64_char by lia. cbn [N.eqb Pos.eqb].
    simpl.
    replace (Byte.to_N a / 4 * 4
             + (Byte.to_N a mod 4 * 16 + Byte.to_N b / 16) / 16)%N
      with (Byte.to_N a) by lia.
    replace ((Byte.to_N a mod 4 * 16 + Byte.to_N b / 16) mod 16 * 16
             + Byte.to_N b mod 16 * 4 / 4)%N
      with (Byte.to_N b) by lia.
    rewrite !byte_of_N_to_N. now rewrite <- app_assoc.
  - pose proof (to_N_lt_256 a). pose proof (to_N_lt_256 b).
    pose proof (to_N_lt_256 c).
    cbn [b64encode app].
    rewrite !a2b_base64_char by lia. cbn [N.eqb Pos.eqb].
    rewrite IH.
    replace (Byte.to_N a / 4 * 4
             + (Byte.to_N a mod 4 * 16 + Byte.to_N b / 16) / 16)%N
      with (Byte.to_N a) by lia.
    replace ((Byte.to_N a mod 4 * 16 + Byte.to_N b / 16) mod 16 * 16
             + (Byte.to_N b mod 16 * 4 + Byte.to_N c / 64) / 4)%N
      with (Byte.to_N b) by lia.
    replace ((Byte.to_N b mod 16 * 4 + Byte.to_N c / 64) mod 4 * 64
             + Byte.to_N c mod 64)%N
      with (Byte.to_N c) by lia.
    rewrite !byte_of_N_to_N. simpl. now rewrite <- !app_assoc.
Qed.

(** [b64decode] undoes [b64encode]. *)
Lemma b64decode_b64encode (bs : bytes) : b64decode (b64encode bs) = Ok bs.
Proof. unfold b64decode. now rewrite a2b_base64_encode. Qed.

Lemma N_of_ascii_lt_256 (c : ascii) : (N_of_ascii c < 256)%N.
Proof. apply N_ascii_bounded. Qed.

(** [decode] undoes [encode]. *)
Lemma utf8_decode_encode (s : str) : utf8_decode (utf8_encode s) = Ok s.
Proof.
  induction s as [|c s IH]; simpl; auto.
  pose proof (N_of_ascii_lt_256 c) as Hc.
  unfold utf8_char. destruct (N.ltb_spec (N_of_ascii c) 128) as [Hlt|Hge].
  - cbn [app utf8_decode]. rewrite to_N_byte_of_N by lia.
    destruct (N.ltb_spec (N_of_ascii c) 128); try lia.
    rewrite IH. cbn [rbind]. now rewrite ascii_N_embedding.
  - cbn [app utf8_decode]. rewrite !to_N_byte_of_N by lia.
    destruct (N.ltb_spec (192 + N_of_ascii c / 64) 128); try lia.
    assert (Hlead : ((192 + N_of_ascii c / 64 =? 194)
                     || (192 + N_of_ascii c / 64 =? 195))%N = true).
    { apply orb_true_iff. rewrite !N.eqb_eq. lia. }
    rewrite Hlead.
    assert (Hcont : ((128 <=? 128 + N_of_ascii c mod 64)
                     && (128 + N_of_ascii c mod 64 <? 192))%N = true).
    { apply andb_true_iff. rewrite N.leb_le, N.ltb_lt. lia. }
    rewrite Hcont, IH. cbn [rbind].
    replace ((192 + N_of_ascii c / 64 - 192) * 64
             + (128 + N_of_ascii c mod 64 - 128))%N
      with (N_of_ascii c) by lia.
    now rewrite ascii_N_embedding.
Qed.

(** Bytes below 128 decode to one character each, and encode back to
    themselves. *)
Lemma utf8_decode_ascii (bs : bytes) :
  Forall (fun b => (Byte.to_N b < 128)%N) bs ->
  exists s, utf8_decode bs = Ok s /\ utf8_encode s = bs.
Proof.
  induction 1 as [|b bs Hb _ [s [Hs Hs']]].
  - exists EmptyString. auto.
  - exists (String (ascii_of_N (Byte.to_N b)) s). split.
    + cbn [utf8_decode]. destruct (N.ltb_spec (Byte.to_N b) 128); try lia.
      now rewrite Hs.
    + cbn [utf8_encode]. unfold utf8_char.
      rewrite N_ascii_embedding by lia.
      destruct (N.ltb_spec (Byte.to_N b) 128); try lia.
      rewrite byte_of_N_to_N, Hs'. reflexivity.
Qed.

Lemma b64encode_ascii (bs : bytes) :
  Forall (fun b => (Byte.to_N b < 128)%N) (b64encode bs).
Proof.
  induction bs as [|a|a b|a b c rest IH] using bytes_ind3; cbn [b64encode].
  - constructor.
  - repeat constructor; auto using b64_char_ascii, b64_pad_ascii.
  - repeat constructor; auto using b64_char_ascii, b64_pad_ascii.
  - apply Forall_app. split; auto.
    repeat constructor; auto using b64_char_ascii.
Qed.

(** ** Sealing and opening a credential

    What [encrypt_key] and [decrypt_key] compute once the master key [k]
    and the random draw [r] are known. *)
Section Seal.
Context `{Fernet}.

Definition seal (k : bytes) (r : N) (key : str) : result str :=
  utf8_decode (b64encode (encrypt k r (utf8_encode key))).

Definition unseal (k : bytes) (encrypted : json) : result str :=
  rbind (py_encode encrypted) (fun raw =>
  rbind (b64decode raw) (fun token =>
  rbind (match decrypt k token with
         | Some m => Ok m
         | None => Raise InvalidToken
         end) utf8_decode)).

Lemma seal_ok (k : bytes) (r : N) (key : str) :
  exists ct, seal k r key = Ok ct /\
             utf8_encode ct = b64encode (encrypt k r (utf8_encode key)).
Proof. apply utf8_decode_ascii, b64encode_ascii. Qed.

Lemma unseal_seal (k : bytes) (r : N) (key ct : str) :
  key_ok k = true -> seal k r key = Ok ct -> unseal k (JStr ct) = Ok key.
Proof.
  intros Hk Hct. destruct (seal_ok k r key) as [ct' [Hct' Henc]].
  rewrite Hct in Hct'. injection Hct' as <-.
  unfold unseal. cbn [py_encode rbind]. rewrite Henc, b64decode_b64encode.
  cbn [rbind]. rewrite decrypt_encrypt by exact Hk. cbn [rbind].
  apply utf8_decode_encode.
Qed.

(** A world whose master key file, when there is one, holds a key that
    [Fernet] accepts. *)
Definition key_usable (w : world) : Prop :=
  match master_key w with
  | Some (k, _) => key_ok k = true
  | None => True
  end.

(** The key that [get_master_key] returns in [w]. *)
Definition key_of (w : world) : bytes :=
  match master_key w with
  | Some (k, _) => k
  | None => generate_key (seed w)
  end.

(** The world once the master key exists. *)
Definition keyed (w : world) : world :=
  match master_key w with
  | Some _ => w
  | None =>
      with_master_key (Some (generate_key (seed w), Some 384%N))
        (with_seed (N.succ (seed w)) w)
  end.

Lemma get_master_key_run (w : world) :
  get_master_key w = (Ok (key_of w), keyed w).
Proof.
  unfold get_master_key, key_of, keyed.
  destruct (master_key w) as [[k m]|] eqn:E; reflexivity.
Qed.

Lemma key_of_ok (w : world) : key_usable w -> key_ok (key_of w) = true.
Proof.
  unfold key_usable, key_of. destruct (master_key w) as [[k m]|]; auto.
  intros _. apply generate_key_ok.
Qed.

Lemma keyed_master_key (w : world) :
  exists m, master_key (keyed w) = Some (key_of w, m).
Proof.
  unfold keyed, key_of. destruct (master_key w) as [[k m]|] eqn:E.
  - exists m. exact E.
  - exists (Some 384%N). reflexivity.
Qed.

Lemma key_of_keyed (w : world) : key_of (keyed w) = key_of w.
Proof.
  destruct (keyed_master_key w) as [m Hm].
  unfold key_of at 1. now rewrite Hm.
Qed.

Lemma keyed_fs (w : world) : fs (keyed w) = fs w.
Proof. unfold keyed. now destruct (master_key w). Qed.

Lemma keyed_log (w : world) : log (keyed w) = log w.
Proof. unfold keyed. now destruct (master_key w). Qed.

Lemma encrypt_key_run (key : str) (w : world) :
  key_usable w ->
  encrypt_key key w =
  (seal (key_of w) (seed (keyed w)) key,
   with_seed (N.succ (seed (keyed w))) (keyed w)).
Proof.
  intros Hu. unfold encrypt_key, bind. rewrite get_master_key_run.
  unfold new_fernet. rewrite (key_of_ok w Hu). reflexivity.
Qed.

Lemma decrypt_key_run (encrypted : json) (w : world) :
  key_usable w ->
  decrypt_key encrypted w = (unseal (key_of w) encrypted, keyed w).
Proof.
  intros Hu. unfold decrypt_key, bind. rewrite get_master_key_run.
  unfold new_fernet. rewrite (key_of_ok w Hu). unfold ret, lift, unseal.
  destruct (py_encode encrypted) as [raw|e]; cbn [rbind]; auto.
  destruct (b64decode raw) as [token|e]; cbn [rbind]; auto.
  destruct (decrypt (key_of w) token) as [m|]; cbn [rbind]; auto.
Qed.

End Seal.

(** ** Running the monad *)

Lemma bind_ok {A B} (m : M A) (k : A -> M B) (w w' : world) (a : A) :
  m w = (Ok a, w') -> bind m k w = k a w'.
Proof. intros E. unfold bind. now rewrite E. Qed.

(** [w'] is [w] after key generation and random draws only: the files,
    the log and the clock are those of [w], and the master key that
    [get_master_key] returns is the same. *)
Section Evolves.
Context `{Fernet}.

Definition evolves (w w' : world) : Prop :=
  fs w' = fs w /\ log w' = log w /\ now w' = now w /\
  key_of w' = key_of w /\ (key_usable w -> key_usable w').

Lemma evolves_refl (w : world) : evolves w w.
Proof. unfold evolves. auto. Qed.

Lemma evolves_trans (w1 w2 w3 : world) :
  evolves w1 w2 -> evolves w2 w3 -> evolves w1 w3.
Proof.
  unfold evolves. intros (F1 & L1 & N1 & K1 & U1) (F2 & L2 & N2 & K2 & U2).
  repeat split; try congruence. auto.
Qed.

Lemma key_usable_keyed (w : world) : key_usable w -> key_usable (keyed w).
Proof.
  intros Hu. destruct (keyed_master_key w) as [m Hm].
  unfold key_usable. rewrite Hm. now apply key_of_ok.
Qed.

Lemma evolves_keyed (w : world) : evolves w (keyed w).
Proof.
  unfold evolves. rewrite keyed_fs, keyed_log, key_of_keyed.
  repeat split; auto using key_usable_keyed.
  unfold keyed. now destruct (master_key w).
Qed.

Lemma evolves_draw (w : world) (n : N) :
  evolves w (with_seed n (keyed w)).
Proof.
  apply evolves_trans with (keyed w); [apply evolves_keyed|].
  destruct (keyed_master_key w) as [m Hm].
  unfold evolves, with_seed, key_of, key_usable; simpl. rewrite Hm. auto.
Qed.

End Evolves.

(** ** The vault of the Linux front end *)

Section LinuxVault.
Context `{Fernet}.

(** The dictionary a comprehension builds from [items] on top of [acc]. *)
Definition build {V} (items : list (str * V)) (acc : dict V) : dict V :=
  fold_left (fun acc kv => dict_set (fst kv) (snd kv) acc) items acc.

(** [e] holds, key by key and in the same order, ciphertexts of the
    credentials of [d] under the master key [k]. *)
Definition sealed (k : bytes) (e : dict json) (d : dict str) : Prop :=
  Forall2 (fun kc kv => fst kc = fst kv /\ unseal k (snd kc) = Ok (snd kv)) e d.

(** What the comprehension of [load_keys] computes under the key [k]. *)
Fixpoint open_items (k : bytes) (items : list (str * json)) (acc : dict str)
  : result (dict str) :=
  match items with
  | [] => Ok acc
  | (provider, encrypted) :: rest =>
      rbind (unseal k encrypted) (fun key =>
      open_items k rest (dict_set provider key acc))
  end.

Lemma sealed_set (k : bytes) (e : dict json) (d : dict str)
      (p : str) (c : json) (v : str) :
  sealed k e d -> unseal k c = Ok v ->
  sealed k (dict_set p c e) (dict_set p v d).
Proof.
  intros Hs Hc. induction Hs as [|[k1 c1] [k2 v2] e d [Hk Hu] Hs IH]; simpl.
  - repeat constructor; auto.
  - simpl in Hk. subst k2. destruct (String.eqb k1 p).
    + constructor; auto.
    + constructor; auto.
Qed.

Lemma open_items_sealed (k : bytes) (e : dict json) (d acc : dict str) :
  sealed k e d -> open_items k e acc = Ok (build d acc).
Proof.
  intros Hs. revert acc.
  induction Hs as [|[k1 c1] [k2 v2] e d [Hk Hu] Hs IH]; intros acc; simpl; auto.
  simpl in Hk, Hu. subst k2. rewrite Hu. simpl. apply IH.
Qed.

Lemma open_items_broken (k : bytes) (e : dict json) (acc : dict str) :
  Exists (fun kc => exists err, unseal k (snd kc) = Raise err) e ->
  exists err, open_items k e acc = Raise err.
Proof.
  intros Hex. revert acc.
  induction Hex as [[p c] e [err He]|[p c] e Hex IH]; intros acc; simpl.
  - simpl in He. rewrite He. simpl. eauto.
  - destruct (unseal k c) as [v|err]; simpl; eauto.
Qed.

Lemma decrypt_items_run (items : list (str * json)) (acc : dict str) (w : world) :
  key_usable w ->
  exists w', Linux.decrypt_items items acc w = (open_items (key_of w) items acc, w')
             /\ evolves w w'.
Proof.
  revert acc w. induction items as [|[p c] items IH]; intros acc w Hu.
  - exists w. split; [reflexivity | apply evolves_refl].
  - cbn [Linux.decrypt_items open_items]. unfold bind at 1.
    rewrite decrypt_key_run by exact Hu.
    destruct (unseal (key_of w) c) as [v|err]; cbn [rbind].
    + destruct (IH (dict_set p v acc) (keyed w) (key_usable_keyed w Hu))
        as (w' & Hrun & Hev).
      exists w'. rewrite key_of_keyed in Hrun. split; auto.
      eapply evolves_trans; [apply evolves_keyed | exact Hev].
    + exists (keyed w). split; [reflexivity | apply evolves_keyed].
Qed.

Lemma encrypt_items_run (items : dict str) (acc_e : dict json) (acc_d : dict str)
      (w : world) :
  key_usable w -> sealed (key_of w) acc_e acc_d ->
  exists e w', Linux.encrypt_items items acc_e w = (Ok e, w')
               /\ sealed (key_of w) e (build items acc_d)
               /\ evolves w w'.
Proof.
  revert acc_e acc_d w.
  induction items as [|[p v] items IH]; intros acc_e acc_d w Hu Hs.
  - exists acc_e, w. split; [reflexivity|]. split; [exact Hs | apply evolves_refl].
  - cbn [Linux.encrypt_items]. unfold bind at 1.
    rewrite encrypt_key_run by exact Hu.
    destruct (seal_ok (key_of w) (seed (keyed w)) v) as [ct [Hct _]].
    rewrite Hct.
    set (w1 := with_seed (N.succ (seed (keyed w))) (keyed w)).
    assert (Hev : evolves w w1) by apply evolves_draw.
    destruct Hev as (F1 & L1 & N1 & K1 & U1).
    destruct (IH (dict_set p (JStr ct) acc_e) (dict_set p v acc_d) w1 (U1 Hu))
      as (e & w' & Hrun & Hsealed & Hev').
    { rewrite K1. apply sealed_set; auto.
      eapply unseal_seal; [now apply key_of_ok | exact Hct]. }
    exists e, w'. rewrite K1 in Hsealed.
    split; [exact Hrun|]. split; [exact Hsealed|].
    eapply evolves_trans; [|exact Hev']. unfold evolves. auto.
Qed.

End LinuxVault.

(** ** Writing files *)

Definition is_log_op (o : fsop) : bool :=
  match o with
  | OpOpenLog | OpAppendLog _ => true
  | _ => false
  end.

Lemma upd_same (p : path) (f : option file) (s : path -> option file) :
  upd p f s p = f.
Proof. unfold upd. now rewrite String.eqb_refl. Qed.

Lemma upd_other (p q : path) (f : option file) (s : path -> option file) :
  q <> p -> upd p f s q = s q.
Proof. unfold upd. intros Hne. destruct (String.eqb_spec q p); congruence. Qed.

Lemma apply_op_other (o : fsop) (w : world) (q : path) :
  op_path o <> q \/ is_log_op o = true -> fs (apply_op o w) q = fs w q.
Proof.
  intros Hq. destruct o as [p|p j|p m| |s]; simpl in *;
    try (destruct (fs w p)); try (destruct (log w)); simpl; auto;
    destruct Hq as [Hq|Hq]; try discriminate;
    apply upd_other; congruence.
Qed.

Lemma apply_op_log (o : fsop) (w : world) :
  is_log_op o = false -> log (apply_op o w) = log w.
Proof.
  destruct o as [p|p j|p m| |s]; simpl; try discriminate; intros _;
    try (destruct (fs w p)); reflexivity.
Qed.

Lemma apply_op_env (o : fsop) (w : world) :
  master_key (apply_op o w) = master_key w /\
  seed (apply_op o w) = seed w /\ now (apply_op o w) = now w.
Proof.
  destruct o as [p|p j|p m| |s]; simpl;
    try (destruct (fs w p)); try (destruct (log w)); simpl; auto.
Qed.

Lemma run_ops_other (ops : list fsop) (w : world) (q : path) :
  Forall (fun o => op_path o <> q \/ is_log_op o = true) ops ->
  fs (run_ops ops w) q = fs w q.
Proof.
  intros Hall. revert w. induction Hall as [|o ops Ho _ IH]; intros w; simpl; auto.
  unfold run_ops in *. simpl. rewrite IH. now apply apply_op_other.
Qed.

Lemma run_ops_log (ops : list fsop) (w : world) :
  Forall (fun o => is_log_op o = false) ops -> log (run_ops ops w) = log w.
Proof.
  intros Hall. revert w. induction Hall as [|o ops Ho _ IH]; intros w; simpl; auto.
  unfold run_ops in *. simpl. rewrite IH. now apply apply_op_log.
Qed.

Lemma run_ops_env (ops : list fsop) (w : world) :
  master_key (run_ops ops w) = master_key w /\
  seed (run_ops ops w) = seed w /\ now (run_ops ops w) = now w.
Proof.
  revert w. induction ops as [|o ops IH]; intros w; simpl; auto.
  unfold run_ops in *. simpl.
  destruct (IH (apply_op o w)) as (A & B & C).
  destruct (apply_op_env o w) as (A' & B' & C').
  repeat split; congruence.
Qed.

Lemma run_dump (p : path) (j : json) (w : world) :
  fs (run_ops [OpOpenW p; OpDump p j] w) p =
  Some {| content := Text j;
          mode := match fs w p with Some f => mode f | None => None end |}.
Proof.
  unfold run_ops. simpl. rewrite !upd_same. simpl. now rewrite upd_same.
Qed.

Lemma run_dump_chmod (p : path) (j : json) (m : N) (w : world) :
  fs (run_ops [OpOpenW p; OpDump p j; OpChmod p m] w) p =
  Some {| content := Text j; mode := Some m |}.
Proof.
  unfold run_ops. simpl. rewrite !upd_same. simpl. rewrite !upd_same. simpl.
  now rewrite upd_same.
Qed.

(** ** Keys of a dictionary *)

Section Keys.
Context {V : Type}.
Implicit Types (d acc : dict V) (k : str) (v : V).

Lemma dict_get_none_keys d k : dict_get k d = None <-> ~ In k (map fst d).
Proof.
  induction d as [|[k0 v0] d IH]; simpl.
  - tauto.
  - destruct (String.eqb_spec k0 k) as [->|Hne].
    + split; [discriminate | intros Hn; exfalso; auto].
    + rewrite IH. tauto.
Qed.

Lemma dict_set_fresh d k v : dict_get k d = None -> dict_set k v d = (d ++ [(k, v)])%list.
Proof.
  induction d as [|[k0 v0] d IH]; simpl; auto.
  destruct (String.eqb k0 k); [discriminate|]. intros Hn. now rewrite IH.
Qed.

Lemma dict_set_keys d k v :
  map fst (dict_set k v d) =
  if dict_mem k d then map fst d else (map fst d ++ [k])%list.
Proof.
  unfold dict_mem. induction d as [|[k0 v0] d IH]; simpl; auto.
  destruct (String.eqb_spec k0 k) as [->|Hne]; simpl; auto.
  rewrite IH. now destruct (dict_get k d).
Qed.

Lemma nodup_dict_set d k v : NoDup (map fst d) -> NoDup (map fst (dict_set k v d)).
Proof.
  intros Hnd. rewrite dict_set_keys. unfold dict_mem.
  destruct (dict_get k d) eqn:E; auto.
  apply dict_get_none_keys in E.
  apply NoDup_rev in Hnd. rewrite <- (rev_involutive (map fst d ++ [k])).
  apply NoDup_rev. rewrite rev_app_distr. simpl. constructor; auto.
  now rewrite <- in_rev.
Qed.

Lemma build_nodup items acc :
  NoDup (map fst (acc ++ items)) -> build items acc = (acc ++ items)%list.
Proof.
  revert acc. induction items as [|[k v] items IH]; intros acc Hnd; simpl.
  - now rewrite app_nil_r.
  - assert (Hfresh : dict_get k acc = None).
    { apply dict_get_none_keys. rewrite map_app in Hnd. simpl in Hnd.
      apply NoDup_remove_2 in Hnd. intros Hin. apply Hnd.
      apply in_or_app. now left. }
    rewrite (dict_set_fresh acc k v Hfresh).
    rewrite IH; rewrite <- app_assoc; simpl; auto.
Qed.

End Keys.

(** ** Reading and writing the vault (Linux front end) *)

Section LinuxStore.
Context `{Fernet}.

(** The dictionary [load_keys] returns for the vault file [f] under the
    master key [k]. *)
Definition vault_view (k : bytes) (f : option file) : dict str :=
  match f with
  | Some f =>
      match content f with
      | Text (JObj e) =>
          match open_items k e [] with
          | Ok d => d
          | Raise _ => []
          end
      | _ => []
      end
  | None => []
  end.

Lemma load_keys_run (w : world) :
  key_usable w ->
  exists w', Linux.load_keys w = (Ok (vault_view (key_of w) (fs w KEYS_FILE)), w')
             /\ evolves w w'.
Proof.
  intros Hu. unfold Linux.load_keys, vault_view, bind, exists_file.
  destruct (fs w KEYS_FILE) as [f|] eqn:E; cbn [negb].
  - unfold try_except, bind, json_load. rewrite E.
    destruct (content f) as [j|s].
    + destruct j; cbn [lift Linux.py_items];
        try (exists w; split; [reflexivity | apply evolves_refl]).
      destruct (decrypt_items_run d [] w Hu) as (w' & Hrun & Hev).
      rewrite Hrun. exists w'. split; auto.
      now destruct (open_items (key_of w) d []).
    + exists w. split; [reflexivity | apply evolves_refl].
  - exists w. split; [reflexivity | apply evolves_refl].
Qed.

Lemma open_items_nodup (k : bytes) (e : dict json) (acc d : dict str) :
  open_items k e acc = Ok d -> NoDup (map fst acc) -> NoDup (map fst d).
Proof.
  revert acc. induction e as [|[p c] e IH]; intros acc; simpl.
  - now intros [= <-].
  - destruct (unseal k c) as [v|err]; simpl; [|discriminate].
    intros Ho Hnd. eapply IH; eauto using nodup_dict_set.
Qed.

Lemma vault_view_nodup (k : bytes) (f : option file) :
  NoDup (map fst (vault_view k f)).
Proof.
  unfold vault_view. destruct f as [f|]; [|constructor].
  destruct (content f) as [j|s]; [|constructor].
  destruct j; try constructor.
  destruct (open_items k d []) as [d'|err] eqn:E; [|constructor].
  eapply open_items_nodup; [exact E | constructor].
Qed.

Lemma save_keys_run (d : dict str) (w : world) :
  key_usable w ->
  exists e w',
    Linux.save_keys d w = (Ok tt, w')
    /\ sealed (key_of w) e (build d [])
    /\ fs w' KEYS_FILE = Some {| content := Text (JObj e); mode := Some 384%N |}
    /\ (forall q, q <> KEYS_FILE -> fs w' q = fs w q)
    /\ log w' = log w /\ now w' = now w
    /\ key_of w' = key_of w /\ key_usable w'.
Proof.
  intros Hu. unfold Linux.save_keys, bind.
  destruct (encrypt_items_run d [] [] w Hu) as (e & w1 & Hrun & Hs & Hev).
  { constructor. }
  rewrite Hrun. unfold do_ops, Linux.save_keys_ops.
  destruct Hev as (F1 & L1 & N1 & K1 & U1).
  destruct (run_ops_env [OpOpenW KEYS_FILE; OpDump KEYS_FILE (JObj e);
                         OpChmod KEYS_FILE 384] w1) as (Em & Es & En).
  exists e, (run_ops [OpOpenW KEYS_FILE; OpDump KEYS_FILE (JObj e);
                      OpChmod KEYS_FILE 384] w1).
  split; [reflexivity|]. split; [exact Hs|].
  split; [apply run_dump_chmod|].
  split.
  { intros q Hq. rewrite run_ops_other; [now rewrite F1|].
    repeat constructor; simpl; congruence. }
  split.
  { rewrite run_ops_log; [exact L1 | repeat constructor]. }
  split; [congruence|].
  split.
  - unfold key_of. rewrite Em, Es. exact K1.
  - unfold key_usable. rewrite Em. exact (U1 Hu).
Qed.

(** After [add_key], [load_keys] returns what it returned before with
    the new credential stored under the provider. *)
Lemma add_key_run (provider api_key : str) (w : world) :
  key_usable w ->
  dict_mem (lower provider) Linux.PROVIDERS = true ->
  exists w1 w2,
    Linux.add_key provider api_key w = (Ok tt, w1)
    /\ Linux.load_keys w1 =
       (Ok (dict_set (lower provider) api_key
              (vault_view (key_of w) (fs w KEYS_FILE))), w2)
    /\ (forall q, q <> KEYS_FILE -> fs w1 q = fs w q)
    /\ log w1 = log w /\ now w1 = now w /\ key_usable w1.
Proof.
  intros Hu Hin. unfold Linux.add_key. rewrite Hin. cbn [negb].
  destruct (load_keys_run w Hu) as (w0 & Hload & F0 & L0 & N0 & K0 & U0).
  rewrite (bind_ok _ _ _ _ _ Hload).
  set (keys := dict_set (lower provider) api_key
                 (vault_view (key_of w) (fs w KEYS_FILE))).
  destruct (save_keys_run keys w0 (U0 Hu))
    as (e & w1 & Hsave & Hs & Hfile & Hframe & L1 & N1 & K1 & U1).
  assert (Hkeys : build keys [] = keys).
  { apply build_nodup. simpl. apply nodup_dict_set, vault_view_nodup. }
  rewrite Hkeys in Hs.
  destruct (load_keys_run w1 U1) as (w2 & Hload2 & _).
  exists w1, w2. split; [exact Hsave|]. split.
  - rewrite Hload2. f_equal. f_equal. unfold vault_view. rewrite Hfile. simpl.
    rewrite K1, (open_items_sealed _ _ _ [] Hs). exact Hkeys.
  - repeat split; try congruence.
    intros q Hq. rewrite Hframe, F0; auto.
Qed.

End LinuxStore.

(** ** Where the model of [decode] is exact *)

Lemma utf8_decode_valid_upto (n : nat) :
  forall bs s, List.length bs <= n -> utf8_decode bs = Ok s -> utf8_valid bs = true.
Proof.
  induction n as [|n IH]; intros bs s Hlen.
  - destruct bs; [reflexivity | simpl in Hlen; lia].
  - destruct bs as [|b rest]; [reflexivity|]. simpl in Hlen.
    cbn [utf8_decode utf8_valid].
    destruct (N.ltb_spec (Byte.to_N b) 128) as [Hlt|Hge].
    + destruct (utf8_decode rest) as [s'|e] eqn:E; cbn [rbind]; [|discriminate].
      intros _. apply (IH rest s'); [lia | exact E].
    + destruct ((Byte.to_N b =? 194) || (Byte.to_N b =? 195))%N eqn:Hlead;
        [|discriminate].
      assert (Hb : ((194 <=? Byte.to_N b) && (Byte.to_N b <=? 223))%N = true).
      { apply orb_true_iff in Hlead. rewrite !N.eqb_eq in Hlead.
        apply andb_true_iff. rewrite !N.leb_le. lia. }
      rewrite Hb. destruct rest as [|c rest']; [discriminate|].
      unfold is_cont.
      destruct ((128 <=? Byte.to_N c) && (Byte.to_N c <? 192))%N; [|discriminate].
      destruct (utf8_decode rest') as [s'|e] eqn:E; cbn [rbind]; [|discriminate].
      intros _. apply (IH rest' s'); [simpl in Hlen; lia | exact E].
Qed.

(** What [utf8_decode] accepts, [bytes.decode()] accepts. *)
Lemma utf8_decode_valid (bs : bytes) (s : str) :
  utf8_decode bs = Ok s -> utf8_valid bs = true.
Proof. apply (utf8_decode_valid_upto (List.length bs)), le_n. Qed.

Lemma utf8_decode_invalid (bs : bytes) :
  utf8_valid bs = false -> exists err, utf8_decode bs = Raise err.
Proof.
  intros Hv. destruct (utf8_decode bs) as [s|err] eqn:E; [|now exists err].
  rewrite (utf8_decode_valid bs s E) in Hv. discriminate.
Qed.

(** Text that [encode] produced is in the range of [decode]. *)
Lemma utf8_encode_in_range (s : str) : utf8_in_range (utf8_encode s) = true.
Proof.
  unfold utf8_in_range. rewrite utf8_decode_encode. apply orb_true_r.
Qed.

Section Range.
Context `{Fernet}.

(** The vault entry [x] does not decrypt under the key [k]: it is no
    string, no Base64 text, a token that Fernet rejects, or a token whose
    plain text is not UTF-8.  These are the entries on which
    [decrypt_key] raises in Python. *)
Definition damaged (k : bytes) (x : json) : bool :=
  match py_encode x with
  | Ok raw =>
      match b64decode raw with
      | Ok token =>
          match decrypt k token with
          | Some m => negb (utf8_valid m)
          | None => true
          end
      | Raise _ => true
      end
  | Raise _ => true
  end.

(** The vault entry [x] is damaged or holds a credential of characters up
    to U+00FF: on these entries [decrypt_key] of the model is
    [decrypt_key] of the code. *)
Definition opens_in_range (k : bytes) (x : json) : bool :=
  match py_encode x with
  | Ok raw =>
      match b64decode raw with
      | Ok token =>
          match decrypt k token with
          | Some m => utf8_in_range m
          | None => true
          end
      | Raise _ => true
      end
  | Raise _ => true
  end.

(** Every entry of the vault file is in that range. *)
Definition vault_in_range (w : world) : Prop :=
  match fs w KEYS_FILE with
  | Some f =>
      match content f with
      | Text (JObj e) =>
          Forall (fun kc => opens_in_range (key_of w) (snd kc) = true) e
      | _ => True
      end
  | None => True
  end.

Lemma damaged_raises (k : bytes) (x : json) :
  damaged k x = true -> exists err, unseal k x = Raise err.
Proof.
  unfold damaged, unseal.
  destruct (py_encode x) as [raw|e]; cbn [rbind]; [|eauto].
  destruct (b64decode raw) as [token|e]; cbn [rbind]; [|eauto].
  destruct (decrypt k token) as [m|]; cbn [rbind]; [|eauto].
  intros Hm. apply utf8_decode_invalid. now apply negb_true_iff.
Qed.

Lemma damaged_in_range (k : bytes) (x : json) :
  damaged k x = true -> opens_in_range k x = true.
Proof.
  unfold damaged, opens_in_range, utf8_in_range.
  destruct (py_encode x) as [raw|e]; auto.
  destruct (b64decode raw) as [token|e]; auto.
  destruct (decrypt k token) as [m|]; auto.
  intros ->. reflexivity.
Qed.

Lemma sealed_in_range (k : bytes) (r : N) (key ct : str) :
  key_ok k = true -> seal k r key = Ok ct -> opens_in_range k (JStr ct) = true.
Proof.
  intros Hk Hct. destruct (seal_ok k r key) as [ct' [Hct' Henc]].
  rewrite Hct in Hct'. injection Hct' as <-.
  unfold opens_in_range. cbn [py_encode].
  rewrite Henc, b64decode_b64encode, decrypt_encrypt by exact Hk.
  apply utf8_encode_in_range.
Qed.

(** The master key file is either as it was or, when it was absent,
    newly created with mode 0600 and a key that Fernet accepts. *)
Definition key_file_kept (w w' : world) : Prop :=
  match master_key w with
  | Some km => master_key w' = Some km
  | None =>
      master_key w' = None \/
      exists k, master_key w' = Some (k, Some 384%N) /\ key_ok k = true
  end.

Lemma key_file_kept_same (w w' : world) :
  master_key w' = master_key w -> key_file_kept w w'.
Proof.
  unfold key_file_kept. intros E. destruct (master_key w); auto.
Qed.

Lemma key_file_kept_refl (w : world) : key_file_kept w w.
Proof. now apply key_file_kept_same. Qed.

Lemma key_file_kept_trans (w1 w2 w3 : world) :
  key_file_kept w1 w2 -> key_file_kept w2 w3 -> key_file_kept w1 w3.
Proof.
  unfold key_file_kept. destruct (master_key w1) as [km|].
  - intros ->. auto.
  - intros [->|(k & -> & Hk)]; auto. intros ->. right. eauto.
Qed.

Lemma key_file_kept_keyed (w : world) : key_file_kept w (keyed w).
Proof.
  unfold key_file_kept, keyed. destruct (master_key w) as [km|] eqn:E; auto.
  right. exists (generate_key (seed w)). split; [reflexivity|].
  apply generate_key_ok.
Qed.

Lemma key_file_kept_draw (w : world) (n : N) :
  key_file_kept w (with_seed n (keyed w)).
Proof.
  apply key_file_kept_trans with (keyed w); [apply key_file_kept_keyed|].
  now apply key_file_kept_same.
Qed.

Lemma key_file_kept_ops (ops : list fsop) (w : world) :
  key_file_kept w (run_ops ops w).
Proof. apply key_file_kept_same, run_ops_env. Qed.

Lemma decrypt_items_kept (items : list (str * json)) (acc : dict str) (w : world) :
  key_usable w -> key_file_kept w (snd (Linux.decrypt_items items acc w)).
Proof.
  revert acc w. induction items as [|[p c] items IH]; intros acc w Hu.
  - apply key_file_kept_refl.
  - cbn [Linux.decrypt_items]. unfold bind at 1.
    rewrite decrypt_key_run by exact Hu.
    destruct (unseal (key_of w) c) as [v|err]; cbn [snd].
    + eapply key_file_kept_trans; [apply key_file_kept_keyed|].
      apply IH, key_usable_keyed, Hu.
    + apply key_file_kept_keyed.
Qed.

Lemma encrypt_items_kept (items : dict str) (acc : dict json) (w : world) :
  key_usable w -> key_file_kept w (snd (Linux.encrypt_items items acc w)).
Proof.
  revert acc w. induction items as [|[p v] items IH]; intros acc w Hu.
  - apply key_file_kept_refl.
  - cbn [Linux.encrypt_items]. unfold bind at 1.
    rewrite encrypt_key_run by exact Hu.
    destruct (seal_ok (key_of w) (seed (keyed w)) v) as [ct [Hct _]].
    rewrite Hct.
    eapply key_file_kept_trans; [apply key_file_kept_draw|].
    apply IH.
    destruct (evolves_draw w (N.succ (seed (keyed w)))) as (_ & _ & _ & _ & U).
    exact (U Hu).
Qed.

Lemma load_keys_kept (w : world) :
  key_usable w -> key_file_kept w (snd (Linux.load_keys w)).
Proof.
  intros Hu. unfold Linux.load_keys, bind, exists_file.
  destruct (fs w KEYS_FILE) as [f|] eqn:E; cbn [negb snd];
    [|apply key_file_kept_refl].
  unfold try_except, bind, json_load. rewrite E.
  destruct (content f) as [j|s]; [|apply key_file_kept_refl].
  destruct j; cbn [lift Linux.py_items]; try apply key_file_kept_refl.
  pose proof (decrypt_items_kept d [] w Hu) as Hk.
  destruct (Linux.decrypt_items d [] w) as [[keys|err] w']; exact Hk.
Qed.

Lemma save_keys_kept (d : dict str) (w : world) :
  key_usable w -> key_file_kept w (snd (Linux.save_keys d w)).
Proof.
  intros Hu. unfold Linux.save_keys, bind.
  pose proof (encrypt_items_kept d [] w Hu) as Hk.
  destruct (Linux.encrypt_items d [] w) as [[e|err] w']; cbn [snd] in *;
    [|exact Hk].
  eapply key_file_kept_trans; [exact Hk | apply key_file_kept_ops].
Qed.

End Range.

(** C1.  Under a master key that Fernet accepts (or none yet),
    [decrypt_key] returns the credential that [encrypt_key] sealed, and a
    credential stored with [add_key] under a provider of the catalogue is
    the one [load_keys] returns for that provider. *)
Theorem vault_round_trip `{Fernet} (provider cred : str) (w : world) :
  key_usable w ->
  dict_mem (lower provider) Linux.PROVIDERS = true ->
  (exists ct w1,
     encrypt_key cred w = (Ok ct, w1) /\
     decrypt_key (JStr ct) w1 = (Ok cred, w1)) /\
  (exists w1 keys w2,
     Linux.add_key provider cred w = (Ok tt, w1) /\
     Linux.load_keys w1 = (Ok keys, w2) /\
     dict_get (lower provider) keys = Some cred).
Proof.
  intros Hu Hin. split.
  - rewrite encrypt_key_run by exact Hu.
    destruct (seal_ok (key_of w) (seed (keyed w)) cred) as [ct [Hct _]].
    set (w1 := with_seed (N.succ (seed (keyed w))) (keyed w)).
    exists ct, w1. split; [now rewrite Hct|].
    destruct (evolves_draw w (N.succ (seed (keyed w))))
      as (_ & _ & _ & K1 & U1). fold w1 in K1, U1.
    rewrite decrypt_key_run by exact (U1 Hu). rewrite K1.
    rewrite (unseal_seal _ _ _ _ (key_of_ok w Hu) Hct).
    f_equal. subst w1. destruct (keyed_master_key w) as [m Hm].
    unfold keyed at 1. simpl. now rewrite Hm.
  - destruct (add_key_run provider cred w Hu Hin) as (w1 & w2 & Hadd & Hload & _).
    exists w1. eexists. exists w2.
    split; [exact Hadd|]. split; [exact Hload|].
    apply dict_get_set_same.
Qed.

(** ** A small instance of the Fernet interface

    It is used to run the model on concrete inputs: a token is the key,
    one random byte and the message; opening a token checks the key. *)

Fixpoint strip_key (k token : bytes) : option bytes :=
  match k, token with
  | [], _ => Some token
  | a :: k', b :: token' => if Byte.eqb a b then strip_key k' token' else None
  | _ :: _, [] => None
  end.

Definition toy_encrypt (k : bytes) (r : N) (m : bytes) : bytes :=
  (k ++ byte_of_N (r mod 256) :: m)%list.

Definition toy_decrypt (k token : bytes) : option bytes :=
  match strip_key k token with
  | Some (_ :: m) => Some m
  | _ => None
  end.

Lemma strip_key_app (k rest : bytes) : strip_key k (k ++ rest)%list = Some rest.
Proof.
  induction k as [|a k IH]; simpl.
  - now destruct rest.
  - now rewrite (Byte.byte_dec_lb (eq_refl a)).
Qed.

Lemma toy_decrypt_encrypt (k : bytes) (r : N) (m : bytes) :
  Nat.eqb (List.length k) 2 = true -> toy_decrypt k (toy_encrypt k r m) = Some m.
Proof.
  intros _. unfold toy_decrypt, toy_encrypt. now rewrite strip_key_app.
Qed.

Definition toy : Fernet :=
  {| generate_key := fun r => [byte_of_N 75; byte_of_N (r mod 256)];
     key_ok := fun k => Nat.eqb (List.length k) 2;
     encrypt := toy_encrypt;
     decrypt := toy_decrypt;
     generate_key_ok := fun r => eq_refl;
     decrypt_encrypt := toy_decrypt_encrypt |}.

(** A first run: nothing exists yet. *)
Definition w_new : world :=
  {| master_key := None; log := None; fs := fun _ => None; seed := 7;
     now := "2026-01-02 03:04:05" |}.

Lemma vault_round_trip_witness :
  (exists ct w1,
     @encrypt_key toy "key123" w_new = (Ok ct, w1) /\
     @decrypt_key toy (JStr ct) w1 = (Ok "key123", w1)) /\
  (exists w1 keys w2,
     @Linux.add_key toy "Anthropic" "key123" w_new = (Ok tt, w1) /\
     @Linux.load_keys toy w1 = (Ok keys, w2) /\
     dict_get (lower "Anthropic") keys = Some "key123").
Proof.
  apply (@vault_round_trip toy "Anthropic" "key123" w_new).
  - exact I.
  - reflexivity.
Defined.

(** ** One damaged entry *)

(** Amended C3.  When every ciphertext of the vault opens, [load_keys]
    returns every identifier with its credential; as soon as one entry is
    damaged (no string, no Base64 text, a token Fernet rejects, or plain
    text that is not UTF-8), [load_keys] returns the empty dictionary. *)
Theorem load_keys_all_or_nothing `{Fernet} (w : world) (f : file) (e : dict json) :
  key_usable w ->
  fs w KEYS_FILE = Some f ->
  content f = Text (JObj e) ->
  (forall d, sealed (key_of w) e d -> NoDup (map fst d) ->
             exists w', Linux.load_keys w = (Ok d, w')) /\
  (Exists (fun kc => damaged (key_of w) (snd kc) = true) e ->
   exists w', Linux.load_keys w = (Ok [], w')).
Proof.
  intros Hu Hf Hc.
  destruct (load_keys_run w Hu) as (w' & Hrun & _).
  unfold vault_view in Hrun. rewrite Hf, Hc in Hrun.
  split.
  - intros d Hs Hnd. exists w'.
    rewrite (open_items_sealed _ _ _ [] Hs) in Hrun.
    rewrite build_nodup in Hrun by exact Hnd. exact Hrun.
  - intros Hex. exists w'.
    assert (Hex' : Exists (fun kc => exists err,
                             unseal (key_of w) (snd kc) = Raise err) e).
    { revert Hex. apply Exists_impl. intros kc. apply damaged_raises. }
    destruct (open_items_broken (key_of w) e [] Hex') as [err Herr].
    now rewrite Herr in Hrun.
Qed.

(** The ciphertext of a credential under the key [K*] and the draw [r]. *)
Definition toy_key : bytes := [byte_of_N 75; byte_of_N 42].

Definition toy_sealed (r : N) (key : str) : str :=
  match @seal toy toy_key r key with
  | Ok ct => ct
  | Raise _ => EmptyString
  end.

(** A vault with two entries, and the same vault with the second
    ciphertext cut after ten characters. *)
Definition vault_file (e : dict json) : path -> option file :=
  upd KEYS_FILE (Some {| content := Text (JObj e); mode := Some 384%N |})
    (fun _ => None).

Definition w_vault (e : dict json) : world :=
  {| master_key := Some (toy_key, Some 384%N); log := None;
     fs := vault_file e; seed := 7; now := "2026-01-02 03:04:05" |}.

Definition two_entries : dict json :=
  [("openai", JStr (toy_sealed 1 "sk-openai-1"));
   ("anthropic", JStr (toy_sealed 2 "sk-ant-2"))].

Definition one_truncated : dict json :=
  [("openai", JStr (toy_sealed 1 "sk-openai-1"));
   ("anthropic", JStr (take 10 (toy_sealed 2 "sk-ant-2")))].

Lemma load_keys_all_or_nothing_witness :
  (exists w', @Linux.load_keys toy (w_vault two_entries) =
              (Ok [("openai", "sk-openai-1"); ("anthropic", "sk-ant-2")], w')) /\
  (exists w', @Linux.load_keys toy (w_vault one_truncated) = (Ok [], w')).
Proof.
  split.
  - apply (proj1 (@load_keys_all_or_nothing toy (w_vault two_entries)
                    {| content := Text (JObj two_entries); mode := Some 384%N |}
                    two_entries eq_refl eq_refl eq_refl)).
    + repeat constructor.
    + repeat constructor; simpl; intuition discriminate.
  - apply (proj2 (@load_keys_all_or_nothing toy (w_vault one_truncated)
                    {| content := Text (JObj one_truncated); mode := Some 384%N |}
                    one_truncated eq_refl eq_refl eq_refl)).
    apply Exists_cons_tl, Exists_cons_hd. reflexivity.
Defined.

(** C3 as stated fails: the entry of ["openai"] opens, the entry of
    ["anthropic"] is cut short, and the bulk read returns no entry at
    all. *)
Lemma truncated_entry_empties_the_vault :
  @unseal toy toy_key (JStr (toy_sealed 1 "sk-openai-1")) = Ok "sk-openai-1" /\
  (exists err, @unseal toy toy_key (JStr (take 10 (toy_sealed 2 "sk-ant-2"))) = Raise err) /\
  fst (@Linux.load_keys toy (w_vault one_truncated)) = Ok [] /\
  fst (@Linux.load_keys toy (w_vault two_entries)) =
    Ok [("openai", "sk-openai-1"); ("anthropic", "sk-ant-2")].
Proof.
  split; [reflexivity|]. split; [exists BinasciiError; reflexivity|].
  split; reflexivity.
Qed.

(** ** Synchronisation with the OpenClaw configuration *)

(** The document [sync_to_openclaw] computes from the document it read. *)
Definition sync_result (provider model api_key : str) (config : json) : result json :=
  rbind (py_in "models" config) (fun has =>
  rbind (if negb has then py_setitem config "models" (JObj []) else Ok config)
    (fun config =>
  rbind (py_getitem config "models") (fun models =>
  rbind (py_in "providers" models) (fun has =>
  rbind (if negb has
         then py_setitem_at config ["models"] "providers" (JObj [])
         else Ok config) (fun config =>
  py_setitem_at config ["models"; "providers"] (provider ++ ":default")
    (Linux.provider_entry provider model api_key)))))).

(** The document [json.loads] returns for a file, with the fallback of
    [sync_to_openclaw] for text that does not parse. *)
Definition parsed_or_empty (f : file) : json :=
  match content f with
  | Text j => j
  | Plain _ => JObj []
  end.

Lemma bind_lift {A B} (r : result A) (k : A -> M B) (w : world) :
  bind (lift r) k w =
  match r with
  | Ok a => k a w
  | Raise e => (Raise e, w)
  end.
Proof. unfold bind, lift. now destruct r. Qed.

Lemma if_lift {A} (b : bool) (r : result A) (x : A) :
  (if b then lift r else ret x) = lift (if b then r else Ok x).
Proof. now destruct b. Qed.

Lemma load_or_empty_run (p : path) (w : world) (f : file) :
  fs w p = Some f ->
  try_except (json_load p) (ret (JObj [])) w = (Ok (parsed_or_empty f), w).
Proof.
  intros Hf. unfold try_except, json_load, parsed_or_empty. rewrite Hf.
  now destruct (content f).
Qed.

Lemma sync_to_openclaw_run (provider model api_key : str) (w : world) (f : file) :
  fs w OPENCLAW_CONFIG = Some f ->
  Linux.sync_to_openclaw provider model api_key w =
  match sync_result provider model api_key (parsed_or_empty f) with
  | Ok config =>
      (Ok true, run_ops (Linux.write_config_ops OPENCLAW_CONFIG config) w)
  | Raise e => (Raise e, w)
  end.
Proof.
  intros Hf.
  unfold Linux.sync_to_openclaw, Linux.get_openclaw_config_path, bind at 1 2.
  unfold exists_file. rewrite Hf. cbn [ret].
  rewrite (bind_ok _ _ _ _ _ (load_or_empty_run _ _ _ Hf)).
  unfold sync_result. generalize (parsed_or_empty f). intros config.
  rewrite bind_lift.
  destruct (py_in "models" config) as [has|e]; cbn [rbind]; [|reflexivity].
  rewrite if_lift, bind_lift.
  destruct (if negb has then py_setitem config "models" (JObj []) else Ok config)
    as [config1|e]; cbn [rbind]; [|reflexivity].
  rewrite bind_lift.
  destruct (py_getitem config1 "models") as [models|e]; cbn [rbind]; [|reflexivity].
  rewrite bind_lift.
  destruct (py_in "providers" models) as [has2|e]; cbn [rbind]; [|reflexivity].
  rewrite if_lift, bind_lift.
  destruct (if negb has2
            then py_setitem_at config1 ["models"] "providers" (JObj [])
            else Ok config1) as [config2|e]; cbn [rbind]; [|reflexivity].
  rewrite bind_lift.
  destruct (py_setitem_at config2 ["models"; "providers"] (provider ++ ":default")
              (Linux.provider_entry provider model api_key)); reflexivity.
Qed.

(** *** Paths of a document *)

(** [is_prefix p q]: the path [p] is a prefix of [q]. *)
Fixpoint is_prefix (p q : list str) : bool :=
  match p, q with
  | [], _ => true
  | a :: p', b :: q' => String.eqb a b && is_prefix p' q'
  | _ :: _, [] => false
  end.

(** Two paths are related when one is a prefix of the other: a change at
    one of them can be seen at the other. *)
Definition related (p q : list str) : bool := is_prefix p q || is_prefix q p.

Lemma is_prefix_app (p q r : list str) :
  is_prefix p q = true -> is_prefix p (q ++ r) = true.
Proof.
  revert q. induction p as [|a p IH]; intros [|b q]; simpl; auto; try discriminate.
  intros Hp. apply andb_true_iff in Hp as [Ha Hp].
  now rewrite Ha, IH.
Qed.

Lemma unrelated_prefix (p q r : list str) :
  related p (q ++ r) = false -> is_prefix p q = false.
Proof.
  unfold related. intros Hrel. apply orb_false_iff in Hrel as [Hp _].
  destruct (is_prefix p q) eqn:E; auto.
  now rewrite (is_prefix_app p q r E) in Hp.
Qed.

(** Assigning below a path changes nothing at an unrelated path. *)
Lemma py_setitem_at_frame (path : list str) (k : str) (v x x' : json) (p : list str) :
  py_setitem_at x path k v = Ok x' ->
  related p (path ++ [k]) = false ->
  json_at p x' = json_at p x.
Proof.
  revert x x' p. induction path as [|k1 path IH]; intros x x' p Hset Hrel.
  - destruct x; try discriminate. simpl in Hset. injection Hset as <-.
    destruct p as [|a p]; [discriminate|].
    unfold related in Hrel. simpl in Hrel.
    simpl. rewrite dict_get_set_other; auto.
    intros ->. rewrite String.eqb_refl in Hrel. simpl in Hrel.
    destruct p; simpl in Hrel; discriminate.
  - cbn [py_setitem_at] in Hset.
    destruct x; try discriminate. cbn [py_getitem] in Hset.
    destruct (dict_get k1 d) as [inner|] eqn:Hin; [|discriminate].
    cbn [rbind] in Hset.
    destruct (py_setitem_at inner path k v) as [inner'|] eqn:Hrec; [|discriminate].
    cbn [rbind py_setitem] in Hset. injection Hset as <-.
    destruct p as [|a p]; [discriminate|].
    cbn [json_at]. destruct (String.eqb_spec a k1) as [->|Hne].
    + rewrite dict_get_set_same, Hin. apply (IH inner inner' p Hrec).
      unfold related in *. simpl in Hrel. now rewrite String.eqb_refl in Hrel.
    + now rewrite dict_get_set_other.
Qed.

(** Creating an empty dictionary where there was nothing changes nothing
    at any path that is not a prefix of the new one. *)
Lemma py_setitem_at_fresh (path : list str) (k : str) (x x' : json) (p : list str) :
  py_setitem_at x path k (JObj []) = Ok x' ->
  json_at (path ++ [k]) x = None ->
  is_prefix p (path ++ [k]) = false ->
  json_at p x' = json_at p x.
Proof.
  revert x x' p. induction path as [|k1 path IH]; intros x x' p Hset Hnone Hpre.
  - destruct x; try discriminate. simpl in Hset. injection Hset as <-.
    simpl in Hnone. assert (Hk : dict_get k d = None) by now destruct (dict_get k d).
    destruct p as [|a p]; [discriminate|]. simpl in Hpre.
    cbn [json_at]. destruct (String.eqb_spec a k) as [->|Hne].
    + rewrite dict_get_set_same, Hk. destruct p; [discriminate|reflexivity].
    + now rewrite dict_get_set_other.
  - cbn [py_setitem_at] in Hset.
    destruct x; try discriminate. cbn [py_getitem] in Hset.
    destruct (dict_get k1 d) as [inner|] eqn:Hin; [|discriminate].
    cbn [rbind] in Hset.
    destruct (py_setitem_at inner path k (JObj [])) as [inner'|] eqn:Hrec;
      [|discriminate].
    cbn [rbind py_setitem] in Hset. injection Hset as <-.
    simpl in Hnone. rewrite Hin in Hnone.
    destruct p as [|a p]; [discriminate|]. simpl in Hpre.
    cbn [json_at]. destruct (String.eqb_spec a k1) as [->|Hne].
    + rewrite dict_get_set_same, Hin. now apply (IH inner inner' p Hrec).
    + now rewrite dict_get_set_other.
Qed.

(** The document [sync_to_openclaw] writes agrees with the document it
    read at every path unrelated to the entry of the provider. *)
Lemma sync_result_frame (provider model api_key : str) (d : dict json)
      (x' : json) (p : list str) :
  sync_result provider model api_key (JObj d) = Ok x' ->
  related p ["models"; "providers"; provider ++ ":default"] = false ->
  json_at p x' = json_at p (JObj d).
Proof.
  intros Hsync Hrel. unfold sync_result in Hsync.
  assert (Hp1 : is_prefix p ["models"] = false)
    by exact (unrelated_prefix p ["models"]
                ["providers"; provider ++ ":default"] Hrel).
  assert (Hp2 : is_prefix p ["models"; "providers"] = false)
    by exact (unrelated_prefix p ["models"; "providers"]
                [provider ++ ":default"] Hrel).
  cbn [py_in rbind] in Hsync.
  destruct (if negb (dict_mem "models" d)
            then py_setitem (JObj d) "models" (JObj [])
            else Ok (JObj d)) as [c1|] eqn:E1; [|discriminate].
  assert (H1 : json_at p c1 = json_at p (JObj d)).
  { destruct (dict_mem "models" d) eqn:Hm; cbn [negb] in E1.
    - now injection E1 as <-.
    - apply (py_setitem_at_fresh [] "models" (JObj d) c1 p E1); auto.
      simpl. apply dict_mem_false in Hm. now rewrite Hm. }
  cbn [rbind] in Hsync.
  destruct (py_getitem c1 "models") as [models|] eqn:Eg; [|discriminate].
  cbn [rbind] in Hsync.
  destruct (py_in "providers" models) as [has|] eqn:Ei; [|discriminate].
  cbn [rbind] in Hsync.
  destruct (if negb has
            then py_setitem_at c1 ["models"] "providers" (JObj [])
            else Ok c1) as [c2|] eqn:E2; [|discriminate].
  assert (H2 : json_at p c2 = json_at p c1).
  { destruct has; cbn [negb] in E2.
    - now injection E2 as <-.
    - apply (py_setitem_at_fresh ["models"] "providers" c1 c2 p E2); auto.
      destruct c1; try discriminate. simpl in Eg |- *.
      destruct (dict_get "models" d0) as [m|]; [|reflexivity].
      injection Eg as ->.
      destruct models; try reflexivity.
      simpl in Ei. injection Ei as Ei. apply dict_mem_false in Ei.
      now rewrite Ei. }
  cbn [rbind] in Hsync.
  rewrite (py_setitem_at_frame _ _ _ _ _ p Hsync Hrel). congruence.
Qed.

Lemma update_openclaw_model_run (m : json) (w : world) (f : file) :
  fs w OPENCLAW_CONFIG = Some f ->
  WebUI.update_openclaw_model m w =
  match content f with
  | Text (JObj d) =>
      (Ok true,
       run_ops (WebUI.openclaw_ops
                  (JObj (dict_set "model" m (dict_set "defaultModel" m d)))) w)
  | Text _ => (Raise TypeError, w)
  | Plain _ => (Raise JSONDecodeError, w)
  end.
Proof.
  intros Hf. unfold WebUI.update_openclaw_model, bind at 1, exists_file.
  rewrite Hf. unfold bind at 1, json_load. rewrite Hf.
  destruct (content f) as [j|s]; [|reflexivity].
  destruct j; reflexivity.
Qed.

Lemma write_config_file (p : path) (j : json) (w : world) :
  exists f', fs (run_ops [OpOpenW p; OpDump p j] w) p = Some f' /\ content f' = Text j.
Proof. rewrite run_dump. eexists. split; reflexivity. Qed.

(** C5.  With an external configuration that holds a JSON object,
    [sync_to_openclaw] leaves in the file a document that agrees with the
    old one at every path unrelated to [models.providers.<provider>:default],
    and [update_openclaw_model] one that agrees with the old one at every
    member other than [model] and [defaultModel]. *)
Theorem push_preserves_other_fields
        (provider model api_key : str) (m : json) (w : world)
        (f : file) (d : dict json) (p : list str) (k : str) :
  fs w OPENCLAW_CONFIG = Some f ->
  content f = Text (JObj d) ->
  related p ["models"; "providers"; provider ++ ":default"] = false ->
  k <> "model" -> k <> "defaultModel" ->
  (exists f' x',
     fs (snd (Linux.sync_to_openclaw provider model api_key w)) OPENCLAW_CONFIG
       = Some f' /\
     content f' = Text x' /\ json_at p x' = json_at p (JObj d)) /\
  (exists f' x',
     fs (snd (WebUI.update_openclaw_model m w)) OPENCLAW_CONFIG = Some f' /\
     content f' = Text x' /\ json_at [k] x' = json_at [k] (JObj d)).
Proof.
  intros Hf Hc Hrel Hk1 Hk2. split.
  - rewrite (sync_to_openclaw_run _ _ _ _ _ Hf).
    unfold parsed_or_empty. rewrite Hc.
    destruct (sync_result provider model api_key (JObj d)) as [x'|e] eqn:E.
    + destruct (write_config_file OPENCLAW_CONFIG x' w) as (f' & Hf' & Hc').
      exists f', x'. repeat split; auto.
      now apply (sync_result_frame provider model api_key).
    + exists f, (JObj d). auto.
  - rewrite (update_openclaw_model_run _ _ _ Hf), Hc.
    destruct (write_config_file OPENCLAW_CONFIG
                (JObj (dict_set "model" m (dict_set "defaultModel" m d))) w)
      as (f' & Hf' & Hc').
    exists f', (JObj (dict_set "model" m (dict_set "defaultModel" m d))).
    repeat split; auto.
    simpl. now rewrite !dict_get_set_other.
Qed.

(** An external configuration with a theme and the entry of another
    provider. *)
Definition themed : dict json :=
  [("theme", JStr "dark");
   ("models", JObj [("providers",
      JObj [("openai:default",
             Linux.provider_entry "openai" "gpt-4o" "sk-old")])])].

Definition w_themed : world :=
  {| master_key := None; log := None;
     fs := upd OPENCLAW_CONFIG
             (Some {| content := Text (JObj themed); mode := None |})
             (fun _ => None);
     seed := 7; now := "2026-01-02 03:04:05" |}.

Lemma push_preserves_other_fields_witness :
  (exists f' x',
     fs (snd (Linux.sync_to_openclaw "anthropic" "claude-sonnet-4-6" "key123"
                w_themed)) OPENCLAW_CONFIG = Some f' /\
     content f' = Text x' /\
     json_at ["theme"] x' = json_at ["theme"] (JObj themed)) /\
  (exists f' x',
     fs (snd (WebUI.update_openclaw_model (JStr "claude-sonnet-4-6") w_themed))
       OPENCLAW_CONFIG = Some f' /\
     content f' = Text x' /\
     json_at ["theme"] x' = json_at ["theme"] (JObj themed)).
Proof.
  apply (push_preserves_other_fields "anthropic" "claude-sonnet-4-6" "key123"
           (JStr "claude-sonnet-4-6") w_themed
           {| content := Text (JObj themed); mode := None |} themed
           ["theme"] "theme");
    try reflexivity; discriminate.
Defined.

Example theme_stays_dark :
  let w' := snd (Linux.sync_to_openclaw "anthropic" "claude-sonnet-4-6" "key123"
                   w_themed) in
  option_map content (fs w' OPENCLAW_CONFIG) =
  Some (Text (JObj
    [("theme", JStr "dark");
     ("models", JObj [("providers",
        JObj [("openai:default",
               Linux.provider_entry "openai" "gpt-4o" "sk-old");
              ("anthropic:default",
               Linux.provider_entry "anthropic" "claude-sonnet-4-6" "key123")])])])).
Proof. reflexivity. Qed.

(** C6.  Without an external configuration file, [sync_to_openclaw] and
    [update_openclaw_model] return [False] and leave every file as it
    was; with the file in place neither returns [False]: they return
    [True] or raise. *)
Theorem push_without_target
        (provider model api_key : str) (m : json) (w : world) :
  (fs w OPENCLAW_CONFIG = None ->
   Linux.sync_to_openclaw provider model api_key w = (Ok false, w) /\
   WebUI.update_openclaw_model m w = (Ok false, w)) /\
  (fst (Linux.sync_to_openclaw provider model api_key w) = Ok false ->
   fs w OPENCLAW_CONFIG = None) /\
  (fst (WebUI.update_openclaw_model m w) = Ok false ->
   fs w OPENCLAW_CONFIG = None).
Proof.
  split; [|split].
  - intros Hnone. split.
    + unfold Linux.sync_to_openclaw, Linux.get_openclaw_config_path, bind,
        exists_file. now rewrite Hnone.
    + unfold WebUI.update_openclaw_model, bind, exists_file. now rewrite Hnone.
  - destruct (fs w OPENCLAW_CONFIG) as [f|] eqn:Hf; auto.
    rewrite (sync_to_openclaw_run _ _ _ _ _ Hf).
    destruct (sync_result _ _ _ _); discriminate.
  - destruct (fs w OPENCLAW_CONFIG) as [f|] eqn:Hf; auto.
    rewrite (update_openclaw_model_run _ _ _ Hf).
    destruct (content f) as [[]|]; discriminate.
Qed.

Lemma push_without_target_witness :
  Linux.sync_to_openclaw "anthropic" "claude-sonnet-4-6" "key123" w_new
    = (Ok false, w_new) /\
  WebUI.update_openclaw_model (JStr "claude-sonnet-4-6") w_new = (Ok false, w_new).
Proof.
  apply (proj1 (push_without_target "anthropic" "claude-sonnet-4-6" "key123"
                  (JStr "claude-sonnet-4-6") w_new)).
  reflexivity.
Defined.

(** ** The selection store *)

(** The selection recorded for a provider, as [load_config] shows it. *)
Definition selected (w : world) (pid : str) : option json :=
  match fst (Cli.load_config w) with
  | Ok config => json_at ["selected_models"; pid] config
  | Raise _ => None
  end.

(** The vault entry of a provider, as [load_keys] of [clawapi.py] and
    [webui.py] shows it. *)
Definition stored (w : world) (pid : str) : option json :=
  match fst (Cli.load_keys w) with
  | Ok keys => json_at [pid] keys
  | Raise _ => None
  end.

(** The selections of a configuration whose [selected_models] member is
    missing or a dictionary. *)
Definition selections_of (cfg : dict json) : option (dict json) :=
  match dict_get "selected_models" cfg with
  | None => Some []
  | Some (JObj sm) => Some sm
  | Some _ => None
  end.

Lemma load_config_world (w : world) : snd (Cli.load_config w) = w.
Proof.
  unfold Cli.load_config, bind, exists_file, json_load.
  destruct (fs w CONFIG_FILE) as [f|] eqn:E; cbn; rewrite ?E;
    [destruct (content f)|]; reflexivity.
Qed.

Lemma load_config_ext (w w' : world) :
  fs w' CONFIG_FILE = fs w CONFIG_FILE ->
  fst (Cli.load_config w') = fst (Cli.load_config w).
Proof.
  intros Hfs. unfold Cli.load_config, bind, exists_file, json_load.
  rewrite Hfs. destruct (fs w CONFIG_FILE) as [f|] eqn:E; cbn; rewrite ?Hfs, ?E;
    [destruct (content f)|]; reflexivity.
Qed.

Lemma load_config_run (w : world) (j : json) :
  fst (Cli.load_config w) = Ok j -> Cli.load_config w = (Ok j, w).
Proof.
  intros Hj. rewrite (surjective_pairing (Cli.load_config w)).
  now rewrite Hj, load_config_world.
Qed.

Lemma load_config_written (w : world) (f : file) (j : json) :
  fs w CONFIG_FILE = Some f -> content f = Text j ->
  fst (Cli.load_config w) = Ok j.
Proof.
  intros Hf Hc. unfold Cli.load_config, bind, exists_file, json_load.
  rewrite Hf; cbn; now rewrite Hf, Hc.
Qed.

Lemma load_keys_world (w : world) : snd (Cli.load_keys w) = w.
Proof.
  unfold Cli.load_keys, bind, exists_file, try_except, json_load.
  destruct (fs w KEYS_FILE) as [f|] eqn:E; cbn; rewrite ?E;
    [destruct (content f)|]; reflexivity.
Qed.

Lemma load_keys_ext (w w' : world) :
  fs w' KEYS_FILE = fs w KEYS_FILE ->
  fst (Cli.load_keys w') = fst (Cli.load_keys w).
Proof.
  intros Hfs. unfold Cli.load_keys, bind, exists_file, try_except, json_load.
  rewrite Hfs. destruct (fs w KEYS_FILE) as [f|] eqn:E; cbn; rewrite ?Hfs, ?E;
    [destruct (content f)|]; reflexivity.
Qed.

Lemma load_keys_cli_run (w : world) (j : json) :
  fst (Cli.load_keys w) = Ok j -> Cli.load_keys w = (Ok j, w).
Proof.
  intros Hj. rewrite (surjective_pairing (Cli.load_keys w)).
  now rewrite Hj, load_keys_world.
Qed.

Lemma load_keys_written (w : world) (f : file) (j : json) :
  fs w KEYS_FILE = Some f -> content f = Text j ->
  fst (Cli.load_keys w) = Ok j.
Proof.
  intros Hf Hc. unfold Cli.load_keys, bind, exists_file, try_except, json_load.
  rewrite Hf; cbn; now rewrite Hf, Hc.
Qed.

Lemma dict_set_set {V} (d : dict V) (k : str) (v1 v2 : V) :
  dict_set k v2 (dict_set k v1 d) = dict_set k v2 d.
Proof.
  induction d as [|[k0 v0] d IH]; simpl.
  - now rewrite String.eqb_refl.
  - destruct (String.eqb k0 k) eqn:E; simpl.
    + now rewrite String.eqb_refl.
    + now rewrite E, IH.
Qed.

(** The configuration that the first lines of [set_model] compute. *)
Definition select_result (pid : str) (v : json) (config : json) : result json :=
  rbind (py_in "selected_models" config) (fun has =>
  rbind (if negb has
         then py_setitem config "selected_models" (JObj [])
         else Ok config) (fun config =>
  py_setitem_at config ["selected_models"] pid v)).

Lemma select_result_ok (pid : str) (v : json) (cfg sm : dict json) :
  selections_of cfg = Some sm ->
  select_result pid v (JObj cfg) =
  Ok (JObj (dict_set "selected_models" (JObj (dict_set pid v sm)) cfg)).
Proof.
  unfold selections_of, select_result. cbn [py_in rbind]. unfold dict_mem.
  destruct (dict_get "selected_models" cfg) as [x|] eqn:E.
  - destruct x; try discriminate. intros [= <-]. cbn [negb rbind].
    cbn [py_setitem_at py_getitem]. rewrite E. reflexivity.
  - intros [= <-]. cbn [negb py_setitem rbind].
    cbn [py_setitem_at py_getitem]. rewrite dict_get_set_same.
    cbn [rbind py_setitem]. now rewrite dict_set_set.
Qed.

Lemma selected_of_config (w : world) (j : json) (q : str) :
  fst (Cli.load_config w) = Ok j ->
  selected w q = json_at ["selected_models"; q] j.
Proof. intros Hj. unfold selected. now rewrite Hj. Qed.

Lemma stored_of_keys (w : world) (j : json) (q : str) :
  fst (Cli.load_keys w) = Ok j -> stored w q = json_at [q] j.
Proof. intros Hj. unfold stored. now rewrite Hj. Qed.

Lemma json_at_selection (cfg sm : dict json) (q : str) :
  selections_of cfg = Some sm ->
  json_at ["selected_models"; q] (JObj cfg) = dict_get q sm.
Proof.
  unfold selections_of. cbn [json_at].
  destruct (dict_get "selected_models" cfg) as [x|].
  - destruct x; try discriminate. intros [= <-]. now destruct (dict_get q d).
  - now intros [= <-].
Qed.

Lemma selections_of_set (cfg sm : dict json) :
  selections_of (dict_set "selected_models" (JObj sm) cfg) = Some sm.
Proof. unfold selections_of. now rewrite dict_get_set_same. Qed.

Lemma config_not_keys : CONFIG_FILE <> KEYS_FILE.
Proof. discriminate. Qed.

Lemma openclaw_not_config : OPENCLAW_CONFIG <> CONFIG_FILE.
Proof. discriminate. Qed.

Lemma openclaw_not_keys : OPENCLAW_CONFIG <> KEYS_FILE.
Proof. discriminate. Qed.

(** What [save_config] and [save_keys] leave. *)
Lemma save_config_run (config : json) (w : world) :
  exists w',
    Cli.save_config config w = (Ok tt, w') /\
    fst (Cli.load_config w') = Ok config /\
    (forall q, q <> CONFIG_FILE -> fs w' q = fs w q) /\
    log w' = log w /\ now w' = now w.
Proof.
  unfold Cli.save_config, do_ops, Cli.save_config_ops.
  eexists. split; [reflexivity|].
  destruct (write_config_file CONFIG_FILE config w) as (f' & Hf' & Hc').
  split; [exact (load_config_written _ _ _ Hf' Hc')|].
  split; [|split].
  - intros q Hq. apply run_ops_other. repeat constructor; simpl; congruence.
  - apply run_ops_log. repeat constructor.
  - apply run_ops_env.
Qed.

Lemma save_keys_cli_run (keys : json) (w : world) :
  exists w',
    Cli.save_keys keys w = (Ok tt, w') /\
    fst (Cli.load_keys w') = Ok keys /\
    (forall q, q <> KEYS_FILE -> fs w' q = fs w q) /\
    log w' = log w /\ now w' = now w.
Proof.
  unfold Cli.save_keys, do_ops, Cli.save_keys_ops.
  eexists. split; [reflexivity|].
  split.
  { eapply load_keys_written; [apply run_dump_chmod | reflexivity]. }
  split; [|split].
  - intros q Hq. apply run_ops_other. repeat constructor; simpl; congruence.
  - apply run_ops_log. repeat constructor.
  - apply run_ops_env.
Qed.

(** The synchronisation at the end of [set_model] of [clawapi.py] never
    raises and touches the external configuration only. *)
Definition cli_push (model : str) : M unit :=
  e <- exists_file OPENCLAW_CONFIG ;;
  if e then
    try_except
      (oc <- json_load OPENCLAW_CONFIG ;;
       oc <- lift (py_setitem oc "defaultModel" (JStr model)) ;;
       oc <- lift (py_setitem oc "model" (JStr model)) ;;
       do_ops (Cli.openclaw_ops oc))
      (ret tt)
  else ret tt.

Lemma cli_push_run (model : str) (w : world) :
  exists w',
    cli_push model w = (Ok tt, w') /\
    (forall q, q <> OPENCLAW_CONFIG -> fs w' q = fs w q) /\ log w' = log w.
Proof.
  unfold cli_push, bind at 1, exists_file.
  destruct (fs w OPENCLAW_CONFIG) as [f|] eqn:Hf.
  - unfold try_except, bind at 1, json_load. rewrite Hf.
    destruct (content f) as [j|s]; [|exists w; auto].
    rewrite bind_lift.
    destruct (py_setitem j "defaultModel" (JStr model)) as [oc|e];
      [|exists w; auto].
    rewrite bind_lift.
    destruct (py_setitem oc "model" (JStr model)) as [oc'|e];
      [|exists w; auto].
    unfold do_ops, Cli.openclaw_ops. eexists. split; [reflexivity|]. split.
    + intros q Hq. apply run_ops_other. repeat constructor; simpl; congruence.
    + apply run_ops_log. repeat constructor.
  - exists w. auto.
Qed.

Lemma cli_set_model_run (pid model : str) (w : world) (cfg sm : dict json) :
  fst (Cli.load_config w) = Ok (JObj cfg) ->
  selections_of cfg = Some sm ->
  exists w',
    Cli.set_model pid model w = (Ok tt, w') /\
    fst (Cli.load_config w') =
      Ok (JObj (dict_set "selected_models"
                  (JObj (dict_set pid (JStr model) sm)) cfg)) /\
    fs w' KEYS_FILE = fs w KEYS_FILE.
Proof.
  intros Hload Hsel.
  pose proof (select_result_ok pid (JStr model) cfg sm Hsel) as Hres.
  unfold select_result in Hres.
  unfold Cli.set_model.
  rewrite (bind_ok _ _ _ _ _ (load_config_run _ _ Hload)).
  rewrite bind_lift.
  destruct (py_in "selected_models" (JObj cfg)) as [has|e];
    cbn [rbind] in Hres; [|discriminate].
  rewrite if_lift, bind_lift.
  destruct (if negb has
            then py_setitem (JObj cfg) "selected_models" (JObj [])
            else Ok (JObj cfg)) as [c1|e];
    cbn [rbind] in Hres; [|discriminate].
  rewrite bind_lift, Hres.
  destruct (save_config_run
              (JObj (dict_set "selected_models"
                       (JObj (dict_set pid (JStr model) sm)) cfg)) w)
    as (ws & Hsave & Hcfg & Hframe & _).
  rewrite (bind_ok _ _ _ _ _ Hsave).
  destruct (cli_push_run model ws) as (w' & Hpush & Hframe' & _).
  exists w'. split; [exact Hpush|]. split.
  - rewrite <- Hcfg. apply load_config_ext, Hframe'.
    intros E. symmetry in E. now apply openclaw_not_config.
  - rewrite Hframe', Hframe; auto.
    + intros E. symmetry in E. now apply config_not_keys.
    + intros E. symmetry in E. now apply openclaw_not_keys.
Qed.

Lemma update_openclaw_model_frame (m : json) (w : world) (q : path) :
  q <> OPENCLAW_CONFIG ->
  fs (snd (WebUI.update_openclaw_model m w)) q = fs w q.
Proof.
  intros Hq. destruct (fs w OPENCLAW_CONFIG) as [f|] eqn:Hf.
  - rewrite (update_openclaw_model_run _ _ _ Hf).
    destruct (content f) as [[]|]; try reflexivity.
    cbn [snd]. apply run_ops_other. repeat constructor; simpl; congruence.
  - unfold WebUI.update_openclaw_model, bind, exists_file. now rewrite Hf.
Qed.

Lemma log_activity_frame (msg lv : str) (w : world) :
  fst (WebUI.log_activity msg lv w) = Ok tt /\
  forall q, fs (snd (WebUI.log_activity msg lv w)) q = fs w q.
Proof.
  unfold WebUI.log_activity, do_ops. split; [reflexivity|].
  intros q. apply run_ops_other.
  constructor; [right; reflexivity|]. constructor; [right; reflexivity|].
  constructor.
Qed.

Lemma webui_set_model_config (pid : str) (m : option str) (w : world)
      (cfg sm : dict json) :
  fst (Cli.load_config w) = Ok (JObj cfg) ->
  selections_of cfg = Some sm ->
  fst (Cli.load_config (snd (WebUI.set_model pid m w))) =
    Ok (JObj (dict_set "selected_models"
                (JObj (dict_set pid (WebUI.py_optstr m) sm)) cfg)) /\
  forall q, q <> CONFIG_FILE -> q <> OPENCLAW_CONFIG ->
            fs (snd (WebUI.set_model pid m w)) q = fs w q.
Proof.
  intros Hload Hsel.
  pose proof (select_result_ok pid (WebUI.py_optstr m) cfg sm Hsel) as Hres.
  unfold select_result in Hres.
  unfold WebUI.set_model, WebUI.load_config, WebUI.save_config.
  rewrite (bind_ok _ _ _ _ _ (load_config_run _ _ Hload)).
  rewrite bind_lift.
  destruct (py_in "selected_models" (JObj cfg)) as [has|e];
    cbn [rbind] in Hres; [|discriminate].
  rewrite if_lift, bind_lift.
  destruct (if negb has
            then py_setitem (JObj cfg) "selected_models" (JObj [])
            else Ok (JObj cfg)) as [c1|e];
    cbn [rbind] in Hres; [|discriminate].
  rewrite bind_lift, Hres.
  destruct (save_config_run
              (JObj (dict_set "selected_models"
                       (JObj (dict_set pid (WebUI.py_optstr m) sm)) cfg)) w)
    as (ws & Hsave & Hcfg & Hframe & _).
  rewrite (bind_ok _ _ _ _ _ Hsave).
  pose proof (update_openclaw_model_frame (WebUI.py_optstr m) ws) as Hup.
  unfold bind.
  destruct (WebUI.update_openclaw_model (WebUI.py_optstr m) ws) as [[updated|e] wu].
  - cbn [snd] in Hup.
    assert (Hfs : forall q, q <> OPENCLAW_CONFIG ->
              fs (snd ((if updated
                        then WebUI.log_activity
                               ("Set default model to "
                                ++ match m with Some m0 => m0 | None => "None" end
                                ++ " (" ++ provider_name_or WebUI.PROVIDERS pid
                                ++ ")") "success"
                        else ret tt) wu)) q = fs ws q).
    { intros q Hq. destruct updated; cbn [ret snd].
      - rewrite (proj2 (log_activity_frame _ _ wu)). now apply Hup.
      - now apply Hup. }
    split.
    + rewrite <- Hcfg. apply load_config_ext, Hfs.
      intros E. symmetry in E. now apply openclaw_not_config.
    + intros q Hq1 Hq2. rewrite Hfs, Hframe; auto.
  - cbn [snd] in *. split.
    + rewrite <- Hcfg. apply load_config_ext, Hup.
      intros E. symmetry in E. now apply openclaw_not_config.
    + intros q Hq1 Hq2. rewrite Hup, Hframe; auto.
Qed.

(** ** Removing a provider *)

Lemma dict_del_absent {V} (d : dict V) (k : str) :
  dict_get k d = None -> dict_del k d = d.
Proof.
  induction d as [|[k0 v0] d IH]; simpl; auto.
  destruct (String.eqb k0 k); [discriminate|]. simpl.
  intros Hn. now rewrite IH.
Qed.

(** The two tests before a selection is deleted come to one: the
    provider has a selection. *)
Lemma unselect_test_run {B} (pid : str) (cfg sm : dict json) (k : bool -> M B)
      (w : world) :
  selections_of cfg = Some sm ->
  (c1 <- lift (py_in "selected_models" (JObj cfg)) ;;
   c2 <- (if c1
          then sm <- lift (py_getitem (JObj cfg) "selected_models") ;;
               lift (py_in pid sm)
          else ret false) ;;
   k c2) w = k (dict_mem pid sm) w.
Proof.
  unfold selections_of. intros Hsel. rewrite bind_lift. cbn [py_in].
  unfold dict_mem at 1.
  destruct (dict_get "selected_models" cfg) as [x|] eqn:E.
  - destruct x; try discriminate. injection Hsel as <-.
    unfold bind at 1. rewrite bind_lift. cbn [py_getitem]. rewrite E.
    reflexivity.
  - injection Hsel as <-. reflexivity.
Qed.

Lemma delete_selection (pid : str) (cfg sm : dict json) :
  selections_of cfg = Some sm ->
  dict_mem pid sm = true ->
  py_delitem_at (JObj cfg) ["selected_models"] pid =
  Ok (JObj (dict_set "selected_models" (JObj (dict_del pid sm)) cfg)).
Proof.
  unfold selections_of. intros Hsel Hm. cbn [py_delitem_at py_getitem].
  destruct (dict_get "selected_models" cfg) as [x|] eqn:E.
  - destruct x; try discriminate. injection Hsel as <-.
    cbn [rbind py_delitem]. now rewrite Hm.
  - injection Hsel as <-. discriminate.
Qed.

(** The configuration after the removal of the selection of [pid]. *)
Definition unselected (pid : str) (cfg sm : dict json) : dict json :=
  if dict_mem pid sm
  then dict_set "selected_models" (JObj (dict_del pid sm)) cfg
  else cfg.

Lemma unselected_selection (pid q : str) (cfg sm : dict json) :
  selections_of cfg = Some sm ->
  json_at ["selected_models"; q] (JObj (unselected pid cfg sm)) =
  if String.eqb q pid then None else dict_get q sm.
Proof.
  intros Hsel. unfold unselected. destruct (dict_mem pid sm) eqn:Hm.
  - rewrite (json_at_selection _ _ _ (selections_of_set cfg _)).
    destruct (String.eqb_spec q pid) as [->|Hne].
    + apply dict_get_del_same.
    + now apply dict_get_del_other.
  - rewrite (json_at_selection _ _ _ Hsel).
    destruct (String.eqb_spec q pid) as [->|Hne]; auto.
    now apply dict_mem_false.
Qed.

Lemma cli_remove_provider_run (pid : str) (w : world) (keys cfg sm : dict json) :
  fst (Cli.load_keys w) = Ok (JObj keys) ->
  dict_mem pid keys = true ->
  fst (Cli.load_config w) = Ok (JObj cfg) ->
  selections_of cfg = Some sm ->
  exists w',
    snd (Cli.remove_provider pid w) = w' /\
    fst (Cli.load_keys w') = Ok (JObj (dict_del pid keys)) /\
    (forall q, selected w' q = json_at ["selected_models"; q]
                                 (JObj (unselected pid cfg sm))).
Proof.
  intros Hkeys Hin Hcfg Hsel. unfold Cli.remove_provider.
  rewrite (bind_ok _ _ _ _ _ (load_keys_cli_run _ _ Hkeys)).
  rewrite bind_lift. cbn [py_in]. rewrite Hin.
  rewrite bind_lift. cbn [py_delitem]. rewrite Hin.
  destruct (save_keys_cli_run (JObj (dict_del pid keys)) w)
    as (wa & Hsave & Hkeys' & Hframe & _).
  rewrite (bind_ok _ _ _ _ _ Hsave).
  assert (Hcfg_a : fst (Cli.load_config wa) = Ok (JObj cfg)).
  { rewrite <- Hcfg. apply load_config_ext, Hframe, config_not_keys. }
  rewrite (bind_ok _ _ _ _ _ (load_config_run _ _ Hcfg_a)).
  rewrite (unselect_test_run pid cfg sm _ wa Hsel).
  unfold unselected. destruct (dict_mem pid sm) eqn:Hm.
  - unfold bind at 1. rewrite bind_lift, (delete_selection pid cfg sm Hsel Hm).
    destruct (save_config_run
                (JObj (dict_set "selected_models" (JObj (dict_del pid sm)) cfg)) wa)
      as (wb & Hsave_b & Hcfg_b & Hframe_b & _).
    rewrite Hsave_b. rewrite bind_lift.
    exists wb. split; [now destruct (provider_name Cli.PROVIDERS pid)|]. split.
    + rewrite <- Hkeys'. apply load_keys_ext, Hframe_b.
      intros E. symmetry in E. now apply config_not_keys.
    + intros q. now apply selected_of_config.
  - unfold bind at 1. cbn [ret]. rewrite bind_lift.
    exists wa. split; [now destruct (provider_name Cli.PROVIDERS pid)|].
    split; [exact Hkeys'|].
    intros q. now apply selected_of_config.
Qed.

Lemma webui_remove_key_run (pid : str) (w : world) (keys cfg sm : dict json) :
  fst (Cli.load_keys w) = Ok (JObj keys) ->
  fst (Cli.load_config w) = Ok (JObj cfg) ->
  selections_of cfg = Some sm ->
  exists w',
    snd (WebUI.remove_key pid w) = w' /\
    fst (Cli.load_keys w') = Ok (JObj (dict_del pid keys)) /\
    (forall q, selected w' q = json_at ["selected_models"; q]
                                 (JObj (unselected pid cfg sm))).
Proof.
  intros Hkeys Hcfg Hsel.
  unfold WebUI.remove_key, WebUI.load_keys, WebUI.load_config,
    WebUI.save_keys, WebUI.save_config.
  rewrite (bind_ok _ _ _ _ _ (load_keys_cli_run _ _ Hkeys)).
  rewrite (bind_ok _ _ _ _ _ (load_config_run _ _ Hcfg)).
  rewrite bind_lift. cbn [py_in].
  rewrite if_lift, bind_lift.
  assert (Hdel : (if dict_mem pid keys
                  then py_delitem (JObj keys) pid
                  else Ok (JObj keys)) = Ok (JObj (dict_del pid keys))).
  { cbn [py_delitem]. destruct (dict_mem pid keys) eqn:Hm; auto.
    apply dict_mem_false in Hm. now rewrite (dict_del_absent keys pid Hm). }
  rewrite Hdel.
  rewrite (unselect_test_run pid cfg sm _ w Hsel).
  rewrite if_lift, bind_lift.
  assert (Hun : (if dict_mem pid sm
                 then py_delitem_at (JObj cfg) ["selected_models"] pid
                 else Ok (JObj cfg)) = Ok (JObj (unselected pid cfg sm))).
  { unfold unselected. destruct (dict_mem pid sm) eqn:Hm; auto.
    now apply delete_selection. }
  rewrite Hun.
  destruct (save_keys_cli_run (JObj (dict_del pid keys)) w)
    as (wa & Hsave & Hkeys' & Hframe & _).
  rewrite (bind_ok _ _ _ _ _ Hsave).
  destruct (save_config_run (JObj (unselected pid cfg sm)) wa)
    as (wb & Hsave_b & Hcfg_b & Hframe_b & _).
  rewrite (bind_ok _ _ _ _ _ Hsave_b).
  pose proof (proj2 (log_activity_frame
                ("Removed provider: " ++ provider_name_or WebUI.PROVIDERS pid)
                "info" wb)) as Hlog.
  eexists. split; [reflexivity|]. split.
  - rewrite <- Hkeys'.
    apply load_keys_ext. rewrite Hlog. apply Hframe_b.
    intros E. symmetry in E. now apply config_not_keys.
  - intros q. apply selected_of_config. rewrite <- Hcfg_b.
    apply load_config_ext, Hlog.
Qed.

(** C10.  Removing a provider ([remove_provider] of [clawapi.py] for a
    provider with a vault entry, [remove_key] of [webui.py] for any
    provider) deletes its vault entry and its entry in [selected_models],
    and leaves the selection of every other provider as it was. *)
Theorem remove_clears_selection (pid : str) (w : world) (keys cfg sm : dict json) :
  fst (Cli.load_keys w) = Ok (JObj keys) ->
  fst (Cli.load_config w) = Ok (JObj cfg) ->
  selections_of cfg = Some sm ->
  (dict_mem pid keys = true ->
   let w' := snd (Cli.remove_provider pid w) in
   stored w' pid = None /\ selected w' pid = None /\
   forall q, q <> pid -> selected w' q = selected w q) /\
  (let w' := snd (WebUI.remove_key pid w) in
   stored w' pid = None /\ selected w' pid = None /\
   forall q, q <> pid -> selected w' q = selected w q).
Proof.
  intros Hkeys Hcfg Hsel.
  assert (Hold : forall q, q <> pid ->
            json_at ["selected_models"; q] (JObj (unselected pid cfg sm))
            = selected w q).
  { intros q Hq. rewrite (selected_of_config _ _ _ Hcfg).
    rewrite (unselected_selection pid q cfg sm Hsel),
      (json_at_selection _ _ _ Hsel).
    destruct (String.eqb_spec q pid); congruence. }
  assert (Hgone : json_at ["selected_models"; pid]
                    (JObj (unselected pid cfg sm)) = None).
  { rewrite (unselected_selection pid pid cfg sm Hsel).
    now rewrite String.eqb_refl. }
  split.
  - intros Hin.
    destruct (cli_remove_provider_run pid w keys cfg sm Hkeys Hin Hcfg Hsel)
      as (w' & -> & Hk & Hs).
    cbv zeta. split; [|split].
    + rewrite (stored_of_keys _ _ _ Hk). cbn [json_at].
      now rewrite dict_get_del_same.
    + now rewrite Hs.
    + intros q Hq. rewrite Hs. now apply Hold.
  - destruct (webui_remove_key_run pid w keys cfg sm Hkeys Hcfg Hsel)
      as (w' & -> & Hk & Hs).
    cbv zeta. split; [|split].
    + rewrite (stored_of_keys _ _ _ Hk). cbn [json_at].
      now rewrite dict_get_del_same.
    + now rewrite Hs.
    + intros q Hq. rewrite Hs. now apply Hold.
Qed.

(** Two providers with a key and a selected model each. *)
Definition w_two : world :=
  {| master_key := None; log := None;
     fs := upd KEYS_FILE
             (Some {| content := Text (JObj [("openai", JStr "c1");
                                               ("anthropic", JStr "c2")]);
                      mode := Some 384%N |})
             (upd CONFIG_FILE
                (Some {| content :=
                           Text (JObj [("selected_models",
                                        JObj [("openai", JStr "gpt-4o");
                                              ("anthropic", JStr "claude-sonnet-4-6")])]);
                         mode := None |})
                (fun _ => None));
     seed := 7; now := "2026-01-02 03:04:05" |}.

Lemma remove_clears_selection_witness :
  (let w' := snd (Cli.remove_provider "openai" w_two) in
   stored w' "openai" = None /\ selected w' "openai" = None /\
   forall q, q <> "openai" -> selected w' q = selected w_two q) /\
  (let w' := snd (WebUI.remove_key "openai" w_two) in
   stored w' "openai" = None /\ selected w' "openai" = None /\
   forall q, q <> "openai" -> selected w' q = selected w_two q).
Proof.
  pose proof (remove_clears_selection "openai" w_two
                [("openai", JStr "c1"); ("anthropic", JStr "c2")]
                [("selected_models",
                  JObj [("openai", JStr "gpt-4o");
                        ("anthropic", JStr "claude-sonnet-4-6")])]
                [("openai", JStr "gpt-4o");
                 ("anthropic", JStr "claude-sonnet-4-6")]
                eq_refl eq_refl eq_refl) as [Hcli Hweb].
  split; [apply Hcli; reflexivity | exact Hweb].
Defined.

Example remove_keeps_the_other_selection :
  selected (snd (Cli.remove_provider "openai" w_two)) "anthropic"
    = Some (JStr "claude-sonnet-4-6") /\
  selected (snd (Cli.remove_provider "openai" w_two)) "openai" = None.
Proof. split; reflexivity. Qed.

(** ** The end-to-end scenario *)

(** The end of [set_model] of [webui.py]: the push of the model and the
    log entry. *)
Definition webui_push (provider : str) (model : option str) : M unit :=
  updated <- WebUI.update_openclaw_model (WebUI.py_optstr model) ;;
  if updated then
    WebUI.log_activity
      ("Set default model to " ++ match model with Some m => m | None => "None" end
       ++ " (" ++ provider_name_or WebUI.PROVIDERS provider ++ ")") "success"
  else ret tt.

Lemma webui_set_model_split (pid : str) (m : option str) (w : world)
      (cfg sm : dict json) :
  fst (Cli.load_config w) = Ok (JObj cfg) ->
  selections_of cfg = Some sm ->
  exists ws,
    WebUI.set_model pid m w = webui_push pid m ws /\
    (forall q, q <> CONFIG_FILE -> fs ws q = fs w q).
Proof.
  intros Hload Hsel.
  pose proof (select_result_ok pid (WebUI.py_optstr m) cfg sm Hsel) as Hres.
  unfold select_result in Hres.
  unfold WebUI.set_model, WebUI.load_config, WebUI.save_config.
  rewrite (bind_ok _ _ _ _ _ (load_config_run _ _ Hload)).
  rewrite bind_lift.
  destruct (py_in "selected_models" (JObj cfg)) as [has|e];
    cbn [rbind] in Hres; [|discriminate].
  rewrite if_lift, bind_lift.
  destruct (if negb has
            then py_setitem (JObj cfg) "selected_models" (JObj [])
            else Ok (JObj cfg)) as [c1|e];
    cbn [rbind] in Hres; [|discriminate].
  rewrite bind_lift, Hres.
  destruct (save_config_run
              (JObj (dict_set "selected_models"
                       (JObj (dict_set pid (WebUI.py_optstr m) sm)) cfg)) w)
    as (ws & Hsave & _ & Hframe & _).
  rewrite (bind_ok _ _ _ _ _ Hsave).
  exists ws. split; [reflexivity | exact Hframe].
Qed.

Lemma webui_push_openclaw (pid : str) (m : option str) (w : world)
      (f : file) (d : dict json) :
  fs w OPENCLAW_CONFIG = Some f ->
  content f = Text (JObj d) ->
  exists w' f',
    webui_push pid m w = (Ok tt, w') /\
    fs w' OPENCLAW_CONFIG = Some f' /\
    content f' =
      Text (JObj (dict_set "model" (WebUI.py_optstr m)
                    (dict_set "defaultModel" (WebUI.py_optstr m) d))).
Proof.
  intros Hf Hc. unfold webui_push, bind.
  rewrite (update_openclaw_model_run _ _ _ Hf), Hc.
  destruct (write_config_file OPENCLAW_CONFIG
              (JObj (dict_set "model" (WebUI.py_optstr m)
                       (dict_set "defaultModel" (WebUI.py_optstr m) d))) w)
    as (f' & Hf' & Hc').
  eexists. exists f'. split; [reflexivity|].
  cbn [snd]. split; [|exact Hc'].
  unfold WebUI.log_activity, do_ops. cbn [snd].
  rewrite run_ops_other; [exact Hf'|].
  constructor; [right; reflexivity|]. constructor; [right; reflexivity|].
  constructor.
Qed.

(** Amended C8.  [set_model] checks nothing about the model name: for
    every provider and every name, the empty one included, it records the
    name as the provider's selection ([webui.py] records [null] for an
    absent name) and leaves the selection of every other provider as it
    was, so it clears no selection.  [set_model] of [clawapi.py] returns
    normally; [set_model] of [webui.py] returns normally when the
    external configuration is absent or holds a JSON object. *)
Theorem set_model_records_any_name
        (pid model : str) (m : option str) (w : world) (cfg sm : dict json) :
  fst (Cli.load_config w) = Ok (JObj cfg) ->
  selections_of cfg = Some sm ->
  (exists w', Cli.set_model pid model w = (Ok tt, w') /\
              selected w' pid = Some (JStr model) /\
              forall q, q <> pid -> selected w' q = selected w q) /\
  (selected (snd (WebUI.set_model pid m w)) pid = Some (WebUI.py_optstr m) /\
   (forall q, q <> pid ->
              selected (snd (WebUI.set_model pid m w)) q = selected w q) /\
   (match fs w OPENCLAW_CONFIG with
    | Some f => exists d, content f = Text (JObj d)
    | None => True
    end -> fst (WebUI.set_model pid m w) = Ok tt)).
Proof.
  intros Hload Hsel.
  assert (Hother : forall w' v q, q <> pid ->
            fst (Cli.load_config w') =
              Ok (JObj (dict_set "selected_models"
                          (JObj (dict_set pid v sm)) cfg)) ->
            selected w' q = selected w q).
  { intros w' v q Hq Hcfg.
    rewrite (selected_of_config _ _ _ Hcfg), (selected_of_config _ _ _ Hload).
    rewrite (json_at_selection _ _ _ (selections_of_set cfg _)),
      (json_at_selection _ _ _ Hsel).
    now apply dict_get_set_other. }
  split.
  - destruct (cli_set_model_run pid model w cfg sm Hload Hsel)
      as (w' & Hrun & Hcfg & _).
    exists w'. split; [exact Hrun|]. split.
    + rewrite (selected_of_config _ _ _ Hcfg).
      rewrite (json_at_selection _ _ _ (selections_of_set cfg _)).
      apply dict_get_set_same.
    + intros q Hq. exact (Hother w' _ q Hq Hcfg).
  - destruct (webui_set_model_config pid m w cfg sm Hload Hsel) as [Hcfg _].
    split; [|split].
    + rewrite (selected_of_config _ _ _ Hcfg).
      rewrite (json_at_selection _ _ _ (selections_of_set cfg _)).
      apply dict_get_set_same.
    + intros q Hq. exact (Hother _ _ q Hq Hcfg).
    + destruct (webui_set_model_split pid m w cfg sm Hload Hsel)
        as (ws & -> & Hframe).
      assert (Hoc : fs ws OPENCLAW_CONFIG = fs w OPENCLAW_CONFIG)
        by (apply Hframe, openclaw_not_config).
      destruct (fs w OPENCLAW_CONFIG) as [f|] eqn:Hf.
      * intros [d Hd].
        destruct (webui_push_openclaw pid m ws f d Hoc Hd) as (w' & f' & -> & _).
        reflexivity.
      * intros _. unfold webui_push, WebUI.update_openclaw_model, bind,
          exists_file. now rewrite Hoc.
Qed.

Lemma set_model_records_any_name_witness :
  (exists w', Cli.set_model "openai" "" w_two = (Ok tt, w') /\
              selected w' "openai" = Some (JStr "") /\
              forall q, q <> "openai" -> selected w' q = selected w_two q) /\
  (selected (snd (WebUI.set_model "openai" None w_two)) "openai" = Some JNull /\
   (forall q, q <> "openai" ->
              selected (snd (WebUI.set_model "openai" None w_two)) q
              = selected w_two q) /\
   (True -> fst (WebUI.set_model "openai" None w_two) = Ok tt)).
Proof.
  apply (set_model_records_any_name "openai" "" None w_two
           [("selected_models",
             JObj [("openai", JStr "gpt-4o");
                   ("anthropic", JStr "claude-sonnet-4-6")])]
           [("openai", JStr "gpt-4o");
            ("anthropic", JStr "claude-sonnet-4-6")]); reflexivity.
Defined.

(** C8 as stated fails: with an empty model name [set_model] returns
    normally and the selection store, empty before, holds the empty name
    for the provider. *)
Lemma empty_model_name_is_stored :
  selected w_new "openai" = None /\
  fst (Cli.set_model "openai" "" w_new) = Ok tt /\
  selected (snd (Cli.set_model "openai" "" w_new)) "openai" = Some (JStr "") /\
  fst (WebUI.set_model "openai" (Some "") w_new) = Ok tt /\
  selected (snd (WebUI.set_model "openai" (Some "") w_new)) "openai"
    = Some (JStr "").
Proof. repeat split; reflexivity. Qed.

Definition anthropic_entry : json :=
  JObj [("provider", JStr "anthropic"); ("model", JStr "claude-sonnet-4-6");
        ("apiKey", JStr "key123")].

(** The document the scenario leaves, in the order of its members in the
    file, and the document of the specification. *)
Definition scenario_document : json :=
  JObj [("foo", JNum 1);
        ("defaultModel", JStr "claude-sonnet-4-6");
        ("model", JStr "claude-sonnet-4-6");
        ("models", JObj [("providers", JObj [("anthropic:default", anthropic_entry)])])].

Definition claimed_document : json :=
  JObj [("foo", JNum 1);
        ("model", JStr "claude-sonnet-4-6");
        ("defaultModel", JStr "claude-sonnet-4-6");
        ("models", JObj [("providers", JObj [("anthropic:default", anthropic_entry)])])].

(** Amended C4.  Against an external configuration [{"foo": 1}], the
    calls [add_key("anthropic", "key123")],
    [set_model("anthropic", "claude-sonnet-4-6")] of the web console and
    [sync_to_openclaw("anthropic", "claude-sonnet-4-6", "key123")] leave
    the document of the specification.  [set_model] is the step that
    sets [defaultModel] and [model]; [sync_to_openclaw] adds the entry
    [anthropic:default] to what it finds. *)
Theorem end_to_end_scenario `{Fernet} (w : world) (f : file) (cfg sm : dict json) :
  key_usable w ->
  fs w OPENCLAW_CONFIG = Some f ->
  content f = Text (JObj [("foo", JNum 1)]) ->
  fst (Cli.load_config w) = Ok (JObj cfg) ->
  selections_of cfg = Some sm ->
  let w1 := snd (Linux.add_key "anthropic" "key123" w) in
  let w2 := snd (WebUI.set_model "anthropic" (Some "claude-sonnet-4-6") w1) in
  let r := Linux.sync_to_openclaw "anthropic" "claude-sonnet-4-6" "key123" w2 in
  option_map content (fs w2 OPENCLAW_CONFIG) =
    Some (Text (JObj [("foo", JNum 1);
                      ("defaultModel", JStr "claude-sonnet-4-6");
                      ("model", JStr "claude-sonnet-4-6")])) /\
  fst r = Ok true /\
  option_map content (fs (snd r) OPENCLAW_CONFIG) = Some (Text scenario_document) /\
  json_equal scenario_document claimed_document = true.
Proof.
  intros Hu Hf Hc Hcfg Hsel.
  destruct (add_key_run "anthropic" "key123" w Hu eq_refl)
    as (w1 & wl & Hadd & _ & Hframe1 & _).
  rewrite Hadd. cbn [snd].
  assert (Hf1 : fs w1 OPENCLAW_CONFIG = Some f)
    by (rewrite Hframe1; [exact Hf | apply openclaw_not_keys]).
  assert (Hcfg1 : fst (Cli.load_config w1) = Ok (JObj cfg)).
  { rewrite <- Hcfg. apply load_config_ext, Hframe1, config_not_keys. }
  destruct (webui_set_model_split "anthropic" (Some "claude-sonnet-4-6")
              w1 cfg sm Hcfg1 Hsel) as (ws & Hsplit & Hframe_s).
  rewrite Hsplit.
  assert (Hfs : fs ws OPENCLAW_CONFIG = Some f)
    by (rewrite Hframe_s; [exact Hf1 | apply openclaw_not_config]).
  destruct (webui_push_openclaw "anthropic" (Some "claude-sonnet-4-6")
              ws f _ Hfs Hc) as (w2 & f2 & Hpush & Hf2 & Hc2).
  rewrite Hpush. cbn [snd]. cbv zeta.
  rewrite (sync_to_openclaw_run _ _ _ _ _ Hf2).
  unfold parsed_or_empty. rewrite Hc2.
  assert (Hres : sync_result "anthropic" "claude-sonnet-4-6" "key123"
                   (JObj (dict_set "model" (JStr "claude-sonnet-4-6")
                            (dict_set "defaultModel" (JStr "claude-sonnet-4-6")
                               [("foo", JNum 1)])))
                 = Ok scenario_document) by reflexivity.
  cbn [WebUI.py_optstr]. rewrite Hres. cbn [fst snd].
  split; [rewrite Hf2; cbn [option_map]; now rewrite Hc2|].
  split; [reflexivity|].
  split; [|reflexivity].
  unfold Linux.write_config_ops. now rewrite run_dump.
Qed.

(** An external configuration [{"foo": 1}] and nothing else. *)
Definition w_foo : world :=
  {| master_key := None; log := None;
     fs := upd OPENCLAW_CONFIG
             (Some {| content := Text (JObj [("foo", JNum 1)]); mode := None |})
             (fun _ => None);
     seed := 7; now := "2026-01-02 03:04:05" |}.

Lemma end_to_end_scenario_witness :
  let w1 := snd (@Linux.add_key toy "anthropic" "key123" w_foo) in
  let w2 := snd (WebUI.set_model "anthropic" (Some "claude-sonnet-4-6") w1) in
  let r := Linux.sync_to_openclaw "anthropic" "claude-sonnet-4-6" "key123" w2 in
  option_map content (fs w2 OPENCLAW_CONFIG) =
    Some (Text (JObj [("foo", JNum 1);
                      ("defaultModel", JStr "claude-sonnet-4-6");
                      ("model", JStr "claude-sonnet-4-6")])) /\
  fst r = Ok true /\
  option_map content (fs (snd r) OPENCLAW_CONFIG) = Some (Text scenario_document) /\
  json_equal scenario_document claimed_document = true.
Proof.
  apply (@end_to_end_scenario toy w_foo
           {| content := Text (JObj [("foo", JNum 1)]); mode := None |}
           [("selected_models", JObj [])] []); reflexivity || exact I.
Defined.

(** C4 as stated fails: [sync_to_openclaw], alone or at the end of the
    sequence of the Linux front end (whose [set_model] is the push
    itself), leaves [{"foo": 1}] with the provider entry and without
    [model] and [defaultModel]. *)
Lemma sync_does_not_set_the_model :
  let pushed := JObj [("foo", JNum 1);
                      ("models", JObj [("providers",
                         JObj [("anthropic:default", anthropic_entry)])])] in
  let r := Linux.sync_to_openclaw "anthropic" "claude-sonnet-4-6" "key123" w_foo in
  let w1 := snd (@Linux.add_key toy "anthropic" "key123" w_foo) in
  let w2 := snd (@Linux.set_model toy "anthropic" (Some "claude-sonnet-4-6") w1) in
  fst r = Ok true /\
  option_map content (fs (snd r) OPENCLAW_CONFIG) = Some (Text pushed) /\
  option_map content (fs w2 OPENCLAW_CONFIG) = Some (Text pushed) /\
  json_at ["model"] pushed = None /\
  json_at ["defaultModel"] pushed = None /\
  json_equal pushed claimed_document = false.
Proof. repeat split; reflexivity. Qed.

(** ** How the files are written *)

(** What a write puts into its target: a JSON document that replaces
    the content, or a line added at the end. *)
Inductive written : Type :=
| Document (j : json)
| Line (s : str).

(** The writes of the mutating operations, each with its target and
    what it writes: the vault ([save_keys] of the three files), the
    selection store ([save_config]), the external configuration (the three
    pushes) and the log ([log_activity]). *)
Inductive mutating_write : path -> list fsop -> written -> Prop :=
| write_vault (keys : json) :
    mutating_write KEYS_FILE (Cli.save_keys_ops keys) (Document keys)
| write_vault_linux (encrypted : dict json) :
    mutating_write KEYS_FILE (Linux.save_keys_ops encrypted)
      (Document (JObj encrypted))
| write_selection (config : json) :
    mutating_write CONFIG_FILE (Cli.save_config_ops config) (Document config)
| write_push_cli (oc : json) :
    mutating_write OPENCLAW_CONFIG (Cli.openclaw_ops oc) (Document oc)
| write_push_webui (config : json) :
    mutating_write OPENCLAW_CONFIG (WebUI.openclaw_ops config) (Document config)
| write_push_linux (config : json) :
    mutating_write OPENCLAW_CONFIG
      (Linux.write_config_ops OPENCLAW_CONFIG config) (Document config)
| write_log (timestamp message level : str) :
    mutating_write ACTIVITY_LOG
      (WebUI.log_activity_ops timestamp message level)
      (Line (WebUI.log_line timestamp level message)).

(** The content of a file of the directory, the log included. *)
Definition file_text (w : world) (p : path) : option data :=
  if String.eqb p ACTIVITY_LOG then option_map Plain (log w)
  else option_map content (fs w p).

(** The text of the log, empty when the file does not exist. *)
Definition log_text (w : world) : str :=
  match log w with Some old => old | None => "" end.

Lemma firstn_forall {A} (P : A -> Prop) (n : nat) (l : list A) :
  Forall P l -> Forall P (firstn n l).
Proof.
  intros Hl. revert n. induction Hl as [|a l Ha _ IH]; intros [|n]; simpl;
    constructor; auto.
Qed.

Lemma mutating_write_target (p : path) (ops : list fsop) (new : written) :
  mutating_write p ops new ->
  Forall (fun o => op_path o = p) ops /\
  (p = ACTIVITY_LOG /\ Forall (fun o => is_log_op o = true) ops \/
   p <> ACTIVITY_LOG /\ Forall (fun o => is_log_op o = false) ops).
Proof.
  intros Hw. destruct Hw; (split; [repeat constructor|]);
    try (right; split; [discriminate | repeat constructor]).
  left. split; [reflexivity | repeat constructor].
Qed.

(** Amended C2.  Every mutating operation writes its target in place:
    each of its steps acts on the target itself, so no temporary file is
    created and nothing is renamed, and at every point of the write every
    other file is as it was.  For the vault, the selection store and the
    external configuration the first step truncates the target: a process
    that stops after it leaves the target empty, and a write that
    completes leaves the document that was written.  The log is opened at
    its end: it keeps what it held, and a write that completes has added
    the line. *)
Theorem writes_are_in_place (p : path) (ops : list fsop) (new : written)
        (w : world) (n : nat) :
  mutating_write p ops new ->
  Forall (fun o => op_path o = p) ops /\
  (forall q, q <> p -> file_text (crash_after n ops w) q = file_text w q) /\
  match new with
  | Document j =>
      file_text (crash_after 1 ops w) p = Some (Plain "") /\
      file_text (run_ops ops w) p = Some (Text j)
  | Line line =>
      file_text (crash_after 1 ops w) p = Some (Plain (log_text w)) /\
      file_text (run_ops ops w) p = Some (Plain (log_text w ++ line))
  end.
Proof.
  intros Hw. destruct (mutating_write_target p ops new Hw) as [Htarget Hkind].
  split; [exact Htarget|]. split.
  - intros q Hq. unfold file_text, crash_after.
    destruct Hkind as [[-> Hlog]|[Hp Hfs]].
    + destruct (String.eqb_spec q ACTIVITY_LOG) as [->|_]; [congruence|].
      f_equal. apply run_ops_other. apply firstn_forall.
      eapply Forall_impl; [|exact Hlog]. simpl. auto.
    + destruct (String.eqb_spec q ACTIVITY_LOG) as [->|_].
      * f_equal. apply run_ops_log. now apply firstn_forall.
      * f_equal. apply run_ops_other. apply firstn_forall.
        eapply Forall_impl; [|exact Htarget]. simpl. intros o ->. left. congruence.
  - destruct Hw; unfold file_text, crash_after, run_ops, log_text; simpl;
      rewrite ?upd_same; simpl; rewrite ?upd_same; simpl; rewrite ?upd_same;
      try (split; reflexivity).
    destruct (log w) as [old|] eqn:E; simpl; rewrite ?E; simpl; rewrite ?E;
      split; reflexivity.
Qed.

(** A directory with a log of one line. *)
Definition w_one_line : world :=
  {| master_key := None;
     log := Some ("2026-01-02 03:04:05 [INFO] Reset all settings" ++ nl);
     fs := fun _ => None; seed := 7; now := "2026-01-02 03:04:06" |}.

Lemma writes_are_in_place_witness :
  (let ops := Cli.save_keys_ops (JObj [("anthropic", JStr "c2")]) in
   Forall (fun o => op_path o = KEYS_FILE) ops /\
   (forall q, q <> KEYS_FILE ->
              file_text (crash_after 2 ops w_two) q = file_text w_two q) /\
   file_text (crash_after 1 ops w_two) KEYS_FILE = Some (Plain "") /\
   file_text (run_ops ops w_two) KEYS_FILE
     = Some (Text (JObj [("anthropic", JStr "c2")]))) /\
  (let ops := WebUI.log_activity_ops "2026-01-02 03:04:06"
                "Added provider: OpenAI" "success" in
   Forall (fun o => op_path o = ACTIVITY_LOG) ops /\
   (forall q, q <> ACTIVITY_LOG ->
              file_text (crash_after 1 ops w_one_line) q = file_text w_one_line q) /\
   file_text (crash_after 1 ops w_one_line) ACTIVITY_LOG
     = Some (Plain ("2026-01-02 03:04:05 [INFO] Reset all settings" ++ nl)) /\
   file_text (run_ops ops w_one_line) ACTIVITY_LOG
     = Some (Plain (("2026-01-02 03:04:05 [INFO] Reset all settings" ++ nl)
                    ++ "2026-01-02 03:04:06 [SUCCESS] Added provider: OpenAI"
                    ++ nl))).
Proof.
  split.
  - apply (writes_are_in_place KEYS_FILE
             (Cli.save_keys_ops (JObj [("anthropic", JStr "c2")]))
             (Document (JObj [("anthropic", JStr "c2")])) w_two 2).
    apply write_vault.
  - apply (writes_are_in_place ACTIVITY_LOG
             (WebUI.log_activity_ops "2026-01-02 03:04:06"
                "Added provider: OpenAI" "success")
             (Line (WebUI.log_line "2026-01-02 03:04:06" "success"
                      "Added provider: OpenAI")) w_one_line 1).
    apply write_log.
Defined.

(** C2 as stated fails: [save_keys] opens the vault itself for writing,
    and a process that stops right after that has lost the vault. *)
Lemma crash_truncates_the_vault :
  let ops := Cli.save_keys_ops (JObj [("anthropic", JStr "c2")]) in
  ops = [OpOpenW KEYS_FILE; OpDump KEYS_FILE (JObj [("anthropic", JStr "c2")]);
         OpChmod KEYS_FILE 384] /\
  file_text w_two KEYS_FILE
    = Some (Text (JObj [("openai", JStr "c1"); ("anthropic", JStr "c2")])) /\
  file_text (crash_after 1 ops w_two) KEYS_FILE = Some (Plain "") /\
  file_text (crash_after 1 ops w_two) KEYS_FILE <> file_text w_two KEYS_FILE.
Proof. repeat split; try reflexivity. discriminate. Qed.

(** ** The activity log *)

Lemma parse_lines_length (lines : list str) :
  List.length (WebUI.parse_lines lines) <= List.length lines.
Proof.
  induction lines as [|line lines IH]; simpl; auto.
  destruct (WebUI.parse_line line); simpl; lia.
Qed.

Lemma slice_from_tail_length {A} (limit : Z) (l : list A) :
  (0 < limit)%Z -> List.length (slice_from (- limit) l) <= Z.to_nat limit.
Proof.
  intros Hpos. unfold slice_from. rewrite length_skipn.
  destruct (Z.ltb_spec (- limit) 0); lia.
Qed.

(** For a positive limit the reader returns at most that many entries,
    taken from the end of the log, the newest first. *)
Lemma get_activity_logs_bound (limit : Z) (w : world) (entries : list WebUI.log_entry) :
  (0 < limit)%Z ->
  fst (WebUI.get_activity_logs limit w) = Ok entries ->
  List.length entries <= Z.to_nat limit.
Proof.
  intros Hpos. unfold WebUI.get_activity_logs.
  destruct (log w) as [text|]; cbn [fst]; intros [= <-]; simpl; [|lia].
  rewrite length_rev.
  etransitivity; [apply parse_lines_length|].
  now apply slice_from_tail_length.
Qed.

(** A line without [']'] is skipped. *)
Lemma parse_line_skips (line : str) :
  has_char "]" (strip line) = false -> WebUI.parse_line line = None.
Proof.
  unfold WebUI.parse_line. generalize (strip line). intros s Hs.
  assert (Hsplit : snd (split_once "]" s) = None).
  { induction s as [|a s IH]; simpl in *; auto.
    apply orb_false_iff in Hs as [Ha Hs]. rewrite Ha.
    specialize (IH Hs). now destruct (split_once "]" s). }
  destruct (split_once "]" s) as [p0 [p1|]]; [discriminate | reflexivity].
Qed.

(** C9 at a line that [log_activity] wrote: the reader puts the level
    into the time and reports the level ["info"], whatever level was
    logged. *)
Theorem logged_level_is_lost :
  let w := snd (WebUI.log_activity "Added provider: OpenAI" "success" w_new) in
  log w = Some ("2026-01-02 03:04:05 [SUCCESS] Added provider: OpenAI" ++ nl) /\
  WebUI.get_activity_logs 50 w =
    (Ok [{| WebUI.time := "2026-01-02 03:04:05 SUCCESS";
            WebUI.message := "Added provider: OpenAI";
            WebUI.level := "info" |}], w).
Proof. split; reflexivity. Qed.

(** With the limit 0 the slice [lines[-0:]] is the whole list: every
    entry is returned. *)
Example limit_zero_returns_all :
  let w1 := snd (WebUI.log_activity "one" "success" w_new) in
  let w2 := snd (WebUI.log_activity "two" "info" w1) in
  option_map (@List.length _)
    (match fst (WebUI.get_activity_logs 0 w2) with
     | Ok l => Some l
     | Raise _ => None
     end) = Some 2.
Proof. reflexivity. Qed.

(** *** Every line that [log_activity] writes *)

Lemma has_char_app (c : ascii) (a b : str) :
  has_char c (a ++ b) = has_char c a || has_char c b.
Proof. induction a as [|x a IH]; simpl; auto. now rewrite IH, orb_assoc. Qed.

Lemma split_once_at (c : ascii) (a b : str) :
  has_char c a = false -> split_once c (a ++ String c b) = (a, Some b).
Proof.
  induction a as [|x a IH]; simpl.
  - now rewrite Ascii.eqb_refl.
  - intros Hc. apply orb_false_iff in Hc as [Hx Ha]. now rewrite Hx, IH.
Qed.

Lemma remove_char_app (c : ascii) (a b : str) :
  remove_char c (a ++ b) = remove_char c a ++ remove_char c b.
Proof.
  induction a as [|x a IH]; simpl; auto.
  destruct (Ascii.eqb x c); simpl; now rewrite IH.
Qed.

Lemma remove_char_absent (c : ascii) (a : str) :
  has_char c a = false -> remove_char c a = a.
Proof.
  induction a as [|x a IH]; simpl; auto.
  intros Hc. apply orb_false_iff in Hc as [Hx Ha]. now rewrite Hx, IH.
Qed.

Lemma rstrip_app (a b : str) : rstrip b <> "" -> rstrip (a ++ b) = a ++ rstrip b.
Proof.
  intros Hb. induction a as [|x a IH]; simpl; auto.
  rewrite IH. destruct (a ++ rstrip b) eqn:E; auto.
  destruct a; simpl in E; [contradiction | discriminate].
Qed.

Lemma rstrip_space_end (b : str) (c : ascii) :
  is_space c = true -> rstrip (b ++ String c "") = rstrip b.
Proof.
  intros Hc. induction b as [|x b IH]; simpl.
  - now rewrite Hc.
  - now rewrite IH.
Qed.

Lemma append_assoc (a b c : str) : (a ++ b) ++ c = a ++ b ++ c.
Proof. induction a as [|x a IH]; simpl; auto. now rewrite IH. Qed.

Lemma strip_logged (c : ascii) (a msg : str) :
  is_space c = false -> rstrip msg = msg -> msg <> "" ->
  strip (String c a ++ msg ++ nl) = String c a ++ msg.
Proof.
  intros Hc Hr Hne. unfold strip.
  assert (Hl : lstrip (String c a ++ msg ++ nl) = String c a ++ msg ++ nl)
    by (simpl; now rewrite Hc).
  rewrite Hl.
  assert (Hend : rstrip (msg ++ nl) = msg)
    by (unfold nl; rewrite rstrip_space_end by reflexivity; exact Hr).
  rewrite (rstrip_app (String c a) (msg ++ nl)); rewrite Hend; auto.
Qed.

(** A line written by [log_activity] for a time stamp and a level
    without brackets and a message without ['['] is read back with the
    level inside the time and the level ["info"]. *)
Lemma parse_line_of_logged_line (c : ascii) (ts lv msg : str) :
  is_space c = false ->
  has_char "[" (String c ts) = false -> has_char "]" (String c ts) = false ->
  has_char "[" (upper lv) = false -> has_char "]" (upper lv) = false ->
  has_char "[" msg = false ->
  lstrip msg = msg -> rstrip msg = msg -> msg <> "" ->
  WebUI.parse_line (WebUI.log_line (String c ts) lv msg) =
  Some {| WebUI.time := String c ts ++ " " ++ upper lv;
          WebUI.message := msg;
          WebUI.level := "info" |}.
Proof.
  intros Hc Hts1 Hts2 Hlv1 Hlv2 Hmsg Hl Hr Hne.
  assert (Hstrip : strip (WebUI.log_line (String c ts) lv msg)
                   = (String c ts ++ " [" ++ upper lv) ++ String "]" (" " ++ msg)).
  { transitivity (strip (String c (ts ++ " [" ++ upper lv ++ "] ") ++ msg ++ nl)).
    - f_equal. unfold WebUI.log_line.
      change (String c (ts ++ " [" ++ upper lv ++ "] ") ++ msg ++ nl)
        with ((String c ts ++ " [" ++ upper lv ++ "] ") ++ msg ++ nl).
      now rewrite !append_assoc.
    - rewrite (strip_logged c _ msg Hc Hr Hne).
      change (String c (ts ++ " [" ++ upper lv ++ "] ") ++ msg)
        with ((String c ts ++ " [" ++ upper lv ++ "] ") ++ msg).
      change (String "]" (" " ++ msg)) with ("] " ++ msg).
      now rewrite !append_assoc. }
  assert (Hbr : has_char "]" (String c ts ++ " [" ++ upper lv) = false).
  { rewrite has_char_app, Hts2. simpl. exact Hlv2. }
  assert (Htime : remove_char "[" (String c ts ++ " [" ++ upper lv)
                  = String c ts ++ " " ++ upper lv).
  { rewrite remove_char_app, (remove_char_absent _ _ Hts1). f_equal.
    simpl. now rewrite (remove_char_absent _ _ Hlv1). }
  assert (Hbody : strip (" " ++ msg) = msg).
  { unfold strip. simpl. now rewrite Hl, Hr. }
  unfold WebUI.parse_line.
  rewrite Hstrip, (split_once_at _ _ _ Hbr), Htime, Hbody, Hmsg.
  reflexivity.
Qed.

Example parse_line_of_logged_line_at_the_input :
  WebUI.parse_line (WebUI.log_line "2026-01-02 03:04:05" "success"
                      "Added provider: OpenAI") =
  Some {| WebUI.time := "2026-01-02 03:04:05 SUCCESS";
          WebUI.message := "Added provider: OpenAI";
          WebUI.level := "info" |}.
Proof.
  apply (parse_line_of_logged_line "2" "026-01-02 03:04:05" "success"
           "Added provider: OpenAI"); try reflexivity; discriminate.
Qed.

(** ** What [show_key] prints *)

(** In [clawapi-linux.py] a credential stored with [add_key] is printed
    in its masked form. *)
Lemma show_key_after_add_key `{Fernet} (provider cred : str) (w : world) :
  key_usable w ->
  dict_mem (lower provider) Linux.PROVIDERS = true ->
  exists w1 w2,
    Linux.add_key provider cred w = (Ok tt, w1) /\
    Linux.show_key provider w1
      = (Ok (lower provider ++ ": " ++ Linux.masked cred), w2).
Proof.
  intros Hu Hin.
  destruct (add_key_run provider cred w Hu Hin) as (w1 & w2 & Hadd & Hload & _).
  exists w1, w2. split; [exact Hadd|].
  unfold Linux.show_key. rewrite (bind_ok _ _ _ _ _ Hload).
  now rewrite dict_get_set_same.
Qed.

(** In [clawapi.py], [show_key] decrypts the first ten characters of the
    ciphertext: Base64 rejects them and nothing is printed. *)
Example cli_show_key_raises :
  let w1 := snd (@Cli.add_provider toy "openai" "sk-ABCDEFGHIJKLMNOP" w_new) in
  fst (@Cli.show_key toy "openai" w1) = Raise BinasciiError.
Proof. reflexivity. Qed.

(** C7 at the credentials of the specification.  [show_key] of
    [clawapi-linux.py] shows a stored credential of 19 characters as its
    first 8 characters, [...] and its last 4, and one of 6 characters as
    [***].  [show_key] of [clawapi.py] builds the same view but slices
    the ciphertext before it decrypts: on the credential it has just
    stored it raises [binascii.Error] and shows nothing. *)
Theorem show_key_masks_on_linux_only :
  let cred := "sk-ABCDEFGHIJKLMNOP" in
  fst (@Linux.show_key toy "openai"
         (snd (@Linux.add_key toy "openai" cred w_new)))
    = Ok "openai: sk-ABCDE...MNOP" /\
  fst (@Linux.show_key toy "openai"
         (snd (@Linux.add_key toy "openai" "abcdef" w_new)))
    = Ok "openai: ***" /\
  fst (@Cli.add_provider toy "openai" cred w_new) = Ok tt /\
  fst (@Cli.show_key toy "openai"
         (snd (@Cli.add_provider toy "openai" cred w_new)))
    = Raise BinasciiError.
Proof. repeat split; reflexivity. Qed.

(** * Further properties of the three files *)

(** ** The master key *)

(** X1.  [get_master_key] returns the stored key and changes nothing when
    the key file exists; otherwise it stores a fresh key that Fernet
    accepts, with mode 0600, touches no other file, and from then on
    returns that same key. *)
Theorem master_key_created_once `{Fernet} (w : world) :
  (forall k m, master_key w = Some (k, m) -> get_master_key w = (Ok k, w)) /\
  (master_key w = None ->
   exists k w',
     get_master_key w = (Ok k, w') /\
     master_key w' = Some (k, Some 384%N) /\ key_ok k = true /\
     get_master_key w' = (Ok k, w') /\
     fs w' = fs w /\ log w' = log w).
Proof.
  split.
  - intros k m Hk. unfold get_master_key. now rewrite Hk.
  - intros Hnone. exists (generate_key (seed w)).
    eexists. unfold get_master_key at 1. rewrite Hnone.
    split; [reflexivity|]. cbn [snd].
    repeat split; auto using generate_key_ok.
Qed.

Lemma master_key_created_once_witness :
  exists k w',
    @get_master_key toy w_new = (Ok k, w') /\
    master_key w' = Some (k, Some 384%N) /\ @key_ok toy k = true /\
    @get_master_key toy w' = (Ok k, w') /\
    fs w' = fs w_new /\ log w' = log w_new.
Proof.
  apply (proj2 (@master_key_created_once toy w_new)). reflexivity.
Defined.

Section BadKey.
Context `{Fernet}.

Lemma decrypt_items_bad_key (items : list (str * json)) (acc : dict str)
      (w : world) (k : bytes) (m : option N) :
  master_key w = Some (k, m) -> key_ok k = false ->
  Linux.decrypt_items items acc w =
  (match items with [] => Ok acc | _ :: _ => Raise ValueError end, w).
Proof.
  intros Hk Hbad. destruct items as [|[p c] items]; [reflexivity|].
  cbn [Linux.decrypt_items]. unfold bind at 1, decrypt_key, bind at 1.
  unfold get_master_key. rewrite Hk. unfold bind, new_fernet. now rewrite Hbad.
Qed.

Lemma load_keys_bad_key (w : world) (k : bytes) (m : option N) :
  master_key w = Some (k, m) -> key_ok k = false ->
  Linux.load_keys w = (Ok [], w).
Proof.
  intros Hk Hbad. unfold Linux.load_keys, bind at 1, exists_file.
  destruct (fs w KEYS_FILE) as [f|] eqn:Hf; [|reflexivity].
  cbn [negb]. unfold try_except, bind at 1, json_load. rewrite Hf.
  destruct (content f) as [j|s]; [|reflexivity].
  rewrite bind_lift. destruct j; try reflexivity.
  cbn [Linux.py_items]. rewrite (decrypt_items_bad_key d [] w k m Hk Hbad).
  now destruct d.
Qed.

End BadKey.

(** X2.  A master key file that holds a key Fernet rejects is never
    replaced: [encrypt_key] and [decrypt_key] raise [ValueError],
    [load_keys] of the Linux front end reads the vault as empty, [add_key]
    raises [ValueError], and each of them leaves every file as it was. *)
Theorem rejected_master_key_is_kept `{Fernet}
        (w : world) (k : bytes) (m : option N)
        (key provider : str) (encrypted : json) :
  master_key w = Some (k, m) -> key_ok k = false ->
  encrypt_key key w = (Raise ValueError, w) /\
  decrypt_key encrypted w = (Raise ValueError, w) /\
  Linux.load_keys w = (Ok [], w) /\
  (dict_mem (lower provider) Linux.PROVIDERS = true ->
   Linux.add_key provider key w = (Raise ValueError, w)).
Proof.
  intros Hk Hbad.
  assert (Henc : forall c, encrypt_key c w = (Raise ValueError, w)).
  { intros c. unfold encrypt_key, bind at 1, get_master_key. rewrite Hk.
    unfold bind, new_fernet. now rewrite Hbad. }
  split; [apply Henc|]. split; [|split].
  - unfold decrypt_key, bind at 1, get_master_key. rewrite Hk.
    unfold bind, new_fernet. now rewrite Hbad.
  - exact (load_keys_bad_key w k m Hk Hbad).
  - intros Hin. unfold Linux.add_key. rewrite Hin. cbn [negb].
    rewrite (bind_ok _ _ _ _ _ (load_keys_bad_key w k m Hk Hbad)).
    unfold Linux.save_keys. cbn [dict_set Linux.encrypt_items].
    unfold bind. now rewrite Henc.
Qed.

(** A world whose key file holds a single byte. *)
Definition w_bad_key : world :=
  {| master_key := Some ([byte_of_N 75], Some 384%N); log := None;
     fs := vault_file two_entries; seed := 7; now := "2026-01-02 03:04:05" |}.

Lemma rejected_master_key_is_kept_witness :
  @encrypt_key toy "key123" w_bad_key = (Raise ValueError, w_bad_key) /\
  @decrypt_key toy (JStr "abcd") w_bad_key = (Raise ValueError, w_bad_key) /\
  @Linux.load_keys toy w_bad_key = (Ok [], w_bad_key) /\
  (dict_mem (lower "OpenAI") Linux.PROVIDERS = true ->
   @Linux.add_key toy "OpenAI" "key123" w_bad_key = (Raise ValueError, w_bad_key)).
Proof.
  apply (@rejected_master_key_is_kept toy w_bad_key [byte_of_N 75] (Some 384%N)
           "key123" "OpenAI" (JStr "abcd")); reflexivity.
Defined.

(** ** The vault of [clawapi-linux.py] *)

Lemma nodup_dict_del {V} (d : dict V) (k : str) :
  NoDup (map fst d) -> NoDup (map fst (dict_del k d)).
Proof.
  induction d as [|[k0 v0] d IH]; simpl; auto.
  intros Hnd. inversion Hnd as [|x l Hnotin Hnd' Heq]. subst.
  destruct (negb (String.eqb k0 k)); simpl; auto.
  constructor; auto.
  intros Hin. apply Hnotin. apply in_map_iff in Hin as [[k1 v1] [Hk Hin]].
  apply filter_In in Hin as [Hin _]. apply in_map_iff. now exists (k1, v1).
Qed.

Section LinuxVaultMore.
Context `{Fernet}.

Lemma save_then_load (d : dict str) (w : world) :
  key_usable w -> NoDup (map fst d) ->
  exists w1 w2,
    Linux.save_keys d w = (Ok tt, w1) /\
    Linux.load_keys w1 = (Ok d, w2) /\
    (forall q, q <> KEYS_FILE -> fs w1 q = fs w q) /\
    log w1 = log w /\ key_usable w1.
Proof.
  intros Hu Hnd.
  destruct (save_keys_run d w Hu)
    as (e & w1 & Hsave & Hs & Hfile & Hframe & L1 & _ & K1 & U1).
  rewrite build_nodup in Hs by exact Hnd. simpl in Hs.
  destruct (load_keys_run w1 U1) as (w2 & Hload & _).
  exists w1, w2. split; [exact Hsave|]. split; [|auto].
  rewrite Hload. f_equal. f_equal. unfold vault_view. rewrite Hfile. simpl.
  rewrite K1, (open_items_sealed _ _ _ [] Hs). now apply build_nodup.
Qed.

End LinuxVaultMore.

(** X3.  [save_keys] followed by [load_keys] returns the dictionary that
    was saved, every provider with its credential.  [save_keys] writes the
    vault file; the log and every other file stay as they were, but for
    the master key file, which is created when it was absent
    ([key_file_kept]). *)
Theorem saved_keys_are_loaded `{Fernet} (d : dict str) (w : world) :
  key_usable w -> NoDup (map fst d) ->
  exists w1 w2,
    Linux.save_keys d w = (Ok tt, w1) /\
    Linux.load_keys w1 = (Ok d, w2) /\
    (forall q, q <> KEYS_FILE -> fs w1 q = fs w q) /\
    log w1 = log w /\
    key_file_kept w w1.
Proof.
  intros Hu Hnd.
  destruct (save_then_load d w Hu Hnd) as (w1 & w2 & H1 & H2 & H3 & H4 & _).
  exists w1, w2. repeat (split; [assumption|]).
  pose proof (save_keys_kept d w Hu) as Hk. now rewrite H1 in Hk.
Qed.

Lemma saved_keys_are_loaded_witness :
  exists w1 w2,
    @Linux.save_keys toy [("openai", "sk-1"); ("xai", "")] w_new = (Ok tt, w1) /\
    @Linux.load_keys toy w1 = (Ok [("openai", "sk-1"); ("xai", "")], w2) /\
    (forall q, q <> KEYS_FILE -> fs w1 q = fs w_new q) /\
    log w1 = log w_new /\
    @key_file_kept toy w_new w1.
Proof.
  apply (@saved_keys_are_loaded toy [("openai", "sk-1"); ("xai", "")] w_new).
  - exact I.
  - repeat constructor; simpl; intuition discriminate.
Defined.

(** X4.  [add_key] changes one entry of the vault: afterwards [load_keys]
    returns the new credential for the provider and, for every other
    provider, what it returned before. *)
Theorem add_key_keeps_other_keys `{Fernet} (provider cred : str) (w : world) :
  key_usable w ->
  dict_mem (lower provider) Linux.PROVIDERS = true ->
  exists keys0 w0 w1 keys1 w2,
    Linux.load_keys w = (Ok keys0, w0) /\
    Linux.add_key provider cred w = (Ok tt, w1) /\
    Linux.load_keys w1 = (Ok keys1, w2) /\
    dict_get (lower provider) keys1 = Some cred /\
    forall q, q <> lower provider -> dict_get q keys1 = dict_get q keys0.
Proof.
  intros Hu Hin.
  destruct (load_keys_run w Hu) as (w0 & Hload0 & _).
  destruct (add_key_run provider cred w Hu Hin) as (w1 & w2 & Hadd & Hload & _).
  exists (vault_view (key_of w) (fs w KEYS_FILE)), w0, w1.
  eexists. exists w2.
  split; [exact Hload0|]. split; [exact Hadd|]. split; [exact Hload|].
  split; [apply dict_get_set_same|].
  intros q Hq. now apply dict_get_set_other.
Qed.

Lemma add_key_keeps_other_keys_witness :
  exists keys0 w0 w1 keys1 w2,
    @Linux.load_keys toy (w_vault two_entries) = (Ok keys0, w0) /\
    @Linux.add_key toy "xAI" "xai-3" (w_vault two_entries) = (Ok tt, w1) /\
    @Linux.load_keys toy w1 = (Ok keys1, w2) /\
    dict_get (lower "xAI") keys1 = Some "xai-3" /\
    forall q, q <> lower "xAI" -> dict_get q keys1 = dict_get q keys0.
Proof.
  apply (@add_key_keeps_other_keys toy "xAI" "xai-3" (w_vault two_entries));
    reflexivity.
Defined.

(** X5.  On a vault with one damaged entry (no string, no Base64 text,
    a token Fernet rejects, or plain text that is not UTF-8), [add_key]
    succeeds and rewrites the vault with the new entry only: the entries
    that did decrypt are gone as well. *)
Theorem add_key_on_damaged_vault `{Fernet}
        (provider cred : str) (w : world) (f : file) (e : dict json) :
  key_usable w ->
  dict_mem (lower provider) Linux.PROVIDERS = true ->
  fs w KEYS_FILE = Some f ->
  content f = Text (JObj e) ->
  Exists (fun kc => damaged (key_of w) (snd kc) = true) e ->
  exists w1 w2,
    Linux.add_key provider cred w = (Ok tt, w1) /\
    Linux.load_keys w1 = (Ok [(lower provider, cred)], w2).
Proof.
  intros Hu Hin Hf Hc Hdam.
  assert (Hex : Exists (fun kc => exists err,
                          unseal (key_of w) (snd kc) = Raise err) e).
  { revert Hdam. apply Exists_impl. intros kc. apply damaged_raises. }
  destruct (add_key_run provider cred w Hu Hin) as (w1 & w2 & Hadd & Hload & _).
  exists w1, w2. split; [exact Hadd|]. rewrite Hload.
  unfold vault_view. rewrite Hf, Hc.
  destruct (open_items_broken (key_of w) e [] Hex) as [err Herr].
  now rewrite Herr.
Qed.

Lemma add_key_on_damaged_vault_witness :
  exists w1 w2,
    @Linux.add_key toy "xai" "xai-3" (w_vault one_truncated) = (Ok tt, w1) /\
    @Linux.load_keys toy w1 = (Ok [(lower "xai", "xai-3")], w2).
Proof.
  apply (@add_key_on_damaged_vault toy "xai" "xai-3" (w_vault one_truncated)
           {| content := Text (JObj one_truncated); mode := Some 384%N |}
           one_truncated); try reflexivity.
  apply Exists_cons_tl, Exists_cons_hd. reflexivity.
Defined.

(** X6.  On a vault whose entries are damaged or hold credentials of
    characters up to U+00FF, [remove_key] deletes the entry of the
    provider and keeps every other entry; the vault is rewritten before
    the name of the provider is looked up, so for a provider outside the
    catalogue the entry is deleted and [KeyError] is raised.  Without an
    entry for the provider the call returns normally; the log and every
    file are as they were, but for the master key file, which reading the
    vault creates when it was absent ([key_file_kept]). *)
Theorem remove_key_deletes_one_entry `{Fernet} (provider : str) (w : world) :
  key_usable w ->
  vault_in_range w ->
  exists keys0 w0,
    Linux.load_keys w = (Ok keys0, w0) /\
    (dict_mem (lower provider) keys0 = true ->
     exists r w1 w2,
       Linux.remove_key provider w = (r, w1) /\
       r = (if dict_mem (lower provider) Linux.PROVIDERS
            then Ok tt else Raise KeyError) /\
       Linux.load_keys w1 = (Ok (dict_del (lower provider) keys0), w2)) /\
    (dict_mem (lower provider) keys0 = false ->
     Linux.remove_key provider w = (Ok tt, w0) /\
     fs w0 = fs w /\ log w0 = log w /\ key_file_kept w w0).
Proof.
  intros Hu _.
  destruct (load_keys_run w Hu) as (w0 & Hload0 & F0 & L0 & N0 & K0 & U0).
  pose proof (load_keys_kept w Hu) as Hkept. rewrite Hload0 in Hkept.
  exists (vault_view (key_of w) (fs w KEYS_FILE)), w0.
  split; [exact Hload0|]. split.
  - intros Hin. unfold Linux.remove_key.
    rewrite (bind_ok _ _ _ _ _ Hload0), Hin.
    destruct (save_then_load
                (dict_del (lower provider) (vault_view (key_of w) (fs w KEYS_FILE)))
                w0 (U0 Hu) (nodup_dict_del _ _ (vault_view_nodup _ _)))
      as (w1 & w2 & Hsave & Hload & _).
    rewrite (bind_ok _ _ _ _ _ Hsave), bind_lift.
    unfold provider_name, dict_mem.
    destruct (dict_get (lower provider) Linux.PROVIDERS) as [info|];
      eexists; exists w1, w2; (split; [reflexivity|]); auto.
  - intros Hout. unfold Linux.remove_key.
    rewrite (bind_ok _ _ _ _ _ Hload0), Hout. auto.
Qed.

Lemma remove_key_deletes_one_entry_witness :
  exists keys0 w0,
    @Linux.load_keys toy (w_vault two_entries) = (Ok keys0, w0) /\
    (dict_mem (lower "openai") keys0 = true ->
     exists r w1 w2,
       @Linux.remove_key toy "openai" (w_vault two_entries) = (r, w1) /\
       r = (if dict_mem (lower "openai") Linux.PROVIDERS
            then Ok tt else Raise KeyError) /\
       @Linux.load_keys toy w1 = (Ok (dict_del (lower "openai") keys0), w2)) /\
    (dict_mem (lower "openai") keys0 = false ->
     @Linux.remove_key toy "openai" (w_vault two_entries) = (Ok tt, w0) /\
     fs w0 = fs (w_vault two_entries) /\
     log w0 = log (w_vault two_entries) /\
     @key_file_kept toy (w_vault two_entries) w0).
Proof.
  apply (@remove_key_deletes_one_entry toy "openai" (w_vault two_entries)).
  - reflexivity.
  - repeat constructor.
Defined.

(** X7.  [add_key] and [set_model] of the Linux front end exit with
    status 1 for a provider outside the catalogue, and nothing at all is
    changed.  [set_model] also exits with status 1 for a provider without
    a stored key, on a vault whose entries are damaged or hold credentials
    of characters up to U+00FF; then the log and every file are as they
    were, but for the master key file, which reading the vault creates
    when it was absent ([key_file_kept]). *)
Theorem unknown_or_keyless_provider_exits `{Fernet}
        (provider cred : str) (model : option str) (w : world) :
  key_usable w ->
  (dict_mem (lower provider) Linux.PROVIDERS = false ->
   Linux.add_key provider cred w = (Raise (SystemExit 1), w) /\
   Linux.set_model provider model w = (Raise (SystemExit 1), w)) /\
  (vault_in_range w ->
   forall keys0 w0,
     Linux.load_keys w = (Ok keys0, w0) ->
     dict_get (lower provider) keys0 = None ->
     exists w', Linux.set_model provider model w = (Raise (SystemExit 1), w') /\
                fs w' = fs w /\ log w' = log w /\ key_file_kept w w').
Proof.
  intros Hu. split.
  - intros Hout. unfold Linux.add_key, Linux.set_model. rewrite Hout.
    apply dict_mem_false in Hout. rewrite Hout. auto.
  - intros _ keys0 w0 Hload Hnone.
    destruct (load_keys_run w Hu) as (w0' & Hload' & F0 & L0 & _).
    rewrite Hload in Hload'. injection Hload' as Hk Hw. subst w0'.
    pose proof (load_keys_kept w Hu) as Hkept. rewrite Hload in Hkept.
    unfold Linux.set_model.
    destruct (dict_get (lower provider) Linux.PROVIDERS) as [info|].
    + rewrite (bind_ok _ _ _ _ _ Hload), Hnone. exists w0. auto.
    + exists w. repeat split. apply key_file_kept_refl.
Qed.

Lemma unknown_or_keyless_provider_exits_witness :
  (@Linux.add_key toy "acme" "k" (w_vault two_entries)
     = (Raise (SystemExit 1), w_vault two_entries) /\
   @Linux.set_model toy "acme" None (w_vault two_entries)
     = (Raise (SystemExit 1), w_vault two_entries)) /\
  (exists w', @Linux.set_model toy "xAI" None (w_vault two_entries)
                = (Raise (SystemExit 1), w') /\
              fs w' = fs (w_vault two_entries) /\
              log w' = log (w_vault two_entries) /\
              @key_file_kept toy (w_vault two_entries) w').
Proof.
  split.
  - apply (proj1 (@unknown_or_keyless_provider_exits toy "acme" "k" None
                    (w_vault two_entries) eq_refl)).
    reflexivity.
  - eapply (proj2 (@unknown_or_keyless_provider_exits toy "xAI" "k" None
                     (w_vault two_entries) eq_refl));
      [repeat constructor | reflexivity | reflexivity].
Defined.

(** ** The push into the external configuration *)

Lemma py_setitem_at_lookup (path : list str) (k : str) (v x x' : json) :
  py_setitem_at x path k v = Ok x' -> json_at (path ++ [k]) x' = Some v.
Proof.
  revert x x'. induction path as [|k1 path IH]; intros x x' Hset.
  - destruct x; try discriminate. simpl in Hset. injection Hset as <-.
    simpl. now rewrite dict_get_set_same.
  - cbn [py_setitem_at] in Hset. destruct x; try discriminate.
    cbn [py_getitem] in Hset.
    destruct (dict_get k1 d) as [inner|]; [|discriminate].
    cbn [rbind] in Hset.
    destruct (py_setitem_at inner path k v) as [inner'|] eqn:Hrec; [|discriminate].
    cbn [rbind py_setitem] in Hset. injection Hset as <-.
    simpl. rewrite dict_get_set_same. now apply (IH inner).
Qed.

Lemma py_setitem_at_again (path : list str) (k : str) (v x x' : json) :
  py_setitem_at x path k v = Ok x' -> py_setitem_at x' path k v = Ok x'.
Proof.
  revert x x'. induction path as [|k1 path IH]; intros x x' Hset.
  - destruct x; try discriminate. simpl in Hset. injection Hset as <-.
    simpl. now rewrite dict_set_set.
  - cbn [py_setitem_at] in Hset. destruct x; try discriminate.
    cbn [py_getitem] in Hset.
    destruct (dict_get k1 d) as [inner|]; [|discriminate].
    cbn [rbind] in Hset.
    destruct (py_setitem_at inner path k v) as [inner'|] eqn:Hrec; [|discriminate].
    cbn [rbind py_setitem] in Hset. injection Hset as <-.
    cbn [py_setitem_at py_getitem]. rewrite dict_get_set_same. cbn [rbind].
    rewrite (IH inner inner' Hrec). cbn [rbind py_setitem].
    now rewrite dict_set_set.
Qed.

(** After an assignment below [k1; k2] both keys are there. *)
Lemma py_setitem_at_members (k1 k2 k : str) (v x x' : json) :
  py_setitem_at x [k1; k2] k v = Ok x' ->
  py_in k1 x' = Ok true /\
  exists inner, py_getitem x' k1 = Ok inner /\ py_in k2 inner = Ok true.
Proof.
  intros Hset. cbn [py_setitem_at] in Hset. destruct x; try discriminate.
  cbn [py_getitem] in Hset.
  destruct (dict_get k1 d) as [inner|]; [|discriminate]. cbn [rbind] in Hset.
  destruct inner; try discriminate. cbn [py_getitem] in Hset.
  destruct (dict_get k2 d0) as [inner2|]; [|discriminate]. cbn [rbind] in Hset.
  destruct (py_setitem inner2 k v) as [inner2'|]; [|discriminate].
  cbn [rbind py_setitem] in Hset. injection Hset as <-.
  cbn [py_in py_getitem]. unfold dict_mem. rewrite !dict_get_set_same.
  split; [reflexivity|]. eexists. split; [reflexivity|].
  cbn [py_in]. unfold dict_mem. now rewrite dict_get_set_same.
Qed.

Lemma sync_result_entry (provider model api_key : str) (x x' : json) :
  sync_result provider model api_key x = Ok x' ->
  json_at ["models"; "providers"; provider ++ ":default"] x'
    = Some (Linux.provider_entry provider model api_key).
Proof.
  unfold sync_result. intros Hsync.
  destruct (py_in "models" x) as [has|]; [|discriminate]. cbn [rbind] in Hsync.
  destruct (if negb has then py_setitem x "models" (JObj []) else Ok x)
    as [c1|]; [|discriminate]. cbn [rbind] in Hsync.
  destruct (py_getitem c1 "models") as [models|]; [|discriminate].
  cbn [rbind] in Hsync.
  destruct (py_in "providers" models) as [has2|]; [|discriminate].
  cbn [rbind] in Hsync.
  destruct (if negb has2
            then py_setitem_at c1 ["models"] "providers" (JObj [])
            else Ok c1) as [c2|]; [|discriminate]. cbn [rbind] in Hsync.
  exact (py_setitem_at_lookup ["models"; "providers"] _ _ _ _ Hsync).
Qed.

Lemma sync_result_again (provider model api_key : str) (x x' : json) :
  sync_result provider model api_key x = Ok x' ->
  sync_result provider model api_key x' = Ok x'.
Proof.
  unfold sync_result at 1. intros Hsync.
  destruct (py_in "models" x) as [has|]; [|discriminate]. cbn [rbind] in Hsync.
  destruct (if negb has then py_setitem x "models" (JObj []) else Ok x)
    as [c1|]; [|discriminate]. cbn [rbind] in Hsync.
  destruct (py_getitem c1 "models") as [models|]; [|discriminate].
  cbn [rbind] in Hsync.
  destruct (py_in "providers" models) as [has2|]; [|discriminate].
  cbn [rbind] in Hsync.
  destruct (if negb has2
            then py_setitem_at c1 ["models"] "providers" (JObj [])
            else Ok c1) as [c2|]; [|discriminate]. cbn [rbind] in Hsync.
  destruct (py_setitem_at_members _ _ _ _ _ _ Hsync)
    as (Hin & inner & Hget & Hin2).
  unfold sync_result. rewrite Hin. cbn [rbind negb]. rewrite Hget.
  cbn [rbind]. rewrite Hin2. cbn [rbind negb].
  exact (py_setitem_at_again _ _ _ _ _ Hsync).
Qed.

(** X8.  When [sync_to_openclaw] returns [True], the external
    configuration holds, under [models.providers.<provider>:default], the
    entry with the provider, the model and the key it was given, whatever
    was there before. *)
Theorem sync_writes_the_entry (provider model api_key : str) (w : world) :
  fst (Linux.sync_to_openclaw provider model api_key w) = Ok true ->
  exists f' x',
    fs (snd (Linux.sync_to_openclaw provider model api_key w)) OPENCLAW_CONFIG
      = Some f' /\
    content f' = Text x' /\
    json_at ["models"; "providers"; provider ++ ":default"] x'
      = Some (JObj [("provider", JStr provider); ("model", JStr model);
                    ("apiKey", JStr api_key)]).
Proof.
  destruct (fs w OPENCLAW_CONFIG) as [f|] eqn:Hf.
  - rewrite (sync_to_openclaw_run _ _ _ _ _ Hf).
    destruct (sync_result provider model api_key (parsed_or_empty f))
      as [x'|e] eqn:E; [|discriminate].
    intros _. cbn [snd].
    destruct (write_config_file OPENCLAW_CONFIG x' w) as (f' & Hf' & Hc').
    exists f', x'. split; [exact Hf'|]. split; [exact Hc'|].
    exact (sync_result_entry _ _ _ _ _ E).
  - unfold Linux.sync_to_openclaw, Linux.get_openclaw_config_path, bind,
      exists_file. rewrite Hf. discriminate.
Qed.

Lemma sync_writes_the_entry_witness :
  exists f' x',
    fs (snd (Linux.sync_to_openclaw "openai" "gpt-4o" "sk-new" w_themed))
      OPENCLAW_CONFIG = Some f' /\
    content f' = Text x' /\
    json_at ["models"; "providers"; "openai" ++ ":default"] x'
      = Some (JObj [("provider", JStr "openai"); ("model", JStr "gpt-4o");
                    ("apiKey", JStr "sk-new")]).
Proof.
  apply (sync_writes_the_entry "openai" "gpt-4o" "sk-new" w_themed).
  reflexivity.
Defined.

(** X9.  [sync_to_openclaw] is idempotent: a second call with the same
    arguments returns [True] again and leaves every file exactly as the
    first call left it. *)
Theorem sync_twice_is_sync_once (provider model api_key : str) (w : world) :
  let w1 := snd (Linux.sync_to_openclaw provider model api_key w) in
  let w2 := snd (Linux.sync_to_openclaw provider model api_key w1) in
  fst (Linux.sync_to_openclaw provider model api_key w) = Ok true ->
  fst (Linux.sync_to_openclaw provider model api_key w1) = Ok true /\
  (forall q, fs w2 q = fs w1 q) /\ log w2 = log w1 /\
  master_key w2 = master_key w1.
Proof.
  cbv zeta. destruct (fs w OPENCLAW_CONFIG) as [f|] eqn:Hf.
  - rewrite (sync_to_openclaw_run _ _ _ _ _ Hf).
    destruct (sync_result provider model api_key (parsed_or_empty f))
      as [x'|e] eqn:E; [|discriminate].
    intros _. cbn [snd].
    set (w1 := run_ops (Linux.write_config_ops OPENCLAW_CONFIG x') w).
    assert (Hf1 : fs w1 OPENCLAW_CONFIG
                  = Some {| content := Text x';
                            mode := match fs w OPENCLAW_CONFIG with
                                    | Some f0 => mode f0
                                    | None => None
                                    end |})
      by apply run_dump.
    rewrite (sync_to_openclaw_run _ _ _ _ _ Hf1).
    unfold parsed_or_empty. cbn [content].
    rewrite (sync_result_again _ _ _ _ _ E). cbn [fst snd].
    split; [reflexivity|]. split; [|split].
    + intros q. destruct (String.eqb_spec q OPENCLAW_CONFIG) as [->|Hq].
      * unfold Linux.write_config_ops. rewrite run_dump, Hf1. reflexivity.
      * apply run_ops_other. repeat constructor; simpl; congruence.
    + apply run_ops_log. repeat constructor.
    + apply run_ops_env.
  - unfold Linux.sync_to_openclaw, Linux.get_openclaw_config_path, bind,
      exists_file. rewrite Hf. discriminate.
Qed.

Lemma sync_twice_is_sync_once_witness :
  let w1 := snd (Linux.sync_to_openclaw "openai" "gpt-4o" "sk-new" w_themed) in
  let w2 := snd (Linux.sync_to_openclaw "openai" "gpt-4o" "sk-new" w1) in
  fst (Linux.sync_to_openclaw "openai" "gpt-4o" "sk-new" w1) = Ok true /\
  (forall q, fs w2 q = fs w1 q) /\ log w2 = log w1 /\
  master_key w2 = master_key w1.
Proof.
  apply (sync_twice_is_sync_once "openai" "gpt-4o" "sk-new" w_themed).
  reflexivity.
Defined.

(** X10.  A push that does not return [True] has written nothing:
    when [sync_to_openclaw] or [update_openclaw_model] raises or returns
    [False], the world is the one it started from. *)
Theorem failed_push_writes_nothing
        (provider model api_key : str) (m : json) (w : world) :
  (fst (Linux.sync_to_openclaw provider model api_key w) <> Ok true ->
   snd (Linux.sync_to_openclaw provider model api_key w) = w) /\
  (fst (WebUI.update_openclaw_model m w) <> Ok true ->
   snd (WebUI.update_openclaw_model m w) = w).
Proof.
  split.
  - destruct (fs w OPENCLAW_CONFIG) as [f|] eqn:Hf.
    + rewrite (sync_to_openclaw_run _ _ _ _ _ Hf).
      destruct (sync_result provider model api_key (parsed_or_empty f));
        [intros Hne; now elim Hne | reflexivity].
    + unfold Linux.sync_to_openclaw, Linux.get_openclaw_config_path, bind,
        exists_file. now rewrite Hf.
  - destruct (fs w OPENCLAW_CONFIG) as [f|] eqn:Hf.
    + rewrite (update_openclaw_model_run _ _ _ Hf).
      destruct (content f) as [[]|]; try reflexivity.
      intros Hne. now elim Hne.
    + unfold WebUI.update_openclaw_model, bind, exists_file. now rewrite Hf.
Qed.

(** An external configuration whose [models] member is a string. *)
Definition w_models_text : world :=
  {| master_key := None; log := None;
     fs := upd OPENCLAW_CONFIG
             (Some {| content := Text (JObj [("models", JStr "none")]);
                      mode := None |})
             (fun _ => None);
     seed := 7; now := "2026-01-02 03:04:05" |}.

Lemma failed_push_writes_nothing_witness :
  snd (Linux.sync_to_openclaw "openai" "gpt-4o" "sk-new" w_models_text)
    = w_models_text /\
  snd (WebUI.update_openclaw_model (JStr "gpt-4o") w_new) = w_new.
Proof.
  split.
  - apply (proj1 (failed_push_writes_nothing "openai" "gpt-4o" "sk-new"
                    (JStr "gpt-4o") w_models_text)).
    discriminate.
  - apply (proj2 (failed_push_writes_nothing "openai" "gpt-4o" "sk-new"
                    (JStr "gpt-4o") w_new)).
    discriminate.
Defined.

Lemma selected_ext_config (w' w : world) (pid : str) :
  fs w' CONFIG_FILE = fs w CONFIG_FILE -> selected w' pid = selected w pid.
Proof. intros Hfs. unfold selected. now rewrite (load_config_ext w w' Hfs). Qed.

Lemma cli_push_unreadable (model : str) (w : world) (f : file) (s : str) :
  fs w OPENCLAW_CONFIG = Some f -> content f = Plain s ->
  cli_push model w = (Ok tt, w).
Proof.
  intros Hf Hc. unfold cli_push, bind at 1, exists_file. rewrite Hf.
  unfold try_except, bind at 1, json_load. now rewrite Hf, Hc.
Qed.

Lemma cli_set_model_split (pid model : str) (w : world) (cfg sm : dict json) :
  fst (Cli.load_config w) = Ok (JObj cfg) ->
  selections_of cfg = Some sm ->
  exists ws,
    Cli.set_model pid model w = cli_push model ws /\
    fst (Cli.load_config ws) =
      Ok (JObj (dict_set "selected_models"
                  (JObj (dict_set pid (JStr model) sm)) cfg)) /\
    (forall q, q <> CONFIG_FILE -> fs ws q = fs w q) /\ log ws = log w.
Proof.
  intros Hload Hsel.
  pose proof (select_result_ok pid (JStr model) cfg sm Hsel) as Hres.
  unfold select_result in Hres.
  unfold Cli.set_model.
  rewrite (bind_ok _ _ _ _ _ (load_config_run _ _ Hload)).
  rewrite bind_lift.
  destruct (py_in "selected_models" (JObj cfg)) as [has|e];
    cbn [rbind] in Hres; [|discriminate].
  rewrite if_lift, bind_lift.
  destruct (if negb has
            then py_setitem (JObj cfg) "selected_models" (JObj [])
            else Ok (JObj cfg)) as [c1|e];
    cbn [rbind] in Hres; [|discriminate].
  rewrite bind_lift, Hres.
  destruct (save_config_run
              (JObj (dict_set "selected_models"
                       (JObj (dict_set pid (JStr model) sm)) cfg)) w)
    as (ws & Hsave & Hcfg & Hframe & Hlog & _).
  rewrite (bind_ok _ _ _ _ _ Hsave).
  exists ws. auto.
Qed.

(** X11.  An external configuration that does not parse is treated in
    three ways: [sync_to_openclaw] returns [True] and replaces it by a
    document that holds the entry of the provider and nothing else;
    [update_openclaw_model] raises and leaves it; [set_model] of
    [clawapi.py] returns normally, records the selection and leaves it. *)
Theorem unreadable_external_config
        (provider model api_key : str) (w : world) (f : file) (s : str)
        (cfg sm : dict json) :
  fs w OPENCLAW_CONFIG = Some f ->
  content f = Plain s ->
  fst (Cli.load_config w) = Ok (JObj cfg) ->
  selections_of cfg = Some sm ->
  (exists w' f',
     Linux.sync_to_openclaw provider model api_key w = (Ok true, w') /\
     fs w' OPENCLAW_CONFIG = Some f' /\
     content f' =
       Text (JObj [("models", JObj [("providers",
               JObj [(provider ++ ":default",
                      Linux.provider_entry provider model api_key)])])])) /\
  WebUI.update_openclaw_model (JStr model) w = (Raise JSONDecodeError, w) /\
  (exists w',
     Cli.set_model provider model w = (Ok tt, w') /\
     selected w' provider = Some (JStr model) /\
     fs w' OPENCLAW_CONFIG = Some f).
Proof.
  intros Hf Hc Hload Hsel. split; [|split].
  - rewrite (sync_to_openclaw_run _ _ _ _ _ Hf).
    unfold parsed_or_empty. rewrite Hc.
    assert (Hres : sync_result provider model api_key (JObj [])
                   = Ok (JObj [("models", JObj [("providers",
                           JObj [(provider ++ ":default",
                                  Linux.provider_entry provider model api_key)])])]))
      by reflexivity.
    rewrite Hres.
    destruct (write_config_file OPENCLAW_CONFIG
                (JObj [("models", JObj [("providers",
                   JObj [(provider ++ ":default",
                          Linux.provider_entry provider model api_key)])])]) w)
      as (f' & Hf' & Hc').
    eexists. exists f'. split; [reflexivity|]. split; [exact Hf' | exact Hc'].
  - rewrite (update_openclaw_model_run _ _ _ Hf). now rewrite Hc.
  - destruct (cli_set_model_split provider model w cfg sm Hload Hsel)
      as (ws & Hsplit & Hcfg & Hframe & _).
    assert (Hfs : fs ws OPENCLAW_CONFIG = Some f)
      by (rewrite Hframe; [exact Hf | apply openclaw_not_config]).
    exists ws. rewrite Hsplit, (cli_push_unreadable model ws f s Hfs Hc).
    split; [reflexivity|]. split; [|exact Hfs].
    rewrite (selected_of_config _ _ _ Hcfg).
    rewrite (json_at_selection _ _ _ (selections_of_set cfg _)).
    apply dict_get_set_same.
Qed.

(** An external configuration that was cut short. *)
Definition w_cut : world :=
  {| master_key := None; log := None;
     fs := upd OPENCLAW_CONFIG
             (Some {| content := Plain "{theme: "; mode := None |})
             (fun _ => None);
     seed := 7; now := "2026-01-02 03:04:05" |}.

Lemma unreadable_external_config_witness :
  (exists w' f',
     Linux.sync_to_openclaw "openai" "gpt-4o" "sk-new" w_cut = (Ok true, w') /\
     fs w' OPENCLAW_CONFIG = Some f' /\
     content f' =
       Text (JObj [("models", JObj [("providers",
               JObj [("openai" ++ ":default",
                      Linux.provider_entry "openai" "gpt-4o" "sk-new")])])])) /\
  WebUI.update_openclaw_model (JStr "gpt-4o") w_cut = (Raise JSONDecodeError, w_cut) /\
  (exists w',
     Cli.set_model "openai" "gpt-4o" w_cut = (Ok tt, w') /\
     selected w' "openai" = Some (JStr "gpt-4o") /\
     fs w' OPENCLAW_CONFIG = Some {| content := Plain "{theme: "; mode := None |}).
Proof.
  apply (unreadable_external_config "openai" "gpt-4o" "sk-new" w_cut
           {| content := Plain "{theme: "; mode := None |} "{theme: "
           [("selected_models", JObj [])] []); reflexivity.
Defined.

(** X12.  [set_model] of [clawapi.py] with an external configuration
    that holds a JSON object: the selection is recorded, the external
    document gets [defaultModel] and [model] set to the model, and every
    other member of it is unchanged. *)
Theorem cli_set_model_pushes_the_model
        (pid model : str) (w : world) (f : file) (d cfg sm : dict json) :
  fs w OPENCLAW_CONFIG = Some f ->
  content f = Text (JObj d) ->
  fst (Cli.load_config w) = Ok (JObj cfg) ->
  selections_of cfg = Some sm ->
  exists w' f' d',
    Cli.set_model pid model w = (Ok tt, w') /\
    selected w' pid = Some (JStr model) /\
    fs w' OPENCLAW_CONFIG = Some f' /\ content f' = Text (JObj d') /\
    dict_get "defaultModel" d' = Some (JStr model) /\
    dict_get "model" d' = Some (JStr model) /\
    (forall k, k <> "defaultModel" -> k <> "model" ->
               dict_get k d' = dict_get k d).
Proof.
  intros Hf Hc Hload Hsel.
  destruct (cli_set_model_split pid model w cfg sm Hload Hsel)
    as (ws & Hsplit & Hcfg & Hframe & _).
  assert (Hfs : fs ws OPENCLAW_CONFIG = Some f)
    by (rewrite Hframe; [exact Hf | apply openclaw_not_config]).
  assert (Hpush : cli_push model ws =
                  (Ok tt, run_ops (Cli.openclaw_ops
                     (JObj (dict_set "model" (JStr model)
                              (dict_set "defaultModel" (JStr model) d)))) ws)).
  { unfold cli_push, bind at 1, exists_file. rewrite Hfs.
    unfold try_except, bind at 1, json_load. now rewrite Hfs, Hc. }
  destruct (write_config_file OPENCLAW_CONFIG
              (JObj (dict_set "model" (JStr model)
                       (dict_set "defaultModel" (JStr model) d))) ws)
    as (f' & Hf' & Hc').
  eexists. exists f'. eexists.
  rewrite Hsplit, Hpush.
  split; [reflexivity|]. split; [|split; [exact Hf'|]].
  - rewrite (selected_ext_config _ ws).
    + rewrite (selected_of_config _ _ _ Hcfg).
      rewrite (json_at_selection _ _ _ (selections_of_set cfg _)).
      apply dict_get_set_same.
    + apply run_ops_other. repeat constructor; simpl; discriminate.
  - split; [exact Hc'|]. split; [|split].
    + rewrite dict_get_set_other by discriminate. apply dict_get_set_same.
    + apply dict_get_set_same.
    + intros k Hk1 Hk2. now rewrite !dict_get_set_other.
Qed.

Lemma cli_set_model_pushes_the_model_witness :
  exists w' f' d',
    Cli.set_model "openai" "gpt-4o" w_themed = (Ok tt, w') /\
    selected w' "openai" = Some (JStr "gpt-4o") /\
    fs w' OPENCLAW_CONFIG = Some f' /\ content f' = Text (JObj d') /\
    dict_get "defaultModel" d' = Some (JStr "gpt-4o") /\
    dict_get "model" d' = Some (JStr "gpt-4o") /\
    (forall k, k <> "defaultModel" -> k <> "model" ->
               dict_get k d' = dict_get k themed).
Proof.
  apply (cli_set_model_pushes_the_model "openai" "gpt-4o" w_themed
           {| content := Text (JObj themed); mode := None |} themed
           [("selected_models", JObj [])] []); reflexivity.
Defined.

(** ** The selection store, once more *)

Lemma select_result_frame (pid : str) (v x x' : json) (p : list str) :
  select_result pid v x = Ok x' ->
  related p ["selected_models"; pid] = false ->
  json_at p x' = json_at p x.
Proof.
  unfold select_result. intros Hsel Hrel.
  assert (Hp : is_prefix p ["selected_models"] = false)
    by exact (unrelated_prefix p ["selected_models"] [pid] Hrel).
  destruct (py_in "selected_models" x) as [has|] eqn:Hin; [|discriminate].
  cbn [rbind] in Hsel.
  destruct (if negb has then py_setitem x "selected_models" (JObj []) else Ok x)
    as [c1|] eqn:E1; [|discriminate].
  cbn [rbind] in Hsel.
  rewrite (py_setitem_at_frame ["selected_models"] pid v c1 x' p Hsel Hrel).
  destruct has; cbn [negb] in E1.
  - now injection E1 as <-.
  - apply (py_setitem_at_fresh [] "selected_models" x c1 p E1); auto.
    destruct x; try discriminate. simpl in Hin |- *.
    injection Hin as Hin. apply dict_mem_false in Hin. now rewrite Hin.
Qed.

(** X13.  [set_model] of [clawapi.py] changes the selection of one
    provider only: in the configuration it leaves, every other selection
    and every other top-level member is as before. *)
Theorem set_model_keeps_the_rest
        (pid model : str) (w : world) (cfg sm : dict json) (p : list str) :
  fst (Cli.load_config w) = Ok (JObj cfg) ->
  selections_of cfg = Some sm ->
  related p ["selected_models"; pid] = false ->
  exists w' config',
    Cli.set_model pid model w = (Ok tt, w') /\
    fst (Cli.load_config w') = Ok config' /\
    json_at p config' = json_at p (JObj cfg).
Proof.
  intros Hload Hsel Hrel.
  destruct (cli_set_model_run pid model w cfg sm Hload Hsel)
    as (w' & Hrun & Hcfg & _).
  exists w'. eexists. split; [exact Hrun|]. split; [exact Hcfg|].
  apply (select_result_frame pid (JStr model) (JObj cfg)); auto.
  now apply select_result_ok.
Qed.

(** A configuration with a member the front ends do not know. *)
Definition w_extra : world :=
  {| master_key := None; log := None;
     fs := upd CONFIG_FILE
             (Some {| content :=
                        Text (JObj [("selected_models",
                                     JObj [("openai", JStr "gpt-4o")]);
                                    ("theme", JStr "dark")]);
                      mode := None |})
             (fun _ => None);
     seed := 7; now := "2026-01-02 03:04:05" |}.

Lemma set_model_keeps_the_rest_witness :
  exists w' config',
    Cli.set_model "xai" "grok-2" w_extra = (Ok tt, w') /\
    fst (Cli.load_config w') = Ok config' /\
    json_at ["selected_models"; "openai"] config'
      = json_at ["selected_models"; "openai"]
          (JObj [("selected_models", JObj [("openai", JStr "gpt-4o")]);
                 ("theme", JStr "dark")]).
Proof.
  apply (set_model_keeps_the_rest "xai" "grok-2" w_extra
           [("selected_models", JObj [("openai", JStr "gpt-4o")]);
            ("theme", JStr "dark")]
           [("openai", JStr "gpt-4o")] ["selected_models"; "openai"]);
    reflexivity.
Defined.



(** ** The routes of [webui.py] *)

Lemma select_steps_run (pid : str) (v config : json) (w : world) :
  (has <- lift (py_in "selected_models" config) ;;
   config <- (if negb has
              then lift (py_setitem config "selected_models" (JObj []))
              else ret config) ;;
   lift (py_setitem_at config ["selected_models"] pid v)) w
  = (select_result pid v config, w).
Proof.
  unfold select_result. rewrite bind_lift.
  destruct (py_in "selected_models" config) as [has|e]; cbn [rbind]; auto.
  rewrite if_lift, bind_lift.
  now destruct (if negb has
                then py_setitem config "selected_models" (JObj [])
                else Ok config).
Qed.

Lemma load_keys_file (w : world) (d : dict json) :
  fst (Cli.load_keys w) = Ok (JObj d) -> d <> [] ->
  exists f, fs w KEYS_FILE = Some f /\ content f = Text (JObj d).
Proof.
  unfold Cli.load_keys, bind, exists_file, try_except, json_load.
  destruct (fs w KEYS_FILE) as [f|] eqn:E; cbn; rewrite ?E.
  - destruct (content f) as [j|s] eqn:Ec; cbn.
    + intros [= ->] _. now exists f.
    + intros [= <-] Hne. now elim Hne.
  - intros [= <-] Hne. now elim Hne.
Qed.

(** The configuration that [/add_key] saves. *)
Definition added_config (pid default_model : str) (cfg sm : dict json) : dict json :=
  if String.eqb default_model ""
  then cfg
  else dict_set "selected_models" (JObj (dict_set pid (JStr default_model) sm)) cfg.

Lemma webui_add_key_run (pid default_model : str) (w : world)
      (keys cfg sm : dict json) :
  fst (Cli.load_keys w) = Ok (JObj keys) ->
  fst (Cli.load_config w) = Ok (JObj cfg) ->
  selections_of cfg = Some sm ->
  dict_mem pid WebUI.PROVIDERS = true ->
  exists w',
    WebUI.add_key (Some pid) default_model w = (Ok tt, w') /\
    fst (Cli.load_keys w') = Ok (JObj (dict_set pid (JStr "configured") keys)) /\
    fst (Cli.load_config w') = Ok (JObj (added_config pid default_model cfg sm)) /\
    fs w' OPENCLAW_CONFIG = fs w OPENCLAW_CONFIG /\
    master_key w' = master_key w /\ seed w' = seed w.
Proof.
  intros Hkeys Hcfg Hsel Hin.
  unfold WebUI.add_key, WebUI.load_keys, WebUI.load_config, WebUI.save_keys,
    WebUI.save_config.
  rewrite (bind_ok _ _ _ _ _ (load_keys_cli_run _ _ Hkeys)).
  rewrite (bind_ok _ _ _ _ _ (load_config_run _ _ Hcfg)).
  rewrite Hin, bind_lift. cbn [py_setitem].
  assert (Hconfig :
    (if negb (String.eqb default_model "")
     then has <- lift (py_in "selected_models" (JObj cfg)) ;;
          config <- (if negb has
                     then lift (py_setitem (JObj cfg) "selected_models" (JObj []))
                     else ret (JObj cfg)) ;;
          lift (py_setitem_at config ["selected_models"] pid (JStr default_model))
     else ret (JObj cfg)) w
    = (Ok (JObj (added_config pid default_model cfg sm)), w)).
  { unfold added_config. destruct (String.eqb default_model ""); cbn [negb].
    - reflexivity.
    - rewrite select_steps_run. now rewrite (select_result_ok _ _ _ _ Hsel). }
  rewrite (bind_ok _ _ _ _ _ Hconfig).
  destruct (save_keys_cli_run (JObj (dict_set pid (JStr "configured") keys)) w)
    as (wa & Hsave & Hkeys' & Hframe & _).
  rewrite (bind_ok _ _ _ _ _ Hsave).
  destruct (save_config_run (JObj (added_config pid default_model cfg sm)) wa)
    as (wb & Hsave_b & Hcfg_b & Hframe_b & _).
  rewrite (bind_ok _ _ _ _ _ Hsave_b).
  rewrite bind_lift. unfold provider_name.
  assert (Hinfo : exists info, dict_get pid WebUI.PROVIDERS = Some info)
    by (unfold dict_mem in Hin;
        destruct (dict_get pid WebUI.PROVIDERS); [eauto | discriminate]).
  destruct Hinfo as [info Hinfo]. rewrite Hinfo.
  pose proof (log_activity_frame ("Added provider: " ++ p_name info) "success" wb)
    as [Hok Hlog].
  eexists. split.
  { rewrite (surjective_pairing (WebUI.log_activity _ _ wb)). now rewrite Hok. }
  split; [|split; [|split]].
  - rewrite <- Hkeys'. apply load_keys_ext. rewrite Hlog. apply Hframe_b.
    intros E. symmetry in E. now apply config_not_keys.
  - rewrite <- Hcfg_b. apply load_config_ext, Hlog.
  - rewrite Hlog, Hframe_b, Hframe; auto using openclaw_not_keys,
      openclaw_not_config.
  - unfold WebUI.log_activity, do_ops. cbn [snd].
    unfold Cli.save_keys, Cli.save_config, do_ops in Hsave, Hsave_b.
    injection Hsave as <-. injection Hsave_b as <-.
    split.
    + rewrite !(proj1 (run_ops_env _ _)). reflexivity.
    + rewrite !(proj1 (proj2 (run_ops_env _ _))). reflexivity.
Qed.

(** X15.  The route [/add_key] stores no credential: for a provider of
    the catalogue it writes the marker ["configured"] over the vault entry
    of the provider, keeps every other entry, and records the default
    model as the selection of the provider when the form carries a
    non-empty one; with an empty one the selections stay as they were.
    For a provider outside the catalogue, or none, it writes nothing. *)
Theorem webui_add_key_stores_a_marker
        (pid default_model : str) (w : world) (keys cfg sm : dict json) :
  fst (Cli.load_keys w) = Ok (JObj keys) ->
  fst (Cli.load_config w) = Ok (JObj cfg) ->
  selections_of cfg = Some sm ->
  (dict_mem pid WebUI.PROVIDERS = true ->
   exists w',
     WebUI.add_key (Some pid) default_model w = (Ok tt, w') /\
     stored w' pid = Some (JStr "configured") /\
     (forall q, q <> pid -> stored w' q = stored w q) /\
     selected w' pid = (if String.eqb default_model ""
                        then selected w pid
                        else Some (JStr default_model)) /\
     (forall q, q <> pid -> selected w' q = selected w q)) /\
  (dict_mem pid WebUI.PROVIDERS = false ->
   WebUI.add_key (Some pid) default_model w = (Ok tt, w)) /\
  WebUI.add_key None default_model w = (Ok tt, w).
Proof.
  intros Hkeys Hcfg Hsel. split; [|split].
  - intros Hin.
    destruct (webui_add_key_run pid default_model w keys cfg sm Hkeys Hcfg Hsel Hin)
      as (w' & Hrun & Hk & Hc & _).
    exists w'. split; [exact Hrun|].
    rewrite (stored_of_keys _ _ _ Hk). split; [|split; [|split]].
    + cbn [json_at]. now rewrite dict_get_set_same.
    + intros q Hq. rewrite (stored_of_keys _ _ _ Hk), (stored_of_keys _ _ _ Hkeys).
      cbn [json_at]. now rewrite dict_get_set_other.
    + rewrite (selected_of_config _ _ _ Hc), (selected_of_config _ _ _ Hcfg).
      unfold added_config. destruct (String.eqb default_model ""); auto.
      rewrite (json_at_selection _ _ _ (selections_of_set cfg _)).
      apply dict_get_set_same.
    + intros q Hq.
      rewrite (selected_of_config _ _ _ Hc), (selected_of_config _ _ _ Hcfg).
      unfold added_config. destruct (String.eqb default_model ""); auto.
      rewrite (json_at_selection _ _ _ (selections_of_set cfg _)),
        (json_at_selection _ _ _ Hsel).
      now apply dict_get_set_other.
  - intros Hout. unfold WebUI.add_key, WebUI.load_keys, WebUI.load_config.
    rewrite (bind_ok _ _ _ _ _ (load_keys_cli_run _ _ Hkeys)).
    rewrite (bind_ok _ _ _ _ _ (load_config_run _ _ Hcfg)).
    now rewrite Hout.
  - unfold WebUI.add_key, WebUI.load_keys, WebUI.load_config.
    rewrite (bind_ok _ _ _ _ _ (load_keys_cli_run _ _ Hkeys)).
    now rewrite (bind_ok _ _ _ _ _ (load_config_run _ _ Hcfg)).
Qed.

Lemma webui_add_key_stores_a_marker_witness :
  (exists w',
     WebUI.add_key (Some "openai") "" w_two = (Ok tt, w') /\
     stored w' "openai" = Some (JStr "configured") /\
     (forall q, q <> "openai" -> stored w' q = stored w_two q) /\
     selected w' "openai" = (if String.eqb "" ""
                             then selected w_two "openai"
                             else Some (JStr "")) /\
     (forall q, q <> "openai" -> selected w' q = selected w_two q)) /\
  WebUI.add_key (Some "acme") "" w_two = (Ok tt, w_two).
Proof.
  pose proof (webui_add_key_stores_a_marker "openai" "" w_two
                [("openai", JStr "c1"); ("anthropic", JStr "c2")]
                [("selected_models",
                  JObj [("openai", JStr "gpt-4o");
                        ("anthropic", JStr "claude-sonnet-4-6")])]
                [("openai", JStr "gpt-4o");
                 ("anthropic", JStr "claude-sonnet-4-6")]
                eq_refl eq_refl eq_refl) as [Hin _].
  pose proof (webui_add_key_stores_a_marker "acme" "" w_two
                [("openai", JStr "c1"); ("anthropic", JStr "c2")]
                [("selected_models",
                  JObj [("openai", JStr "gpt-4o");
                        ("anthropic", JStr "claude-sonnet-4-6")])]
                [("openai", JStr "gpt-4o");
                 ("anthropic", JStr "claude-sonnet-4-6")]
                eq_refl eq_refl eq_refl) as [_ [Hout _]].
  split; [apply Hin | apply Hout]; reflexivity.
Defined.

Lemma configured_does_not_open `{Fernet} (k : bytes) :
  unseal k (JStr "configured") = Raise BinasciiError.
Proof. reflexivity. Qed.

Lemma marker_in_vault `{Fernet} (k : bytes) (pid : str) (keys : dict json) :
  Exists (fun kc => exists err, unseal k (snd kc) = Raise err)
         (dict_set pid (JStr "configured") keys).
Proof.
  induction keys as [|[k0 v0] keys IH]; simpl.
  - apply Exists_cons_hd. exists BinasciiError. apply configured_does_not_open.
  - destruct (String.eqb k0 pid).
    + apply Exists_cons_hd. exists BinasciiError. apply configured_does_not_open.
    + now apply Exists_cons_tl.
Qed.

(** X16.  The marker of [/add_key] is no ciphertext: once the web
    console has added a provider, [load_keys] of the Linux front end
    reads the whole vault as empty, whatever keys the vault holds. *)
Theorem webui_marker_hides_the_vault `{Fernet}
        (pid default_model : str) (w : world) (keys cfg sm : dict json) :
  key_usable w ->
  fst (Cli.load_keys w) = Ok (JObj keys) ->
  fst (Cli.load_config w) = Ok (JObj cfg) ->
  selections_of cfg = Some sm ->
  dict_mem pid WebUI.PROVIDERS = true ->
  exists w' w'',
    WebUI.add_key (Some pid) default_model w = (Ok tt, w') /\
    Linux.load_keys w' = (Ok [], w'').
Proof.
  intros Hu Hkeys Hcfg Hsel Hin.
  destruct (webui_add_key_run pid default_model w keys cfg sm Hkeys Hcfg Hsel Hin)
    as (w' & Hrun & Hk & _ & _ & Hm & Hs).
  assert (Hu' : key_usable w') by (unfold key_usable; now rewrite Hm).
  destruct (load_keys_file w' _ Hk) as (f & Hf & Hc).
  { destruct keys as [|[k0 v0] keys]; simpl; [discriminate|].
    destruct (String.eqb k0 pid); discriminate. }
  destruct (load_keys_run w' Hu') as (w'' & Hload & _).
  exists w', w''. split; [exact Hrun|]. rewrite Hload.
  unfold vault_view. rewrite Hf, Hc.
  destruct (open_items_broken (key_of w') _ []
              (marker_in_vault (key_of w') pid keys)) as [err Herr].
  now rewrite Herr.
Qed.

Lemma webui_marker_hides_the_vault_witness :
  exists w' w'',
    WebUI.add_key (Some "xai") "grok-2" (w_vault two_entries) = (Ok tt, w') /\
    @Linux.load_keys toy w' = (Ok [], w'').
Proof.
  apply (@webui_marker_hides_the_vault toy "xai" "grok-2" (w_vault two_entries)
           two_entries [("selected_models", JObj [])] []); reflexivity.
Defined.

(** X17.  The route [/reset] leaves an empty vault and no selection,
    appends one line to the log, and touches neither the external
    configuration nor the master key. *)
Theorem reset_all_empties_the_stores (w : world) :
  let w' := snd (WebUI.reset_all w) in
  fst (WebUI.reset_all w) = Ok tt /\
  (forall q, stored w' q = None /\ selected w' q = None) /\
  fs w' OPENCLAW_CONFIG = fs w OPENCLAW_CONFIG /\
  master_key w' = master_key w /\
  log w' = Some (match log w with Some old => old | None => "" end
                 ++ WebUI.log_line (now w) "info" "Reset all settings").
Proof.
  cbv zeta. unfold WebUI.reset_all, WebUI.save_keys, WebUI.save_config.
  destruct (save_keys_cli_run (JObj []) w) as (wa & Hsave & Hk & Hframe & La & Na).
  rewrite (bind_ok _ _ _ _ _ Hsave).
  destruct (save_config_run (JObj [("selected_models", JObj [])]) wa)
    as (wb & Hsave_b & Hc & Hframe_b & Lb & Nb).
  rewrite (bind_ok _ _ _ _ _ Hsave_b).
  pose proof (log_activity_frame "Reset all settings" "info" wb) as [Hok Hlog].
  split; [exact Hok|]. split; [|split; [|split]].
  - intros q. split.
    + unfold stored. rewrite (load_keys_ext wa).
      * now rewrite Hk.
      * rewrite Hlog. apply Hframe_b. intros E. symmetry in E.
        now apply config_not_keys.
    + unfold selected. rewrite (load_config_ext wb) by apply Hlog.
      now rewrite Hc.
  - rewrite Hlog, Hframe_b, Hframe; auto using openclaw_not_keys,
      openclaw_not_config.
  - unfold WebUI.log_activity, do_ops. cbn [snd].
    unfold Cli.save_keys, Cli.save_config, do_ops in Hsave, Hsave_b.
    injection Hsave as <-. injection Hsave_b as <-.
    rewrite !(proj1 (run_ops_env _ _)). reflexivity.
  - unfold WebUI.log_activity, do_ops, WebUI.log_activity_ops, run_ops.
    cbn [snd fold_left apply_op]. rewrite Nb, Na, Lb, La.
    destruct (log w) as [old|] eqn:E; simpl; rewrite ?Lb, ?La, ?E; simpl;
      rewrite ?Lb, ?La, ?E; reflexivity.
Qed.

(** X18.  What the dashboard shows as the current model: after
    [update_openclaw_model] has returned [True] it is the model that was
    pushed, whatever [defaultModel] and [model] held before; without an
    external configuration it is ["Not set"]. *)
Theorem shown_model_is_the_pushed_one (m : json) (w : world) :
  (fst (WebUI.update_openclaw_model m w) = Ok true ->
   fst (WebUI.get_openclaw_model (snd (WebUI.update_openclaw_model m w))) = Ok m) /\
  (fs w OPENCLAW_CONFIG = None ->
   WebUI.get_openclaw_model w = (Ok (JStr "Not set"), w)).
Proof.
  split.
  - destruct (fs w OPENCLAW_CONFIG) as [f|] eqn:Hf.
    + rewrite (update_openclaw_model_run _ _ _ Hf).
      destruct (content f) as [[]|]; try discriminate.
      intros _. cbn [snd].
      destruct (write_config_file OPENCLAW_CONFIG
                  (JObj (dict_set "model" m (dict_set "defaultModel" m d))) w)
        as (f' & Hf' & Hc').
      unfold WebUI.openclaw_ops.
      unfold WebUI.get_openclaw_model, WebUI.get_openclaw_config, bind at 1 2,
        exists_file.
      rewrite Hf'. unfold json_load. rewrite Hf', Hc'.
      rewrite bind_lift. cbn [WebUI.py_get]. cbn [lift fst].
      rewrite dict_get_set_other by discriminate.
      now rewrite dict_get_set_same.
    + unfold WebUI.update_openclaw_model, bind, exists_file. rewrite Hf.
      discriminate.
  - intros Hnone.
    unfold WebUI.get_openclaw_model, WebUI.get_openclaw_config, bind,
      exists_file. now rewrite Hnone.
Qed.

Lemma shown_model_is_the_pushed_one_witness :
  fst (WebUI.get_openclaw_model
         (snd (WebUI.update_openclaw_model (JStr "gpt-4o") w_themed)))
    = Ok (JStr "gpt-4o") /\
  WebUI.get_openclaw_model w_new = (Ok (JStr "Not set"), w_new).
Proof.
  split.
  - apply (proj1 (shown_model_is_the_pushed_one (JStr "gpt-4o") w_themed)).
    reflexivity.
  - apply (proj2 (shown_model_is_the_pushed_one (JStr "gpt-4o") w_new)).
    reflexivity.
Defined.

(** X19.  [get_configured_providers] lists the providers of the vault in
    their order and then the local provider ["ollama"], which is listed
    once whether or not the vault has an entry for it. *)
Theorem ollama_is_always_configured (w : world) (keys : dict json) (config : json) :
  fst (Cli.load_keys w) = Ok (JObj keys) ->
  fst (Cli.load_config w) = Ok config ->
  WebUI.get_configured_providers w =
  (Ok (if existsb (String.eqb "ollama") (map fst keys)
       then map fst keys
       else (map fst keys ++ ["ollama"])%list), w).
Proof.
  intros Hkeys Hcfg.
  unfold WebUI.get_configured_providers, WebUI.load_keys, WebUI.load_config.
  rewrite (bind_ok _ _ _ _ _ (load_keys_cli_run _ _ Hkeys)).
  rewrite (bind_ok _ _ _ _ _ (load_config_run _ _ Hcfg)).
  rewrite bind_lift. cbn [WebUI.py_keys]. unfold ret.
  unfold WebUI.PROVIDERS, CORE_PROVIDERS, MORE_PROVIDERS, mk.
  cbn [app WebUI.add_local p_local andb].
  now destruct (existsb (String.eqb "ollama") (map fst keys)).
Qed.

Lemma ollama_is_always_configured_witness :
  WebUI.get_configured_providers w_two =
  (Ok (if existsb (String.eqb "ollama") (map fst [("openai", JStr "c1");
                                                   ("anthropic", JStr "c2")])
       then map fst [("openai", JStr "c1"); ("anthropic", JStr "c2")]
       else (map fst [("openai", JStr "c1"); ("anthropic", JStr "c2")]
             ++ ["ollama"])%list), w_two).
Proof.
  apply (ollama_is_always_configured w_two
           [("openai", JStr "c1"); ("anthropic", JStr "c2")]
           (JObj [("selected_models",
                   JObj [("openai", JStr "gpt-4o");
                         ("anthropic", JStr "claude-sonnet-4-6")])]));
    reflexivity.
Defined.

(** ** Reading the log back *)

Lemma parse_lines_app (l1 l2 : list str) :
  WebUI.parse_lines (l1 ++ l2) = (WebUI.parse_lines l1 ++ WebUI.parse_lines l2)%list.
Proof.
  induction l1 as [|line l1 IH]; simpl; auto.
  destruct (WebUI.parse_line line); simpl; now rewrite IH.
Qed.

(** X20.  A line without [']'] gives no entry and does not disturb the
    others: the entries of a log with such a line are those of the log
    without it. *)
Theorem malformed_line_is_skipped (before after : list str) (line : str) :
  has_char "]" (strip line) = false ->
  WebUI.parse_lines (before ++ line :: after) =
  (WebUI.parse_lines before ++ WebUI.parse_lines after)%list.
Proof.
  intros Hline. rewrite parse_lines_app. simpl.
  assert (Hsplit : snd (split_once "]" (strip line)) = None).
  { generalize (strip line) Hline. intros s Hs.
    induction s as [|a s IH]; simpl in *; auto.
    apply orb_false_iff in Hs as [Ha Hs]. rewrite Ha.
    specialize (IH Hs). now destruct (split_once "]" s). }
  unfold WebUI.parse_line.
  now destruct (split_once "]" (strip line)) as [p0 [p1|]].
Qed.

Definition line_one : str := "2026-01-02 03:04:05 [SUCCESS] one" ++ nl.
Definition line_bad : str := "no bracket here" ++ nl.
Definition line_two : str := "2026-01-02 03:04:06 [INFO] two" ++ nl.

Lemma malformed_line_is_skipped_witness :
  WebUI.parse_lines ([line_one] ++ line_bad :: [line_two]) =
  (WebUI.parse_lines [line_one] ++ WebUI.parse_lines [line_two])%list.
Proof.
  apply (malformed_line_is_skipped [line_one] [line_two] line_bad).
  reflexivity.
Defined.

Lemma slice_from_all {A} (limit : Z) (l : list A) :
  (limit = 0 \/ Z.of_nat (List.length l) <= limit)%Z ->
  slice_from (- limit) l = l.
Proof.
  intros Hl. unfold slice_from.
  destruct (Z.ltb_spec (- limit) 0).
  - replace (Z.to_nat (Z.max 0 (- limit + Z.of_nat (List.length l)))) with 0
      by lia. reflexivity.
  - replace (Z.to_nat (Z.min (- limit) (Z.of_nat (List.length l)))) with 0
      by lia. reflexivity.
Qed.

(** X21.  With the limit 0 [get_activity_logs] returns every entry of
    the log, as it does with a limit that is at least the number of
    lines: the slice [lines[-0:]] is the whole list. *)
Theorem limit_zero_is_no_limit (limit : Z) (w : world) (text : str) :
  log w = Some text ->
  (limit = 0 \/ Z.of_nat (List.length (WebUI.readlines text)) <= limit)%Z ->
  WebUI.get_activity_logs limit w =
  (Ok (rev (WebUI.parse_lines (WebUI.readlines text))), w).
Proof.
  intros Hlog Hlimit. unfold WebUI.get_activity_logs. rewrite Hlog.
  now rewrite slice_from_all.
Qed.

Definition two_lines : str := line_one ++ line_two.

Definition w_logged : world :=
  {| master_key := None; log := Some two_lines; fs := fun _ => None;
     seed := 7; now := "2026-01-02 03:04:07" |}.

Lemma limit_zero_is_no_limit_witness :
  WebUI.get_activity_logs 0 w_logged =
  (Ok (rev (WebUI.parse_lines (WebUI.readlines two_lines))), w_logged).
Proof.
  apply (limit_zero_is_no_limit 0 w_logged two_lines); [reflexivity|].
  left. reflexivity.
Defined.

(** X22.  For a positive limit [get_activity_logs] returns at most that
    many entries, and they are the entries of the last lines of the log,
    the last line first. *)
Theorem positive_limit_bounds_the_entries (limit : Z) (w : world) (text : str) :
  (0 < limit)%Z ->
  log w = Some text ->
  exists entries,
    WebUI.get_activity_logs limit w = (Ok entries, w) /\
    List.length entries <= Z.to_nat limit /\
    entries =
      rev (WebUI.parse_lines
             (skipn (List.length (WebUI.readlines text) - Z.to_nat limit)
                    (WebUI.readlines text))).
Proof.
  intros Hpos Hlog. unfold WebUI.get_activity_logs. rewrite Hlog.
  eexists. split; [reflexivity|]. split.
  - rewrite length_rev. etransitivity; [apply parse_lines_length|].
    now apply slice_from_tail_length.
  - unfold slice_from. destruct (Z.ltb_spec (- limit) 0); [|lia].
    do 3 f_equal. lia.
Qed.

Lemma positive_limit_bounds_the_entries_witness :
  exists entries,
    WebUI.get_activity_logs 1 w_logged = (Ok entries, w_logged) /\
    List.length entries <= Z.to_nat 1 /\
    entries =
      rev (WebUI.parse_lines
             (skipn (List.length (WebUI.readlines two_lines) - Z.to_nat 1)
                    (WebUI.readlines two_lines))).
Proof.
  apply (positive_limit_bounds_the_entries 1 w_logged two_lines);
    [lia | reflexivity].
Defined.

(** *** The entry just logged comes first *)

Definition cr : ascii := ascii_of_N 13.
Definition lf : ascii := ascii_of_N 10.

Lemma N_of_ascii_eqb (c d : ascii) :
  (N_of_ascii c =? N_of_ascii d)%N = Ascii.eqb c d.
Proof.
  destruct (Ascii.eqb_spec c d) as [->|Hne].
  - apply N.eqb_refl.
  - apply N.eqb_neq. intros E. apply Hne.
    now rewrite <- (ascii_N_embedding c), <- (ascii_N_embedding d), E.
Qed.

Lemma readlines_cons (c : ascii) (s : str) :
  WebUI.readlines (String c s) =
  if Ascii.eqb c lf then nl :: WebUI.readlines s
  else if Ascii.eqb c cr then
    match s with
    | String c' s' =>
        if Ascii.eqb c' lf then nl :: WebUI.readlines s'
        else nl :: WebUI.readlines s
    | EmptyString => [nl]
    end
  else
    match WebUI.readlines s with
    | [] => [String c EmptyString]
    | l :: ls => String c l :: ls
    end.
Proof.
  cbn [WebUI.readlines].
  change 10%N with (N_of_ascii lf). change 13%N with (N_of_ascii cr).
  rewrite !N_of_ascii_eqb. destruct s as [|c' s']; [reflexivity|].
  now rewrite N_of_ascii_eqb.
Qed.

Lemma readlines_nonempty (c : ascii) (s : str) :
  WebUI.readlines (String c s) <> [].
Proof.
  rewrite readlines_cons.
  destruct (Ascii.eqb c lf); [discriminate|].
  destruct (Ascii.eqb c cr).
  - destruct s as [|c' s']; [discriminate|].
    destruct (Ascii.eqb c' lf); discriminate.
  - destruct (WebUI.readlines s); discriminate.
Qed.

(** A text without line ends, followed by a line end, is one line. *)
Lemma readlines_one_line (body : str) :
  has_char lf body = false -> has_char cr body = false ->
  WebUI.readlines (body ++ nl) = [body ++ nl].
Proof.
  induction body as [|c body IH]; intros Hlf Hcr.
  - reflexivity.
  - simpl in Hlf, Hcr. apply orb_false_iff in Hlf as [Hc1 Hlf].
    apply orb_false_iff in Hcr as [Hc2 Hcr].
    cbn [append]. rewrite readlines_cons, Hc1, Hc2, (IH Hlf Hcr). reflexivity.
Qed.

(** Text appended after a complete line starts a new line. *)
Lemma readlines_after_complete (n : nat) :
  forall s0 b, String.length s0 <= n ->
    WebUI.readlines ((s0 ++ nl) ++ b)
    = (WebUI.readlines (s0 ++ nl)%string ++ WebUI.readlines b)%list.
Proof.
  induction n as [|n IH]; intros s0 b Hlen.
  - destruct s0; [|simpl in Hlen; lia].
    cbn [append]. unfold nl. cbn [append]. now rewrite !readlines_cons.
  - destruct s0 as [|c s1].
    + cbn [append]. unfold nl. cbn [append]. now rewrite !readlines_cons.
    + simpl in Hlen. cbn [append].
      rewrite (readlines_cons c ((s1 ++ nl) ++ b)), (readlines_cons c (s1 ++ nl)).
      destruct (Ascii.eqb c lf).
      * rewrite IH by lia. reflexivity.
      * destruct (Ascii.eqb c cr).
        -- destruct s1 as [|c' s2].
           ++ cbn [append]. unfold nl. cbn [append].
              change (Ascii.eqb (ascii_of_N 10) lf) with true. cbv iota.
              reflexivity.
           ++ cbn [append]. simpl in Hlen.
              destruct (Ascii.eqb c' lf).
              ** rewrite IH by lia. reflexivity.
              ** assert (Hrec := IH (String c' s2) b ltac:(simpl; lia)).
                 cbn [append] in Hrec. rewrite Hrec. reflexivity.
        -- rewrite IH by lia.
           destruct (WebUI.readlines (s1 ++ nl)) as [|l ls] eqn:E; [|reflexivity].
           exfalso. destruct s1; simpl in E.
           ++ now apply (readlines_nonempty (ascii_of_N 10) EmptyString).
           ++ now apply (readlines_nonempty a (s1 ++ nl)).
Qed.

(** A log is complete when it is empty or ends with a line end, as every
    log that [log_activity] wrote does. *)
Definition complete_log (text : str) : Prop :=
  text = "" \/ exists s0, text = s0 ++ nl.

Lemma readlines_append_line (text body : str) :
  complete_log text ->
  has_char lf body = false -> has_char cr body = false ->
  WebUI.readlines (text ++ body ++ nl)
  = (WebUI.readlines text ++ [(body ++ nl)%string])%list.
Proof.
  intros [->|[s0 ->]] Hlf Hcr.
  - cbn [append]. now apply readlines_one_line.
  - rewrite (readlines_after_complete (String.length s0) s0 _ (le_n _)).
    now rewrite (readlines_one_line body Hlf Hcr).
Qed.

Lemma slice_from_keeps_last {A} (limit : Z) (l : list A) (x : A) :
  (0 < limit)%Z ->
  exists pre, slice_from (- limit) (l ++ [x])%list = (pre ++ [x])%list.
Proof.
  intros Hpos. unfold slice_from. rewrite length_app. simpl.
  destruct (Z.ltb_spec (- limit) 0); [|lia].
  rewrite skipn_app.
  replace (Z.to_nat (Z.max 0 (- limit + Z.of_nat (List.length l + 1)))
           - List.length l) with 0 by lia.
  eexists. reflexivity.
Qed.

Lemma log_after_log_activity (msg lv : str) (w : world) :
  log (snd (WebUI.log_activity msg lv w)) =
  Some (match log w with Some old => old | None => "" end
        ++ WebUI.log_line (now w) lv msg).
Proof.
  unfold WebUI.log_activity, do_ops, WebUI.log_activity_ops, run_ops.
  cbn [snd fold_left apply_op].
  destruct (log w) as [old|] eqn:E; cbn; now rewrite ?E.
Qed.

Lemma log_line_body (ts lv msg : str) :
  WebUI.log_line ts lv msg = (ts ++ " [" ++ upper lv ++ "] " ++ msg) ++ nl.
Proof. unfold WebUI.log_line. now rewrite !append_assoc. Qed.

(** X23.  The entry just logged is the first one returned: after
    [log_activity] on a log that is absent, empty or ends with a line end,
    [get_activity_logs] with a positive limit starts with the entry of the
    new line, whose time carries the level in capitals and whose level is
    ["info"].  The level is one whose capitals [str] can hold
    ([upper_in_range]). *)
Theorem logged_entry_comes_first (c : ascii) (ts lv msg : str) (limit : Z)
        (w : world) :
  now w = String c ts ->
  upper_in_range lv = true ->
  is_space c = false ->
  has_char "[" (String c ts) = false -> has_char "]" (String c ts) = false ->
  has_char "[" (upper lv) = false -> has_char "]" (upper lv) = false ->
  has_char "[" msg = false ->
  lstrip msg = msg -> rstrip msg = msg -> msg <> "" ->
  has_char lf (String c ts ++ " [" ++ upper lv ++ "] " ++ msg) = false ->
  has_char cr (String c ts ++ " [" ++ upper lv ++ "] " ++ msg) = false ->
  match log w with Some old => complete_log old | None => True end ->
  (0 < limit)%Z ->
  exists rest,
    fst (WebUI.get_activity_logs limit (snd (WebUI.log_activity msg lv w))) =
    Ok ({| WebUI.time := now w ++ " " ++ upper lv;
           WebUI.message := msg;
           WebUI.level := "info" |} :: rest).
Proof.
  intros Hnow _ Hc Hts1 Hts2 Hlv1 Hlv2 Hmsg Hl Hr Hne Hlf Hcr Hold Hpos.
  assert (Hlog : exists old, complete_log old /\
            log (snd (WebUI.log_activity msg lv w)) =
            Some (old ++ WebUI.log_line (now w) lv msg)).
  { rewrite log_after_log_activity.
    destruct (log w) as [old|]; eexists; (split; [|reflexivity]);
      [exact Hold | now left]. }
  destruct Hlog as (old & Hcomplete & Hlog).
  pose proof (parse_line_of_logged_line c ts lv msg Hc Hts1 Hts2 Hlv1 Hlv2
                Hmsg Hl Hr Hne) as Hparse.
  rewrite Hnow, log_line_body in Hlog. rewrite log_line_body in Hparse.
  unfold WebUI.get_activity_logs. rewrite Hlog, Hnow. cbn [fst].
  rewrite (readlines_append_line old _ Hcomplete Hlf Hcr).
  destruct (slice_from_keeps_last limit (WebUI.readlines old)
              ((String c ts ++ " [" ++ upper lv ++ "] " ++ msg) ++ nl) Hpos)
    as [pre Hpre].
  unfold str in *. rewrite Hpre, parse_lines_app. cbn [WebUI.parse_lines].
  rewrite Hparse, rev_app_distr. cbn [rev app].
  eexists. reflexivity.
Qed.

Lemma logged_entry_comes_first_witness :
  exists rest,
    fst (WebUI.get_activity_logs 1
           (snd (WebUI.log_activity "Added provider: OpenAI" "success" w_logged))) =
    Ok ({| WebUI.time := now w_logged ++ " " ++ upper "success";
           WebUI.message := "Added provider: OpenAI";
           WebUI.level := "info" |} :: rest).
Proof.
  apply (logged_entry_comes_first "2" "026-01-02 03:04:07" "success"
           "Added provider: OpenAI" 1 w_logged);
    try reflexivity; try discriminate; try lia.
  right. exists (line_one ++ "2026-01-02 03:04:06 [INFO] two"). reflexivity.
Defined.

(** ** The key vault of [clawapi.py] *)

(** Text whose encoding has only bytes below 128 is cut where its
    encoding is cut. *)
Lemma utf8_encode_take (n : nat) (s : str) :
  Forall (fun b => (Byte.to_N b < 128)%N) (utf8_encode s) ->
  utf8_encode (take n s) = firstn n (utf8_encode s).
Proof.
  revert n. induction s as [|c s IH]; intros n Hall.
  - now destruct n.
  - destruct n as [|n]; [reflexivity|].
    cbn [take utf8_encode] in *. unfold utf8_char in *.
    pose proof (N_of_ascii_lt_256 c) as Hc. revert Hall.
    destruct (N.ltb_spec (N_of_ascii c) 128) as [Hlt|Hge]; intros Hall.
    + cbn [app firstn] in *. apply Forall_inv_tail in Hall. now rewrite IH.
    + exfalso. cbn [app] in Hall. apply Forall_inv in Hall. cbv beta in Hall.
      rewrite to_N_byte_of_N in Hall by lia. lia.
Qed.

(** The first ten characters of the Base64 text of eight bytes or more
    stop in the middle of a group: [b64decode] rejects them. *)
Lemma b64decode_cut (token : bytes) :
  8 <= List.length token ->
  b64decode (firstn 10 (b64encode token)) = Raise BinasciiError.
Proof.
  intros Hlen.
  destruct token as [|b0 [|b1 [|b2 [|b3 [|b4 [|b5 [|b6 [|b7 rest]]]]]]]];
    simpl in Hlen; try lia.
  pose proof (to_N_lt_256 b0). pose proof (to_N_lt_256 b1).
  pose proof (to_N_lt_256 b2). pose proof (to_N_lt_256 b3).
  pose proof (to_N_lt_256 b4). pose proof (to_N_lt_256 b5).
  pose proof (to_N_lt_256 b6). pose proof (to_N_lt_256 b7).
  unfold b64decode.
  destruct rest as [|b8 rest]; cbn [b64encode app firstn];
    [|pose proof (to_N_lt_256 b8)];
    repeat (rewrite a2b_base64_char by lia; cbn [N.eqb Pos.eqb]);
    reflexivity.
Qed.

Section CliVault.
Context `{Fernet}.

(** What [add_provider] does for a provider of the catalogue when the
    vault reads as the dictionary [d]. *)
Lemma add_provider_run (pid key : str) (w : world) (d : dict json) :
  key_usable w ->
  dict_mem pid Cli.PROVIDERS = true ->
  fst (Cli.load_keys w) = Ok (JObj d) ->
  exists ct w1,
    Cli.add_provider pid key w = (Ok tt, w1) /\
    seal (key_of w) (seed (keyed w)) key = Ok ct /\
    Cli.load_keys w1 = (Ok (JObj (dict_set pid (JStr ct) d)), w1) /\
    key_usable w1 /\ key_of w1 = key_of w /\ keyed w1 = w1 /\
    (forall q, q <> KEYS_FILE -> fs w1 q = fs w q) /\
    log w1 = log w /\ key_file_kept w w1.
Proof.
  intros Hu Hin Hload.
  destruct (seal_ok (key_of w) (seed (keyed w)) key) as [ct [Hct _]].
  set (w0 := with_seed (N.succ (seed (keyed w))) (keyed w)).
  destruct (save_keys_cli_run (JObj (dict_set pid (JStr ct) d)) w0)
    as (w1 & Hsave & Hread & Hfs & Hlog & _).
  exists ct, w1.
  assert (Hrun : Cli.add_provider pid key w = (Ok tt, w1)).
  { unfold Cli.add_provider. rewrite Hin. cbn [negb].
    rewrite (bind_ok _ _ _ _ _ (load_keys_cli_run w _ Hload)).
    unfold bind at 1. rewrite (encrypt_key_run key w Hu), Hct.
    rewrite bind_lift. cbn [py_setitem]. exact Hsave. }
  assert (Hkey : exists m, master_key w1 = Some (key_of w, m)).
  { destruct (keyed_master_key w) as [m Hm]. exists m.
    assert (Hw1 : w1 = run_ops (Cli.save_keys_ops
                                  (JObj (dict_set pid (JStr ct) d))) w0)
      by (unfold Cli.save_keys, do_ops in Hsave; congruence).
    rewrite Hw1, (proj1 (run_ops_env _ _)). exact Hm. }
  destruct Hkey as [m Hm].
  split; [exact Hrun|]. split; [exact Hct|].
  split; [now apply load_keys_cli_run|].
  split; [unfold key_usable; rewrite Hm; now apply key_of_ok|].
  split; [unfold key_of at 1; now rewrite Hm|].
  split; [unfold keyed; now rewrite Hm|].
  split; [|split].
  - intros q Hq. rewrite (Hfs q Hq). unfold w0. cbn [fs with_seed].
    now rewrite keyed_fs.
  - rewrite Hlog. unfold w0. cbn [log with_seed]. apply keyed_log.
  - apply key_file_kept_trans with w0; [apply key_file_kept_draw|].
    apply key_file_kept_same.
    unfold Cli.save_keys, do_ops in Hsave.
    assert (Hw1 : w1 = run_ops (Cli.save_keys_ops
                                  (JObj (dict_set pid (JStr ct) d))) w0)
      by congruence.
    rewrite Hw1. apply run_ops_env.
Qed.

End CliVault.

(** X24.  [add_provider] of [clawapi.py] puts the ciphertext of the key
    under the provider's name and leaves every other entry of the vault
    as it was read; [decrypt_key] opens the stored ciphertext to the key.
    Besides the vault file, the log and every file stay as they were, but
    for the master key file, which is created when it was absent
    ([key_file_kept]). *)
Theorem add_provider_stores_a_ciphertext `{Fernet} (pid key : str) (w : world)
        (d : dict json) :
  key_usable w ->
  dict_mem pid Cli.PROVIDERS = true ->
  fst (Cli.load_keys w) = Ok (JObj d) ->
  exists ct w1,
    Cli.add_provider pid key w = (Ok tt, w1) /\
    fst (Cli.load_keys w1) = Ok (JObj (dict_set pid (JStr ct) d)) /\
    fst (decrypt_key (JStr ct) w1) = Ok key /\
    (forall q, q <> KEYS_FILE -> fs w1 q = fs w q) /\
    log w1 = log w /\
    key_file_kept w w1.
Proof.
  intros Hu Hin Hload.
  destruct (add_provider_run pid key w d Hu Hin Hload)
    as (ct & w1 & Hadd & Hct & Hread & Hu1 & Hk1 & _ & Hfs).
  exists ct, w1. split; [exact Hadd|]. split; [now rewrite Hread|].
  split; [|exact Hfs].
  rewrite (decrypt_key_run _ _ Hu1), Hk1. cbn [fst].
  apply (unseal_seal _ _ _ _ (key_of_ok w Hu) Hct).
Qed.

Lemma add_provider_stores_a_ciphertext_witness :
  exists ct w1,
    @Cli.add_provider toy "openai" "sk-ABCDEFGHIJKLMNOP" w_new = (Ok tt, w1) /\
    fst (Cli.load_keys w1) = Ok (JObj (dict_set "openai" (JStr ct) [])) /\
    fst (@decrypt_key toy (JStr ct) w1) = Ok "sk-ABCDEFGHIJKLMNOP" /\
    (forall q, q <> KEYS_FILE -> fs w1 q = fs w_new q) /\
    log w1 = log w_new /\
    @key_file_kept toy w_new w1.
Proof.
  apply (@add_provider_stores_a_ciphertext toy "openai" "sk-ABCDEFGHIJKLMNOP"
           w_new []); [exact I | reflexivity | reflexivity].
Defined.

(** X25.  [show_key] of [clawapi.py] decrypts the first ten characters of
    the stored ciphertext before the ciphertext itself.  For a key stored
    by [add_provider] whose token has eight bytes or more (every Fernet
    token has), these ten characters are no Base64 text: [show_key] raises
    [binascii.Error] and shows nothing. *)
Theorem show_key_fails_on_a_stored_key `{Fernet} (pid key : str) (w : world)
        (d : dict json) :
  key_usable w ->
  dict_mem pid Cli.PROVIDERS = true ->
  fst (Cli.load_keys w) = Ok (JObj d) ->
  (forall r, 8 <= List.length (encrypt (key_of w) r (utf8_encode key))) ->
  exists w1 w2,
    Cli.add_provider pid key w = (Ok tt, w1) /\
    Cli.show_key pid w1 = (Raise BinasciiError, w2).
Proof.
  intros Hu Hin Hload Hlong.
  destruct (add_provider_run pid key w d Hu Hin Hload)
    as (ct & w1 & Hadd & Hct & Hread & Hu1 & Hk1 & Hkeyed & _).
  exists w1, w1. split; [exact Hadd|].
  destruct (seal_ok (key_of w) (seed (keyed w)) key) as [ct' [Hct' Henc]].
  rewrite Hct in Hct'. injection Hct' as <-.
  assert (Hname : exists name, provider_name Cli.PROVIDERS pid = Ok name).
  { unfold provider_name. unfold dict_mem in Hin.
    destruct (dict_get pid Cli.PROVIDERS) as [p|]; [now exists (p_name p)|].
    discriminate. }
  destruct Hname as [name Hname].
  assert (Hcut : unseal (key_of w) (JStr (take 10 ct)) = Raise BinasciiError).
  { unfold unseal. cbn [py_encode rbind].
    rewrite utf8_encode_take by (rewrite Henc; apply b64encode_ascii).
    rewrite Henc, (b64decode_cut _ (Hlong _)). reflexivity. }
  unfold Cli.show_key. rewrite (bind_ok _ _ _ _ _ Hread).
  rewrite bind_lift. cbn [py_in]. unfold dict_mem at 1.
  rewrite dict_get_set_same. cbn [negb].
  rewrite bind_lift, Hname, bind_lift. cbn [py_getitem].
  rewrite dict_get_set_same, bind_lift. cbn [Cli.py_slice10].
  unfold bind. rewrite (decrypt_key_run _ _ Hu1), Hk1, Hcut, Hkeyed.
  reflexivity.
Qed.

Lemma show_key_fails_on_a_stored_key_witness :
  exists w1 w2,
    @Cli.add_provider toy "openai" "sk-ABCDEFGHIJKLMNOP" w_new = (Ok tt, w1) /\
    @Cli.show_key toy "openai" w1 = (Raise BinasciiError, w2).
Proof.
  apply (@show_key_fails_on_a_stored_key toy "openai" "sk-ABCDEFGHIJKLMNOP"
           w_new []); [exact I | reflexivity | reflexivity |].
  intros r. cbn. lia.
Defined.

(** ** Removing a provider *)

(** X26.  Removing a provider ([remove_provider] of [clawapi.py] for a
    provider with a vault entry, [remove_key] of [webui.py] for any
    provider) leaves the vault entry of every other provider as it was. *)
Theorem remove_keeps_other_keys (pid : str) (w : world) (keys cfg sm : dict json) :
  fst (Cli.load_keys w) = Ok (JObj keys) ->
  fst (Cli.load_config w) = Ok (JObj cfg) ->
  selections_of cfg = Some sm ->
  (dict_mem pid keys = true ->
   forall q, q <> pid ->
             stored (snd (Cli.remove_provider pid w)) q = stored w q) /\
  (forall q, q <> pid -> stored (snd (WebUI.remove_key pid w)) q = stored w q).
Proof.
  intros Hkeys Hcfg Hsel.
  assert (Hother : forall w' q, q <> pid ->
            fst (Cli.load_keys w') = Ok (JObj (dict_del pid keys)) ->
            stored w' q = stored w q).
  { intros w' q Hq Hk.
    rewrite (stored_of_keys _ _ _ Hk), (stored_of_keys _ _ _ Hkeys).
    cbn [json_at]. now rewrite dict_get_del_other. }
  split.
  - intros Hin q Hq.
    destruct (cli_remove_provider_run pid w keys cfg sm Hkeys Hin Hcfg Hsel)
      as (w' & -> & Hk & _).
    now apply Hother.
  - intros q Hq.
    destruct (webui_remove_key_run pid w keys cfg sm Hkeys Hcfg Hsel)
      as (w' & -> & Hk & _).
    now apply Hother.
Qed.

Lemma remove_keeps_other_keys_witness :
  (forall q, q <> "openai" ->
             stored (snd (Cli.remove_provider "openai" w_two)) q = stored w_two q) /\
  (forall q, q <> "openai" ->
             stored (snd (WebUI.remove_key "openai" w_two)) q = stored w_two q).
Proof.
  pose proof (remove_keeps_other_keys "openai" w_two
                [("openai", JStr "c1"); ("anthropic", JStr "c2")]
                [("selected_models",
                  JObj [("openai", JStr "gpt-4o");
                        ("anthropic", JStr "claude-sonnet-4-6")])]
                [("openai", JStr "gpt-4o");
                 ("anthropic", JStr "claude-sonnet-4-6")]
                eq_refl eq_refl eq_refl) as [Hcli Hweb].
  split; [apply Hcli; reflexivity | exact Hweb].
Defined.

(** X27.  [remove_provider] of [clawapi.py] does nothing for a provider
    without a vault entry: no file is written, and a model selected for
    that provider stays selected. *)
Theorem remove_provider_without_a_key (pid : str) (w : world) (keys : dict json) :
  fst (Cli.load_keys w) = Ok (JObj keys) ->
  dict_mem pid keys = false ->
  Cli.remove_provider pid w = (Ok tt, w) /\
  selected (snd (Cli.remove_provider pid w)) pid = selected w pid.
Proof.
  intros Hkeys Hout.
  assert (Hrun : Cli.remove_provider pid w = (Ok tt, w)).
  { unfold Cli.remove_provider.
    rewrite (bind_ok _ _ _ _ _ (load_keys_cli_run _ _ Hkeys)).
    rewrite bind_lift. cbn [py_in]. now rewrite Hout. }
  split; [exact Hrun | now rewrite Hrun].
Qed.

Definition w_selected_only : world :=
  {| master_key := None; log := None;
     fs := upd CONFIG_FILE
             (Some {| content :=
                        Text (JObj [("selected_models",
                                     JObj [("google", JStr "gemini-1.5-pro")])]);
                      mode := None |})
             (fun _ => None);
     seed := 7; now := "2026-01-02 03:04:05" |}.

Lemma remove_provider_without_a_key_witness :
  Cli.remove_provider "google" w_selected_only = (Ok tt, w_selected_only) /\
  selected (snd (Cli.remove_provider "google" w_selected_only)) "google"
  = selected w_selected_only "google".
Proof.
  apply (remove_provider_without_a_key "google" w_selected_only []);
    reflexivity.
Defined.

(** ** A damaged [config.json] *)

Lemma load_keys_total (w : world) : exists j, Cli.load_keys w = (Ok j, w).
Proof.
  unfold Cli.load_keys, bind, exists_file, try_except, json_load.
  destruct (fs w KEYS_FILE) as [f|] eqn:E; cbn; rewrite ?E;
    [destruct (content f)|]; eexists; reflexivity.
Qed.

Lemma load_config_damaged (w : world) (f : file) (s : str) :
  fs w CONFIG_FILE = Some f -> content f = Plain s ->
  Cli.load_config w = (Raise JSONDecodeError, w).
Proof.
  intros Hf Hc. unfold Cli.load_config, bind, exists_file, json_load.
  rewrite Hf; cbn; now rewrite Hf, Hc.
Qed.

(** X28.  [load_config] has no handler: when [config.json] holds no JSON
    document, every operation that reads it raises [JSONDecodeError]
    before it writes anything.  These are [set_model] of [clawapi.py] and,
    in [webui.py], the routes [/add_key], [/remove_key], [/set_model] and
    the functions [get_configured_providers] and [get_selected_models]
    behind the pages. *)
Theorem damaged_config_stops_every_reader (w : world) (f : file) (s : str) :
  fs w CONFIG_FILE = Some f -> content f = Plain s ->
  (forall pid model, Cli.set_model pid model w = (Raise JSONDecodeError, w)) /\
  (forall provider default_model,
     WebUI.add_key provider default_model w = (Raise JSONDecodeError, w)) /\
  (forall pid, WebUI.remove_key pid w = (Raise JSONDecodeError, w)) /\
  (forall pid model, WebUI.set_model pid model w = (Raise JSONDecodeError, w)) /\
  WebUI.get_configured_providers w = (Raise JSONDecodeError, w) /\
  WebUI.get_selected_models w = (Raise JSONDecodeError, w).
Proof.
  intros Hf Hc.
  pose proof (load_config_damaged w f s Hf Hc) as Hcfg.
  destruct (load_keys_total w) as [keys Hkeys].
  repeat match goal with |- _ /\ _ => split end; intros.
  - unfold Cli.set_model, bind. now rewrite Hcfg.
  - unfold WebUI.add_key, WebUI.load_keys, WebUI.load_config.
    rewrite (bind_ok _ _ _ _ _ Hkeys). unfold bind. now rewrite Hcfg.
  - unfold WebUI.remove_key, WebUI.load_keys, WebUI.load_config.
    rewrite (bind_ok _ _ _ _ _ Hkeys). unfold bind. now rewrite Hcfg.
  - unfold WebUI.set_model, WebUI.load_config, bind. now rewrite Hcfg.
  - unfold WebUI.get_configured_providers, WebUI.load_keys, WebUI.load_config.
    rewrite (bind_ok _ _ _ _ _ Hkeys). unfold bind. now rewrite Hcfg.
  - unfold WebUI.get_selected_models, WebUI.load_config, bind. now rewrite Hcfg.
Qed.

Definition w_damaged_config : world :=
  {| master_key := None; log := None;
     fs := upd KEYS_FILE
             (Some {| content := Text (JObj [("openai", JStr "c1");
                                               ("anthropic", JStr "c2")]);
                      mode := Some 384%N |})
             (upd CONFIG_FILE
                (Some {| content := Plain "{selected_models: "; mode := None |})
                (fun _ => None));
     seed := 7; now := "2026-01-02 03:04:05" |}.

Lemma damaged_config_stops_every_reader_witness :
  (forall pid model,
     Cli.set_model pid model w_damaged_config
     = (Raise JSONDecodeError, w_damaged_config)) /\
  (forall provider default_model,
     WebUI.add_key provider default_model w_damaged_config
     = (Raise JSONDecodeError, w_damaged_config)) /\
  (forall pid, WebUI.remove_key pid w_damaged_config
               = (Raise JSONDecodeError, w_damaged_config)) /\
  (forall pid model,
     WebUI.set_model pid model w_damaged_config
     = (Raise JSONDecodeError, w_damaged_config)) /\
  WebUI.get_configured_providers w_damaged_config
  = (Raise JSONDecodeError, w_damaged_config) /\
  WebUI.get_selected_models w_damaged_config
  = (Raise JSONDecodeError, w_damaged_config).
Proof.
  apply (damaged_config_stops_every_reader w_damaged_config
           {| content := Plain "{selected_models: "; mode := None |}
           "{selected_models: "); reflexivity.
Defined.

(** X29.  [remove_provider] of [clawapi.py] saves the vault before it
    reads [config.json]: when that file holds no JSON document, the call
    raises [JSONDecodeError] after the vault entry is gone, and
    [config.json] is left as it was. *)
Theorem remove_provider_stops_half_way (pid : str) (w : world) (keys : dict json)
        (f : file) (s : str) :
  fst (Cli.load_keys w) = Ok (JObj keys) ->
  dict_mem pid keys = true ->
  fs w CONFIG_FILE = Some f -> content f = Plain s ->
  exists w',
    Cli.remove_provider pid w = (Raise JSONDecodeError, w') /\
    fst (Cli.load_keys w') = Ok (JObj (dict_del pid keys)) /\
    stored w' pid = None /\
    fs w' CONFIG_FILE = Some f.
Proof.
  intros Hkeys Hin Hf Hc.
  destruct (save_keys_cli_run (JObj (dict_del pid keys)) w)
    as (wa & Hsave & Hkeys' & Hframe & _).
  assert (Hfa : fs wa CONFIG_FILE = Some f).
  { rewrite <- Hf. apply Hframe, config_not_keys. }
  exists wa. split; [|split; [exact Hkeys'|split; [|exact Hfa]]].
  - unfold Cli.remove_provider.
    rewrite (bind_ok _ _ _ _ _ (load_keys_cli_run _ _ Hkeys)).
    rewrite bind_lift. cbn [py_in]. rewrite Hin.
    rewrite bind_lift. cbn [py_delitem]. rewrite Hin.
    rewrite (bind_ok _ _ _ _ _ Hsave).
    unfold bind. now rewrite (load_config_damaged wa f s Hfa Hc).
  - rewrite (stored_of_keys _ _ _ Hkeys'). cbn [json_at].
    now rewrite dict_get_del_same.
Qed.

Lemma remove_provider_stops_half_way_witness :
  exists w',
    Cli.remove_provider "openai" w_damaged_config = (Raise JSONDecodeError, w') /\
    fst (Cli.load_keys w') = Ok (JObj (dict_del "openai"
                                         [("openai", JStr "c1");
                                          ("anthropic", JStr "c2")])) /\
    stored w' "openai" = None /\
    fs w' CONFIG_FILE =
      Some {| content := Plain "{selected_models: "; mode := None |}.
Proof.
  apply (remove_provider_stops_half_way "openai" w_damaged_config
           [("openai", JStr "c1"); ("anthropic", JStr "c2")]
           {| content := Plain "{selected_models: "; mode := None |}
           "{selected_models: "); reflexivity.
Defined.
